(** * MCP agent: a shallow embedding of the request pipeline

    The development follows the Python modules of [src/agent]:
    [utils.py] (module [Utils]), [config_manager.py] ([ConfigManager]),
    [connection_manager.py] ([ConnectionManager]), [llm_interface.py]
    ([LLMInterface]) and [mcp_agent.py] ([MCPAgent]).

    Python values are dynamically typed, so the values that travel through
    the pipeline (decoded JSON and YAML, verdicts, tasks, responses) are
    one inductive type [pyval].  A Python [str] is a sequence of code
    points, [list Z]; lone surrogates are ordinary elements of it.
    Exceptions are explicit: a computation that can raise returns an
    [outcome].  The collaborators the code only calls (the chat-completion
    backend, the MCP transport, [json.loads], [re.search], [yaml.safe_load],
    the file system, the cp932 codec, the built-in [str()] of non-string
    objects and the console that [print] writes to) are fields of
    environment records; every theorem quantifies over them.  Every call
    of [Logger.ulog] is a step of the run: the line goes to the console,
    and an exception of [print] is an exception of the caller. *)

From Stdlib Require Import String Ascii ZArith QArith Bool Lia List.
Import ListNotations.
Open Scope Z_scope.

Set Implicit Arguments.
Set Warnings "-register-all".

(** ** Python strings *)

Definition pystr := list Z.

Definition bytes_of_string (s : string) : list Z :=
  map (fun a => Z.of_N (N_of_ascii a)) (list_ascii_of_string s).

(** UTF-8 decoding of a source literal into code points: [need] counts the
    continuation bytes still expected and [acc] holds the bits read so far. *)
Fixpoint utf8_go (bs : list Z) (need : nat) (acc : Z) : pystr :=
  match bs with
  | [] => []
  | b :: bs' =>
      match need with
      | O =>
          if b <? 0x80 then b :: utf8_go bs' 0 0
          else if b <? 0xE0 then utf8_go bs' 1 (Z.land b 0x1F)
          else if b <? 0xF0 then utf8_go bs' 2 (Z.land b 0x0F)
          else utf8_go bs' 3 (Z.land b 0x07)
      | S O => (acc * 64 + Z.land b 0x3F) :: utf8_go bs' 0 0
      | S n => utf8_go bs' n (acc * 64 + Z.land b 0x3F)
      end
  end.

(** [py "..."] is the Python string literal with the same text. *)
Definition py (s : string) : pystr := utf8_go (bytes_of_string s) 0 0.
Arguments py s : simpl never.

Fixpoint pystr_eqb (a b : pystr) : bool :=
  match a, b with
  | [], [] => true
  | x :: a', y :: b' => (x =? y) && pystr_eqb a' b'
  | _, _ => false
  end.

(** [str(n)] of a natural number: its decimal digits. *)
Fixpoint digits (d : Decimal.uint) : pystr :=
  match d with
  | Decimal.Nil => []
  | Decimal.D0 d' => 48 :: digits d'
  | Decimal.D1 d' => 49 :: digits d'
  | Decimal.D2 d' => 50 :: digits d'
  | Decimal.D3 d' => 51 :: digits d'
  | Decimal.D4 d' => 52 :: digits d'
  | Decimal.D5 d' => 53 :: digits d'
  | Decimal.D6 d' => 54 :: digits d'
  | Decimal.D7 d' => 55 :: digits d'
  | Decimal.D8 d' => 56 :: digits d'
  | Decimal.D9 d' => 57 :: digits d'
  end.

Definition str_of_nat (n : nat) : pystr := digits (Nat.to_uint n).

(** [sep.join(parts)] *)
Fixpoint join (sep : pystr) (parts : list pystr) : pystr :=
  match parts with
  | [] => []
  | [p] => p
  | p :: rest => p ++ sep ++ join sep rest
  end.

Fixpoint is_prefix (p s : pystr) : bool :=
  match p, s with
  | [], _ => true
  | x :: p', y :: s' => (x =? y) && is_prefix p' s'
  | _ :: _, [] => false
  end.

(** [sub in s] on strings *)
Fixpoint is_substring (sub s : pystr) : bool :=
  is_prefix sub s ||
  match s with
  | [] => false
  | _ :: s' => is_substring sub s'
  end.

(** [l[start:]] with Python's treatment of negative and out-of-range
    starts. *)
Definition slice_from {A} (l : list A) (start : Z) : list A :=
  let n := Z.of_nat (length l) in
  let i := if start <? 0 then Z.max 0 (start + n) else Z.min start n in
  skipn (Z.to_nat i) l.

(** ** Dynamic values, exceptions, outcomes *)

Inductive pyval :=
| PNone
| PBool (b : bool)
| PInt (z : Z)
| PFloat (q : Q)
| PStr (s : pystr)
| PList (l : list pyval)
| PDict (d : list (pystr * pyval)).

(** The classes of [Exception] the code raises or catches by name, and
    the one [print] raises on a text its stream cannot encode;
    [OtherError] stands for any other subclass of [Exception] raised by a
    collaborator. *)
Inductive exn_class :=
| AttributeError | TypeError | ValueError | RuntimeError
| KeyError | IndexError | JSONDecodeError | UnicodeEncodeError | OtherError.

Record exn := mk_exn { exn_type : exn_class; exn_str : pystr }.

Inductive outcome (A : Type) :=
| Ret (a : A)
| Raise (e : exn).
Arguments Ret {A} a.
Arguments Raise {A} e.

Definition is_json_decode_error (e : exn) : bool :=
  match exn_type e with JSONDecodeError => true | _ => false end.

Definition bind {A B} (m : outcome A) (k : A -> outcome B) : outcome B :=
  match m with
  | Ret a => k a
  | Raise e => Raise e
  end.

Declare Scope outcome_scope.
Delimit Scope outcome_scope with outcome.
Notation "x <- m ;; k" := (bind m (fun x => k))
  (at level 61, m at next level, right associativity) : outcome_scope.
Open Scope outcome_scope.

(** ** Insertion-ordered dictionaries with string keys

    A Python [dict] iterates in insertion order and assignment to a key
    that is present keeps its position; the registry and the connection
    table are iterated, so they are association lists, not finite maps. *)
Module PyDict.

Definition t (V : Type) := list (pystr * V).

Fixpoint get {V} (d : t V) (k : pystr) : option V :=
  match d with
  | [] => None
  | (k', v) :: d' => if pystr_eqb k' k then Some v else get d' k
  end.

Definition mem {V} (d : t V) (k : pystr) : bool :=
  match get d k with Some _ => true | None => false end.

(** [d[k] = v] *)
Fixpoint set {V} (d : t V) (k : pystr) (v : V) : t V :=
  match d with
  | [] => [(k, v)]
  | (k', v') :: d' =>
      if pystr_eqb k' k then (k', v) :: d' else (k', v') :: set d' k v
  end.

Definition keys {V} (d : t V) : list pystr := map fst d.
Definition values {V} (d : t V) : list V := map snd d.

End PyDict.

(** [obj.get(key, default)]: only a [dict] has the method. *)
Definition py_get (obj : pyval) (key : pystr) (default : pyval) : outcome pyval :=
  match obj with
  | PDict d =>
      Ret match PyDict.get d key with Some v => v | None => default end
  | _ => Raise (mk_exn AttributeError (py "object has no attribute 'get'"))
  end.

(** [v == s] for a string literal [s]. *)
Definition py_eq_str (v : pyval) (s : pystr) : bool :=
  match v with
  | PStr t => pystr_eqb t s
  | _ => false
  end.

(** Truth value of an object. *)
Definition py_truthy (v : pyval) : bool :=
  match v with
  | PNone => false
  | PBool b => b
  | PInt z => negb (z =? 0)
  | PFloat q => negb (Qnum q =? 0)
  | PStr s => match s with [] => false | _ => true end
  | PList l => match l with [] => false | _ => true end
  | PDict d => match d with [] => false | _ => true end
  end.

(** ** utils.py *)
Module Utils.

(** What the code reads from the interpreter: [sys.platform], the cp932
    codec ([str.encode] with [errors='replace'], [bytes.decode]), the
    built-in [str()] of an object that is not a string, and the upper
    case of the characters outside ASCII (one character may map to
    several). *)
Record Platform := {
  win32 : bool;
  cp932_encode_replace : pystr -> outcome (list Z);
  cp932_decode : list Z -> outcome pystr;
  str_of : pyval -> pystr;
  unicode_upper : Z -> pystr
}.

(** The console, [sys.stdout]: [print] of a line writes it or raises, as
    the stream decides (an encoding that cannot represent the line, a
    stream that is closed).  It also receives the number of lines
    written before. *)
Record Console := {
  print : nat -> pystr -> outcome unit
}.

Definition is_surrogate (c : Z) : bool := (0xD800 <=? c) && (c <=? 0xDFFF).

Definition question_mark : Z := 63.

(** The generator expression of lines 27-30. *)
Definition replace_surrogates (text : pystr) : pystr :=
  map (fun char => if negb (is_surrogate char) then char else question_mark) text.

(** [safe_str] applied to a value that [str()] has already turned into
    [text]. *)
Definition safe_str (p : Platform) (text : pystr) : pystr :=
  if win32 p then
    match cp932_encode_replace p text with
    | Ret encoded =>
        match cp932_decode p encoded with
        | Ret decoded => decoded
        | Raise _ => replace_surrogates text
        end
    | Raise _ => replace_surrogates text
    end
  else replace_surrogates text.

Definition no_surrogate (s : pystr) : Prop :=
  Forall (fun c => is_surrogate c = false) s.

(** The cp932 decoder yields no surrogate code point: its table has
    none. *)
Definition decoder_sound (p : Platform) : Prop :=
  forall bs s, cp932_decode p bs = Ret s -> no_surrogate s.

(** What the claim promises of a sanitised text: the same length, each
    surrogate replaced by the placeholder, every other character kept. *)
Definition only_surrogates_replaced (sent got : pystr) : Prop :=
  length got = length sent /\
  forall i c, nth_error sent i = Some c ->
    nth_error got i = Some (if is_surrogate c then question_mark else c).

(** [f"{v}"]: a string is interpolated as it is. *)
Definition format_value (p : Platform) (v : pyval) : pystr :=
  match v with
  | PStr s => s
  | _ => str_of p v
  end.

End Utils.

(** [key in obj] for a string [key]: key membership in a dict, element
    membership in a list, substring test in a string; other objects are
    not iterable. *)
Definition py_contains_str (obj : pyval) (key : pystr) : outcome bool :=
  match obj with
  | PDict d => Ret (PyDict.mem d key)
  | PList l => Ret (existsb (fun v => py_eq_str v key) l)
  | PStr s => Ret (is_substring key s)
  | _ => Raise (mk_exn TypeError (py "argument is not iterable"))
  end.

(** [obj[key]] for a string [key]. *)
Definition py_getitem_str (obj : pyval) (key : pystr) : outcome pyval :=
  match obj with
  | PDict d =>
      match PyDict.get d key with
      | Some v => Ret v
      | None => Raise (mk_exn KeyError key)
      end
  | _ => Raise (mk_exn TypeError (py "indices must be integers"))
  end.

(** ** config_manager.py

    The dataclasses do not check field types and [dict.get] returns
    whatever the YAML document holds, so every field is a [pyval].  YAML
    mappings are read through string keys only; entries under other keys
    are invisible to the code and are left out of [PDict]. *)
Module ConfigManager.

Record DisplayConfig := {
  ui_mode : pyval; show_timing : pyval; show_thinking : pyval }.

Record RetryStrategyConfig := {
  rs_max_retries : pyval;
  progressive_temperature : pyval;
  initial_temperature : pyval;
  temperature_increment : pyval }.

Record ExecutionConfig := {
  max_retries : pyval;
  timeout_seconds : pyval;
  fallback_enabled : pyval;
  max_tasks : pyval;
  retry_strategy : RetryStrategyConfig }.

Record LLMConfig := {
  model : pyval;
  temperature : pyval;
  force_json : pyval;
  reasoning_effort : pyval;
  max_completion_tokens : pyval }.

Record InterruptHandlingConfig := {
  timeout : pyval; non_interactive_default : pyval }.

Record ConversationConfig := {
  context_limit : pyval; max_history : pyval }.

Record ErrorHandlingConfig := {
  auto_correct_params : pyval; retry_interval : pyval }.

Record DevelopmentConfig := {
  verbose : pyval; log_level : pyval; show_api_calls : pyval }.

Record ResultDisplayConfig := {
  max_result_length : pyval; show_truncated_info : pyval }.

Record Config := {
  display : DisplayConfig;
  execution : ExecutionConfig;
  llm : LLMConfig;
  conversation : ConversationConfig;
  error_handling : ErrorHandlingConfig;
  development : DevelopmentConfig;
  result_display : ResultDisplayConfig;
  interrupt_handling : InterruptHandlingConfig }.

(** The field defaults of the dataclasses. *)
Definition DisplayConfig_default : DisplayConfig :=
  {| ui_mode := PStr (py "basic"); show_timing := PBool true;
     show_thinking := PBool true |}.

Definition RetryStrategyConfig_default : RetryStrategyConfig :=
  {| rs_max_retries := PInt 3; progressive_temperature := PBool true;
     initial_temperature := PFloat (1 # 10);
     temperature_increment := PFloat (2 # 10) |}.

Definition ExecutionConfig_default : ExecutionConfig :=
  {| max_retries := PInt 3; timeout_seconds := PInt 30;
     fallback_enabled := PBool false; max_tasks := PInt 10;
     retry_strategy := RetryStrategyConfig_default |}.

Definition LLMConfig_default : LLMConfig :=
  {| model := PStr (py "gpt-4o-mini"); temperature := PFloat (2 # 10);
     force_json := PBool true; reasoning_effort := PStr (py "minimal");
     max_completion_tokens := PInt 5000 |}.

Definition InterruptHandlingConfig_default : InterruptHandlingConfig :=
  {| timeout := PFloat (10 # 1);
     non_interactive_default := PStr (py "abort") |}.

Definition ConversationConfig_default : ConversationConfig :=
  {| context_limit := PInt 10; max_history := PInt 50 |}.

Definition ErrorHandlingConfig_default : ErrorHandlingConfig :=
  {| auto_correct_params := PBool true; retry_interval := PFloat (1 # 1) |}.

Definition DevelopmentConfig_default : DevelopmentConfig :=
  {| verbose := PBool true; log_level := PStr (py "INFO");
     show_api_calls := PBool true |}.

Definition ResultDisplayConfig_default : ResultDisplayConfig :=
  {| max_result_length := PInt 1000; show_truncated_info := PBool true |}.

(** [Config()] *)
Definition Config_default : Config :=
  {| display := DisplayConfig_default;
     execution := ExecutionConfig_default;
     llm := LLMConfig_default;
     conversation := ConversationConfig_default;
     error_handling := ErrorHandlingConfig_default;
     development := DevelopmentConfig_default;
     result_display := ResultDisplayConfig_default;
     interrupt_handling := InterruptHandlingConfig_default |}.

(** What [load] reads from the operating system and from PyYAML:
    [os.path.exists], opening and reading the file, [yaml.safe_load]. *)
Record FileSystem := {
  path_exists : pystr -> bool;
  open_read : pystr -> outcome pystr;
  yaml_safe_load : pystr -> outcome pyval
}.

(** The eight [if "..." in data:] blocks of [_create_config_from_dict],
    one builder per block. *)
Definition display_from (display_data : pyval) : outcome DisplayConfig :=
  a <- py_get display_data (py "ui_mode") (PStr (py "basic")) ;;
  b <- py_get display_data (py "show_timing") (PBool true) ;;
  c <- py_get display_data (py "show_thinking") (PBool true) ;;
  Ret {| ui_mode := a; show_timing := b; show_thinking := c |}.

Definition execution_from (exec_data : pyval) : outcome ExecutionConfig :=
  retry_data <- py_get exec_data (py "retry_strategy") (PDict []) ;;
  a <- py_get exec_data (py "max_retries") (PInt 3) ;;
  b <- py_get exec_data (py "timeout_seconds") (PInt 30) ;;
  c <- py_get exec_data (py "fallback_enabled") (PBool false) ;;
  d <- py_get exec_data (py "max_tasks") (PInt 10) ;;
  r1 <- py_get retry_data (py "max_retries") (PInt 3) ;;
  r2 <- py_get retry_data (py "progressive_temperature") (PBool true) ;;
  r3 <- py_get retry_data (py "initial_temperature") (PFloat (1 # 10)) ;;
  r4 <- py_get retry_data (py "temperature_increment") (PFloat (2 # 10)) ;;
  Ret {| max_retries := a; timeout_seconds := b; fallback_enabled := c;
         max_tasks := d;
         retry_strategy :=
           {| rs_max_retries := r1; progressive_temperature := r2;
              initial_temperature := r3; temperature_increment := r4 |} |}.

Definition llm_from (llm_data : pyval) : outcome LLMConfig :=
  a <- py_get llm_data (py "model") (PStr (py "gpt-4o-mini")) ;;
  b <- py_get llm_data (py "temperature") (PFloat (2 # 10)) ;;
  c <- py_get llm_data (py "force_json") (PBool true) ;;
  d <- py_get llm_data (py "reasoning_effort") (PStr (py "minimal")) ;;
  e <- py_get llm_data (py "max_completion_tokens") (PInt 5000) ;;
  Ret {| model := a; temperature := b; force_json := c;
         reasoning_effort := d; max_completion_tokens := e |}.

Definition conversation_from (conv_data : pyval) : outcome ConversationConfig :=
  a <- py_get conv_data (py "context_limit") (PInt 10) ;;
  b <- py_get conv_data (py "max_history") (PInt 50) ;;
  Ret {| context_limit := a; max_history := b |}.

Definition error_handling_from (error_data : pyval) : outcome ErrorHandlingConfig :=
  a <- py_get error_data (py "auto_correct_params") (PBool true) ;;
  b <- py_get error_data (py "retry_interval") (PFloat (1 # 1)) ;;
  Ret {| auto_correct_params := a; retry_interval := b |}.

Definition development_from (dev_data : pyval) : outcome DevelopmentConfig :=
  a <- py_get dev_data (py "verbose") (PBool true) ;;
  b <- py_get dev_data (py "log_level") (PStr (py "INFO")) ;;
  c <- py_get dev_data (py "show_api_calls") (PBool true) ;;
  Ret {| verbose := a; log_level := b; show_api_calls := c |}.

Definition result_display_from (result_data : pyval) : outcome ResultDisplayConfig :=
  a <- py_get result_data (py "max_result_length") (PInt 1000) ;;
  b <- py_get result_data (py "show_truncated_info") (PBool true) ;;
  Ret {| max_result_length := a; show_truncated_info := b |}.

Definition interrupt_handling_from (interrupt_data : pyval)
  : outcome InterruptHandlingConfig :=
  a <- py_get interrupt_data (py "timeout") (PFloat (10 # 1)) ;;
  b <- py_get interrupt_data (py "non_interactive_default") (PStr (py "abort")) ;;
  Ret {| timeout := a; non_interactive_default := b |}.

(** [if key in data: field = build(data[key])], the field keeping its
    default otherwise. *)
Definition block {T} (data : pyval) (key : pystr)
    (build : pyval -> outcome T) (default : T) : outcome T :=
  present <- py_contains_str data key ;;
  if present then (sub <- py_getitem_str data key ;; build sub)
  else Ret default.

Definition _create_config_from_dict (data : pyval) : outcome Config :=
  let config := Config_default in
  f1 <- block data (py "display") display_from (display config) ;;
  f2 <- block data (py "execution") execution_from (execution config) ;;
  f3 <- block data (py "llm") llm_from (llm config) ;;
  f4 <- block data (py "conversation") conversation_from (conversation config) ;;
  f5 <- block data (py "error_handling") error_handling_from (error_handling config) ;;
  f6 <- block data (py "development") development_from (development config) ;;
  f7 <- block data (py "result_display") result_display_from (result_display config) ;;
  f8 <- block data (py "interrupt_handling") interrupt_handling_from
          (interrupt_handling config) ;;
  Ret {| display := f1; execution := f2; llm := f3; conversation := f4;
         error_handling := f5; development := f6; result_display := f7;
         interrupt_handling := f8 |}.

(** The body of the [try] of [load]. *)
Definition read_config (fs : FileSystem) (config_path : pystr) : outcome Config :=
  text <- open_read fs config_path ;;
  yaml_data <- yaml_safe_load fs text ;;
  _create_config_from_dict (if py_truthy yaml_data then yaml_data else PDict []).

Definition load (fs : FileSystem) (config_path : pystr) : outcome Config :=
  if negb (path_exists fs config_path) then Ret Config_default
  else
    match read_config fs config_path with
    | Ret config => Ret config
    | Raise e =>
        Raise (mk_exn ValueError (py "設定ファイル読み込みエラー: " ++ exn_str e))
    end.

End ConfigManager.

(** ** The observable trace of a run

    Requests sent to the chat-completion backend, calls sent to tool
    servers and lines written to the console, oldest first. *)

(** An f-string prompt, by its template and the values interpolated in it. *)
Inductive Prompt :=
| ClassifyPrompt (tools_info recent_context user_query : pystr)
| PlanPrompt (user_query custom_instructions tools_info context : pystr)
| InterpretPrompt (user_query custom_instructions : pystr)
    (results : list pyval) (context : pystr).

Record LLMRequest := {
  req_model : pyval;
  req_role : pystr;
  req_prompt : Prompt;
  req_temperature : Q;
  req_max_completion_tokens : pyval;
  req_response_format : option pystr
}.

Record Invocation := {
  inv_server : pystr;
  inv_tool : pystr;
  inv_arguments : pyval
}.

Record World := {
  llm_calls : list LLMRequest;
  tool_calls : list Invocation;
  printed : list pystr
}.

Definition World_empty : World :=
  {| llm_calls := []; tool_calls := []; printed := [] |}.

(** A computation on a state [S] that may raise; what it did to the
    state before it raised stays done, as an assignment to an attribute
    of [self] does. *)
Definition ST (S A : Type) := S -> outcome A * S.

(** A computation that may raise and that extends the trace. *)
Definition M (A : Type) := ST World A.

Definition retM {S A} (a : A) : ST S A := fun s => (Ret a, s).

Definition liftM {S A} (o : outcome A) : ST S A := fun s => (o, s).

Definition bindM {S A B} (m : ST S A) (k : A -> ST S B) : ST S B :=
  fun s =>
    match m s with
    | (Ret a, s') => k a s'
    | (Raise e, s') => (Raise e, s')
    end.

(** [try: body except Exception as e: handler]; what [body] did before
    it raised stays done, and an exception of [handler] is an exception
    of the whole. *)
Definition try_except {S A} (body : ST S A) (handler : exn -> ST S A) : ST S A :=
  fun s =>
    match body s with
    | (Ret a, s') => (Ret a, s')
    | (Raise e, s') => handler e s'
    end.

Notation "x <~ m ;; k" := (bindM m (fun x => k))
  (at level 61, m at next level, right associativity) : outcome_scope.

(** [for item in items: body] *)
Fixpoint for_each {S A} (items : list A) (body : A -> ST S unit) : ST S unit :=
  match items with
  | [] => retM tt
  | item :: rest => _ <~ body item ;; for_each rest body
  end.

(** [m] keeps the property [I] of the state, whether it returns or
    raises. *)
Definition preserves {S A} (I : S -> Prop) (m : ST S A) : Prop :=
  forall s, I s -> I (snd (m s)).

(** Computations that send nothing to tool servers, and computations
    that send nothing to the backend. *)
Definition keeps_tool_calls {A} (m : M A) : Prop :=
  forall w, tool_calls (snd (m w)) = tool_calls w.

Definition keeps_llm_calls {A} (m : M A) : Prop :=
  forall w, llm_calls (snd (m w)) = llm_calls w.

(** Computations that write nothing to the console. *)
Definition keeps_printed {A} (m : M A) : Prop :=
  forall w, printed (snd (m w)) = printed w.

(** [str.isspace] on one character. *)
Definition is_space (c : Z) : bool :=
  ((9 <=? c) && (c <=? 13)) || ((28 <=? c) && (c <=? 32)) ||
  (c =? 0x85) || (c =? 0xA0) || (c =? 0x1680) ||
  ((0x2000 <=? c) && (c <=? 0x200A)) ||
  (c =? 0x2028) || (c =? 0x2029) || (c =? 0x202F) || (c =? 0x205F) ||
  (c =? 0x3000).

Fixpoint lstrip (s : pystr) : pystr :=
  match s with
  | c :: s' => if is_space c then lstrip s' else s
  | [] => []
  end.

(** [s.strip()] *)
Definition strip (s : pystr) : pystr := rev (lstrip (rev (lstrip s))).

Definition nl : pystr := [10].

(** ** utils.py: the logger

    [ulog] is the line a call of [Logger.ulog] hands to [print], or
    [None] when it prints nothing; [emit] is the call as a step of a
    run. *)

(** [s.upper()].  ASCII letters are mapped here; [full_upper] is the
    upper-case mapping of Unicode for the other characters (one character
    may map to several). *)
Definition upper (full_upper : Z -> pystr) (s : pystr) : pystr :=
  flat_map (fun c =>
              if c <? 128
              then [if (97 <=? c) && (c <=? 122) then c - 32 else c]
              else full_upper c) s.

Module Logger.
Import Utils.

Definition LEVEL_PRIORITY : PyDict.t Z :=
  [(py "DEBUG", 10); (py "INFO", 20); (py "WARNING", 30); (py "ERROR", 40)].

Record Logger := { verbose : bool; log_level : pystr; min_priority : Z }.

(** [LEVEL_PRIORITY.get(name, 20)] *)
Definition priority (name : pystr) : Z :=
  match PyDict.get LEVEL_PRIORITY name with
  | Some p => p
  | None => 20
  end.

(** [__init__] *)
Definition new (full_upper : Z -> pystr) (verbose : bool) (log_level : pystr)
  : Logger :=
  let log_level := upper full_upper log_level in
  {| verbose := verbose; log_level := log_level;
     min_priority := priority log_level |}.

Definition should_log (full_upper : Z -> pystr) (self : Logger) (level : pystr)
  : bool :=
  let level := upper full_upper level in
  min_priority self <=? priority level.

(** [level.split(':', 1)]: the part before the first colon, and the part
    after it when there is a colon. *)
Fixpoint split_colon (level : pystr) : pystr * option pystr :=
  match level with
  | [] => ([], None)
  | c :: rest =>
      if c =? 58 then ([], Some rest)
      else let (head, tail) := split_colon rest in (c :: head, tail)
  end.

Definition prefixes : PyDict.t pystr :=
  [(py "session", py "[セッション]");
   (py "request", py "[リクエスト]");
   (py "interrupt", py "[中断]");
   (py "warning", py "[警告]");
   (py "error", py "[エラー]");
   (py "info", py "[情報]");
   (py "retry", py "[リトライ]");
   (py "connection", py "[接続管理]");
   (py "init", py "[初期化]");
   (py "collection", py "[収集]");
   (py "correction", py "[修正]");
   (py "success", py "[成功]");
   (py "classification", py "[分類]");
   (py "completed", py "[完了]");
   (py "failed", py "[失敗]");
   (py "param", py "[パラメータ]");
   (py "analysis", py "[分析]");
   (py "llm_judgment", py "[LLM判断]");
   (py "startup", py "[起動]");
   (py "command", py "[コマンド]")].

Definition bracketed (s : pystr) : pystr := py "[" ++ s ++ py "]".

(** [ulog]; an empty [prefix_key] is false in [if prefix_key:]. *)
Definition ulog (full_upper : Z -> pystr) (self : Logger)
    (message level : pystr) (always_print show_level : bool) : option pystr :=
  let (log_level, prefix_key) := split_colon level in
  if negb (should_log full_upper self log_level) && negb always_print then None
  else if verbose self || always_print then
    match prefix_key with
    | Some (c :: key) =>
        let prefix_key := c :: key in
        let prefix :=
          match PyDict.get prefixes prefix_key with
          | Some prefix => prefix
          | None => bracketed (upper full_upper prefix_key)
          end in
        if show_level then
          let level_prefix := bracketed (upper full_upper log_level) in
          Some (level_prefix ++ py " " ++ prefix ++ py " " ++ message)
        else Some (prefix ++ py " " ++ message)
    | _ =>
        if show_level then
          let level_prefix := bracketed (upper full_upper log_level) in
          Some (level_prefix ++ py " " ++ message)
        else Some message
    end
  else None.

Definition record_line (line : pystr) (w : World) : World :=
  {| llm_calls := llm_calls w; tool_calls := tool_calls w;
     printed := printed w ++ [line] |}.

(** [print(line)] *)
Definition print_line (c : Console) (line : pystr) : M unit :=
  fun w =>
    match print c (length (printed w)) line with
    | Ret _ => (Ret tt, record_line line w)
    | Raise e => (Raise e, w)
    end.

(** [self.ulog(message, level, always_print, show_level)] *)
Definition emit (p : Platform) (c : Console) (self : Logger)
    (message level : pystr) (always_print show_level : bool) : M unit :=
  match ulog (unicode_upper p) self message level always_print show_level with
  | Some line => print_line c line
  | None => retM tt
  end.

(** A verbose logger at the default level, as [Logger(verbose=True)]
    is. *)
Definition outspoken (self : Logger) : Prop :=
  verbose self = true /\ min_priority self = 20.

(** Logging cannot fail: the logger is not verbose, so that it prints
    nothing unless told [always_print], or the console refuses no line
    (as a stream opened with [errors='replace'] does not, for what
    encoding is concerned). *)
Definition unfailing (c : Console) (self : Logger) : Prop :=
  verbose self = false \/ forall n line, print c n line = Ret tt.

End Logger.

(** ** connection_manager.py *)
Module ConnectionManager.
Import Utils.

(** An entry of [self.servers] as [_load_config] builds it from the
    [mcpServers] format. *)
Record ServerInfo := { name : pystr; path : list pystr }.

(** A connected client: the transport it was opened with. *)
Record Client := { command : pystr; args : list pystr }.

(** A tool as [list_tools] reports it; [None] is an attribute the object
    does not have. *)
Record Tool := {
  tool_name : pystr;
  inputSchema : option pyval;
  tool_description : option pyval
}.

(** A value of [self.tools_info]: the dict with keys ["server"],
    ["schema"] and ["description"]. *)
Record ToolInfo := { server : pystr; schema : pyval; description : pyval }.

(** A content item of a call result: with a string [text], or without
    the attribute. *)
Inductive ContentItem :=
| TextContent (text : pystr)
| OtherContent.

(** What [client.call_tool] returns: an object with an iterable
    [content], or any other object, given by its [str()]. *)
Inductive CallResult :=
| WithContent (content : list ContentItem)
| Opaque (str : pystr).

(** The MCP client library, by server name.  [call] also receives the
    number of calls sent before it, so a server may answer the same
    call differently over time. *)
Record Transport := {
  aenter : pystr -> Client -> outcome unit;
  list_tools : pystr -> Client -> outcome (list Tool);
  call : nat -> pystr -> pystr -> pyval -> outcome CallResult;
  aexit : pystr -> Client -> outcome unit
}.

Record Manager := {
  verbose : pyval;
  servers : PyDict.t ServerInfo;
  clients : PyDict.t Client;
  tools_info : PyDict.t ToolInfo;
  _initialized : bool
}.

(** The state [__init__] leaves once [_load_config] has read
    [servers]. *)
Definition new (servers : PyDict.t ServerInfo) (verbose : pyval) : Manager :=
  {| verbose := verbose; servers := servers; clients := []; tools_info := [];
     _initialized := false |}.

(** [self.logger], which [__init__] builds as [Logger(verbose=verbose)]. *)
Definition logger (p : Platform) (self : Manager) : Logger.Logger :=
  Logger.new (unicode_upper p) (py_truthy (verbose self)) (py "INFO").

(** A method that assigns to attributes of [self] and writes to the
    console. *)
Definition Op (A : Type) := ST (Manager * World) A.

Definition this : Op Manager := fun s => (Ret (fst s), s).

Definition update (f : Manager -> Manager) : Op unit :=
  fun s => (Ret tt, (f (fst s), snd s)).

Definition in_world {A} (m : M A) : Op A :=
  fun s => let (o, w) := m (snd s) in (o, (fst s, w)).

(** [self.logger.ulog(message, level)] *)
Definition log (p : Platform) (c : Console) (message level : pystr) : Op unit :=
  self <~ this ;;
  in_world (Logger.emit p c (logger p self) message level false false).

Definition set_clients (clients : PyDict.t Client) (self : Manager) : Manager :=
  {| verbose := verbose self; servers := servers self; clients := clients;
     tools_info := tools_info self; _initialized := _initialized self |}.

Definition set_tools_info (tools_info : PyDict.t ToolInfo) (self : Manager)
  : Manager :=
  {| verbose := verbose self; servers := servers self; clients := clients self;
     tools_info := tools_info; _initialized := _initialized self |}.

Definition set_initialized (initialized : bool) (self : Manager) : Manager :=
  {| verbose := verbose self; servers := servers self; clients := clients self;
     tools_info := tools_info self; _initialized := initialized |}.

(** One iteration of the loop of [_connect_all_servers]; an empty
    [path] raises [IndexError] inside the [try]. *)
Definition connect_server (p : Platform) (c : Console) (tr : Transport)
    (item : pystr * ServerInfo) : Op unit :=
  let (server_name, server_info) := item in
  try_except
    (_ <~ log p c (py "  " ++ server_name ++ py "に接続中...")
            (py "info:connection") ;;
     match path server_info with
     | [] => liftM (Raise (mk_exn IndexError (py "list index out of range")))
     | command :: args =>
         let client := {| command := command; args := args |} in
         _ <~ liftM (aenter tr server_name client) ;;
         _ <~ update (fun self =>
                        set_clients (PyDict.set (clients self) server_name client)
                          self) ;;
         log p c (py " OK") (py "info:connection")
     end)
    (fun e => log p c (py " 失敗: " ++ exn_str e) (py "error:error")).

Definition _connect_all_servers (p : Platform) (c : Console) (tr : Transport)
  : Op unit :=
  _ <~ log p c (nl ++ py "MCPサーバーに接続中...") (py "info:connection") ;;
  self <~ this ;;
  for_each (servers self) (connect_server p c tr).

(** The body of the inner loop of [_collect_tools_info]. *)
Definition register_tool (server_name : pystr) (tools_info : PyDict.t ToolInfo)
    (tool : Tool) : PyDict.t ToolInfo :=
  PyDict.set tools_info (tool_name tool)
    {| server := server_name;
       schema := match inputSchema tool with Some s => s | None => PDict [] end;
       description :=
         match tool_description tool with Some d => d | None => PStr [] end |}.

(** One iteration of the outer loop of [_collect_tools_info]; the inner
    loop raises nothing, and [tool_count] is the number of tools
    listed. *)
Definition collect_from (p : Platform) (c : Console) (tr : Transport)
    (item : pystr * Client) : Op unit :=
  let (server_name, client) := item in
  try_except
    (tools <~ liftM (list_tools tr server_name client) ;;
     _ <~ update (fun self =>
                    set_tools_info
                      (fold_left (register_tool server_name) tools
                         (tools_info self)) self) ;;
     log p c (py "[" ++ server_name ++ py "] " ++ str_of_nat (length tools)
                ++ py "個のツールを発見") (py "info:collection"))
    (fun e =>
       log p c (py "[" ++ server_name ++ py "] ツール情報取得失敗: " ++ exn_str e)
         (py "error:error")).

Definition _collect_tools_info (p : Platform) (c : Console) (tr : Transport)
  : Op unit :=
  _ <~ log p c (nl ++ py "ツール情報を収集中...") (py "info:collection") ;;
  self <~ this ;;
  for_each (clients self) (collect_from p c tr).

(** ["=" * 50] *)
Definition rule : pystr := repeat 61 50.

Definition initialize (p : Platform) (c : Console) (tr : Transport) : Op unit :=
  self <~ this ;;
  if _initialized self
  then log p c (py "既に初期化済みです") (py "info:connection")
  else
    _ <~ log p c rule (py "info") ;;
    _ <~ log p c (py " MCP Connection Manager") (py "info") ;;
    _ <~ log p c rule (py "info") ;;
    _ <~ log p c (str_of_nat (length (servers self)) ++ py "個のサーバーを検出")
           (py "info:config") ;;
    _ <~ _connect_all_servers p c tr ;;
    _ <~ _collect_tools_info p c tr ;;
    _ <~ update (set_initialized true) ;;
    _ <~ log p c (nl ++ py "初期化完了") (py "info:init") ;;
    self <~ this ;;
    _ <~ log p c (py "  接続サーバー: " ++ str_of_nat (length (clients self))
                    ++ py "個") (py "info") ;;
    _ <~ log p c (py "  利用可能ツール: " ++ str_of_nat (length (tools_info self))
                    ++ py "個") (py "info") ;;
    log p c rule (py "info").

(** One iteration of the loop of [close]: a failure of [__aexit__] is
    logged when [self.verbose] holds, and passed over. *)
Definition close_client (p : Platform) (c : Console) (tr : Transport)
    (item : pystr * Client) : Op unit :=
  let (server_name, client) := item in
  try_except
    (liftM (aexit tr server_name client))
    (fun e =>
       self <~ this ;;
       if py_truthy (verbose self)
       then log p c (server_name ++ py "の切断エラー: " ++ exn_str e)
              (py "warning:warning")
       else retM tt).

(** [close]: every client is closed, then [self.clients.clear()];
    [self.tools_info] is not touched. *)
Definition close (p : Platform) (c : Console) (tr : Transport) : Op unit :=
  self <~ this ;;
  _ <~ for_each (clients self) (close_client p c tr) ;;
  update (fun self => set_initialized false (set_clients [] self)).

(** The manager as a run of [m] leaves it, whether [m] returned or
    raised. *)
Definition after {A} (m : Op A) (self : Manager) (w : World) : Manager :=
  fst (snd (m (self, w))).

(** The registry invariant: the server of every entry is a key of
    [self.clients]. *)
Definition owners_connected (self : Manager) : Prop :=
  forall tool info,
    PyDict.get (tools_info self) tool = Some info ->
    PyDict.mem (clients self) (server info) = true.

Definition get_available_tools (self : Manager) : list pystr :=
  PyDict.keys (tools_info self).

Definition get_tool_info (self : Manager) (tool_name : pystr) : option ToolInfo :=
  PyDict.get (tools_info self) tool_name.

(** Lines 131-134: every string [text] of the result is replaced by its
    [safe_str]. *)
Definition sanitize_result (p : Platform) (result : CallResult) : CallResult :=
  match result with
  | WithContent content =>
      WithContent
        (map (fun content_item =>
                match content_item with
                | TextContent text => TextContent (safe_str p text)
                | OtherContent => OtherContent
                end) content)
  | Opaque s => Opaque s
  end.

(** The string texts of a call result, in order. *)
Definition texts (result : CallResult) : list pystr :=
  match result with
  | WithContent content =>
      flat_map (fun content_item =>
                  match content_item with
                  | TextContent text => [text]
                  | OtherContent => []
                  end) content
  | Opaque _ => []
  end.

Definition record_call (i : Invocation) (w : World) : World :=
  {| llm_calls := llm_calls w; tool_calls := tool_calls w ++ [i];
     printed := printed w |}.

(** [call_tool].  [tool_name] is whatever the task holds: a list or a
    dict is unhashable, any other non-string is not a key of
    [tools_info]. *)
Definition call_tool (p : Platform) (tr : Transport) (self : Manager)
    (tool_name : pyval) (arguments : pyval) : M CallResult :=
  fun w =>
  match tool_name with
  | PList _ | PDict _ =>
      (Raise (mk_exn TypeError (py "unhashable type")), w)
  | PStr tool =>
      match PyDict.get (tools_info self) tool with
      | None => (Raise (mk_exn ValueError (py "未知のツール: " ++ tool)), w)
      | Some info =>
          let server_name := server info in
          match PyDict.get (clients self) server_name with
          | None =>
              (Raise (mk_exn ValueError
                        (py "サーバー '" ++ server_name
                           ++ py "' に接続されていません")), w)
          | Some client =>
              let w' := record_call
                          {| inv_server := server_name; inv_tool := tool;
                             inv_arguments := arguments |} w in
              match call tr (length (tool_calls w)) server_name tool arguments with
              | Ret result => (Ret (sanitize_result p result), w')
              | Raise e =>
                  let error_msg := safe_str p (exn_str e) in
                  (Raise (mk_exn RuntimeError
                            (py "ツール実行エラー (" ++ tool ++ py "): "
                               ++ error_msg)), w')
              end
          end
      end
  | other =>
      (Raise (mk_exn ValueError (py "未知のツール: " ++ str_of p other)), w)
  end.

(** One line of [params_info]. *)
Definition format_param (p : Platform) (required : pyval)
    (item : pystr * pyval) : outcome pystr :=
  let (param_name, param_info) := item in
  param_type <- py_get param_info (py "type") (PStr (py "any")) ;;
  is_required <- py_contains_str required param_name ;;
  let req_text := if is_required then py "必須" else py "オプション" in
  param_desc <- py_get param_info (py "description") (PStr []) ;;
  Ret (py "  - " ++ param_name ++ py " (" ++ format_value p param_type
         ++ py ", " ++ req_text ++ py "): " ++ format_value p param_desc).

Fixpoint format_params (p : Platform) (required : pyval)
    (items : list (pystr * pyval)) : outcome (list pystr) :=
  match items with
  | [] => Ret []
  | item :: rest =>
      line <- format_param p required item ;;
      lines <- format_params p required rest ;;
      Ret (line :: lines)
  end.

(** [properties.items()] *)
Definition py_items (obj : pyval) : outcome (list (pystr * pyval)) :=
  match obj with
  | PDict d => Ret d
  | _ => Raise (mk_exn AttributeError (py "object has no attribute 'items'"))
  end.

(** The body of the loop of [format_tools_for_llm]. *)
Definition format_tool (p : Platform) (item : pystr * ToolInfo) : outcome pystr :=
  let (tool_name, info) := item in
  let schema := schema info in
  properties <- py_get schema (py "properties") (PDict []) ;;
  required <- py_get schema (py "required") (PList []) ;;
  items <- py_items properties ;;
  params_info <- format_params p required items ;;
  let params_text :=
    match params_info with
    | [] => py "  パラメータなし"
    | _ => join nl params_info
    end in
  Ret (strip (nl ++ tool_name ++ py " (サーバー: " ++ server info ++ py "):" ++ nl
                ++ py "  説明: " ++ format_value p (description info) ++ nl
                ++ py "  パラメータ:" ++ nl
                ++ params_text ++ nl)).

Fixpoint format_tools (p : Platform) (items : list (pystr * ToolInfo))
  : outcome (list pystr) :=
  match items with
  | [] => Ret []
  | item :: rest =>
      text <- format_tool p item ;;
      texts <- format_tools p rest ;;
      Ret (text :: texts)
  end.

Definition format_tools_for_llm (p : Platform) (self : Manager) : outcome pystr :=
  formatted <- format_tools p (tools_info self) ;;
  Ret (join (nl ++ nl) formatted).

End ConnectionManager.

(** [obj[key] = v] for a string [key]. *)
Definition py_setitem (obj : pyval) (key : pystr) (v : pyval) : outcome pyval :=
  match obj with
  | PDict d => Ret (PDict (PyDict.set d key v))
  | _ => Raise (mk_exn TypeError (py "object does not support item assignment"))
  end.

(** ** llm_interface.py *)
Module LLMInterface.
Import Utils ConfigManager.

(** The OpenAI client and the two library parsers.  [create] is
    [chat.completions.create] followed by [.choices[0].message.content],
    which may be [None]; it also receives the number of requests sent
    before.  [search_json_fence] is the first group of the regular
    expression of line 121, when it matches. *)
Record Backend := {
  create : nat -> LLMRequest -> outcome (option pystr);
  json_loads : pystr -> outcome pyval;
  search_json_fence : pystr -> option pystr
}.

Definition record_request (r : LLMRequest) (w : World) : World :=
  {| llm_calls := llm_calls w ++ [r]; tool_calls := tool_calls w;
     printed := printed w |}.

(** [_get_llm_params] and [_call_llm]; every caller passes
    [temperature]. *)
Definition _call_llm (p : Platform) (be : Backend) (config : Config)
    (role : pystr) (prompt : Prompt) (temperature : Q)
    (response_format : option pystr) : M pystr :=
  fun w =>
    let params :=
      {| req_model := model (llm config);
         req_role := role;
         req_prompt := prompt;
         req_temperature := temperature;
         req_max_completion_tokens := max_completion_tokens (llm config);
         req_response_format := response_format |} in
    let w' := record_request params w in
    match create be (length (llm_calls w)) params with
    | Ret content =>
        (Ret (safe_str p match content with
                         | Some s => s
                         | None => py "None"
                         end), w')
    | Raise e => (Raise e, w')
    end.

Definition default_verdict : pyval :=
  PDict [(py "type", PStr (py "TOOL"));
         (py "reason", PStr (py "判定エラーによりデフォルト選択"))].

(** The message of line 76. *)
Definition verdict_line (p : Platform) (shown_type shown_reason : pyval) : pystr :=
  py "判定: " ++ format_value p shown_type ++ py " - "
    ++ format_value p shown_reason.

Definition determine_execution_type (p : Platform) (c : Console) (be : Backend)
    (config : Config) (logger : Logger.Logger)
    (user_query recent_context tools_info : pystr)
  : M pyval :=
  try_except
    (content <~ _call_llm p be config (py "system")
                  (ClassifyPrompt tools_info recent_context user_query)
                  (1 # 10) (Some (py "json_object")) ;;
     result <~ liftM (json_loads be content) ;;
     ty <~ liftM (py_get result (py "type") PNone) ;;
     result <~ (if negb (py_eq_str ty (py "NO_TOOL")
                         || py_eq_str ty (py "CLARIFICATION"))
                then liftM (py_setitem result (py "type") (PStr (py "TOOL")))
                else retM result) ;;
     shown_type <~ liftM (py_get result (py "type") (PStr (py "UNKNOWN"))) ;;
     shown_reason <~ liftM (py_get result (py "reason") (PStr [])) ;;
     _ <~ Logger.emit p c logger (verdict_line p shown_type shown_reason)
            (py "info:classification") false true ;;
     retM result)
    (fun e =>
       _ <~ Logger.emit p c logger (py "実行方式判定失敗: " ++ exn_str e)
              (py "error:error") false false ;;
       retM default_verdict).

(** The discriminant of a verdict. *)
Definition verdict_type (verdict : pyval) : option pyval :=
  match verdict with
  | PDict d => PyDict.get d (py "type")
  | _ => None
  end.

Definition verdict_reason (verdict : pyval) : option pyval :=
  match verdict with
  | PDict d => PyDict.get d (py "reason")
  | _ => None
  end.

(** The text [_call_llm] makes of the content of a reply. *)
Definition reply_text (p : Platform) (content : option pystr) : pystr :=
  safe_str p match content with Some s => s | None => py "None" end.

(** Lines 114-125: the parsing steps on the reply that can return a
    list; [None] when neither the whole reply nor the fenced block gave
    one. *)
Definition parse_task_list (be : Backend) (content : pystr)
  : outcome (option (list pyval)) :=
  whole <- match json_loads be content with
           | Ret (PList tasks) => Ret (Some tasks)
           | Ret _ => Ret None
           | Raise e => if is_json_decode_error e then Ret None else Raise e
           end ;;
  match whole with
  | Some tasks => Ret (Some tasks)
  | None =>
      match search_json_fence be content with
      | Some inner =>
          tasks <- json_loads be inner ;;
          match tasks with
          | PList tasks => Ret (Some tasks)
          | _ => Ret None
          end
      | None => Ret None
      end
  end.

Definition generate_task_list (p : Platform) (c : Console) (be : Backend)
    (config : Config) (logger : Logger.Logger)
    (user_query context tools_info custom_instructions : pystr)
  : M (list pyval) :=
  try_except
    (content <~ _call_llm p be config (py "user")
                  (PlanPrompt user_query custom_instructions tools_info context)
                  (1 # 10) None ;;
     parsed <~ liftM (parse_task_list be content) ;;
     match parsed with
     | Some tasks => retM tasks
     | None =>
         _ <~ Logger.emit p c logger
                (py "タスクリスト解析失敗: " ++ firstn 100 content ++ py "...")
                (py "warning:task") false false ;;
         retM []
     end)
    (fun e =>
       _ <~ Logger.emit p c logger (py "タスクリスト生成失敗: " ++ exn_str e)
              (py "error:task") false false ;;
       retM []).

Definition interpret_results (p : Platform) (c : Console) (be : Backend)
    (config : Config) (logger : Logger.Logger)
    (user_query : pystr) (results : list pyval)
    (context custom_instructions : pystr) : M pystr :=
  try_except
    (_call_llm p be config (py "user")
       (InterpretPrompt user_query custom_instructions results context)
       (3 # 10) None)
    (fun e =>
       _ <~ Logger.emit p c logger (py "結果解釈失敗: " ++ exn_str e)
              (py "error:interpretation") false false ;;
       retM (py "実行は完了しましたが、結果の解釈中にエラーが発生しました: "
               ++ exn_str e)).

End LLMInterface.

(** ** mcp_agent.py *)
Module MCPAgent.
Import Utils ConfigManager.

(** Everything outside the agent. *)
Record Env := {
  platform : Platform;
  console : Console;
  transport : ConnectionManager.Transport;
  backend : LLMInterface.Backend
}.

(** An entry of [conversation_history]: the dict with keys ["role"] and
    ["content"].  [content] is the user's text or whatever the turn
    returned. *)
Record Turn := { role : pystr; content : pyval }.

Record Agent := {
  config : Config;
  connection_manager : ConnectionManager.Manager;
  conversation_history : list Turn
}.

(** [self.logger], which [__init__] builds as
    [Logger(verbose=self.config.development.verbose)]; [llm_interface]
    is given the same logger. *)
Definition logger (p : Platform) (self : Agent) : Logger.Logger :=
  Logger.new (unicode_upper p)
    (py_truthy (verbose (development (config self)))) (py "INFO").

(** [self.logger.ulog(message, level)] *)
Definition log (env : Env) (self : Agent) (message level : pystr) : M unit :=
  Logger.emit (platform env) (console env) (logger (platform env) self)
    message level false false.

(** [self.conversation_history.append({"role": .., "content": ..})] *)
Definition append_turn (self : Agent) (role : pystr) (content : pyval) : Agent :=
  {| config := config self;
     connection_manager := connection_manager self;
     conversation_history :=
       conversation_history self ++ [{| role := role; content := content |}] |}.

Definition ellipsis : pystr := py "...".

(** Line 174.  [len] fails on [None], booleans and numbers; a list or a
    dict longer than 150 fails in the slice or in the [+]. *)
Definition clip (content : pyval) : outcome pyval :=
  let too_long := mk_exn TypeError (py "cannot cut this object") in
  match content with
  | PStr s =>
      Ret (PStr (if (150 <? Z.of_nat (length s))%Z
                 then firstn 150 s ++ ellipsis else s))
  | PList l =>
      if (150 <? Z.of_nat (length l))%Z then Raise too_long else Ret content
  | PDict d =>
      if (150 <? Z.of_nat (length d))%Z then Raise too_long else Ret content
  | _ => Raise (mk_exn TypeError (py "object has no len()"))
  end.

(** The body of the loop of [_get_recent_context]. *)
Definition context_line (p : Platform) (entry : Turn) : outcome pystr :=
  let role := if pystr_eqb (role entry) (py "user")
              then py "User" else py "Assistant" in
  content <- clip (content entry) ;;
  Ret (role ++ py ": " ++ format_value p content).

Fixpoint context_lines (p : Platform) (recent : list Turn)
  : outcome (list pystr) :=
  match recent with
  | [] => Ret []
  | entry :: rest =>
      line <- context_line p entry ;;
      lines <- context_lines p rest ;;
      Ret (line :: lines)
  end.

Definition _get_recent_context (p : Platform) (self : Agent) (max_entries : Z)
  : outcome pystr :=
  let recent := slice_from (conversation_history self) (- max_entries) in
  lines <- context_lines p recent ;;
  Ret (join nl lines).

(** How a line of the context shows the turn [entry]: the role label, a
    colon, and the text, whole when it has at most 150 characters, else
    its first 150 characters followed by the marker. *)
Definition shows (entry : Turn) (line : pystr) : Prop :=
  exists s body,
    content entry = PStr s /\
    line = (if pystr_eqb (role entry) (py "user")
            then py "User" else py "Assistant") ++ py ": " ++ body /\
    ((length s <= 150)%nat -> body = s) /\
    ((150 < length s)%nat -> body = firstn 150 s ++ ellipsis).

Definition is_text (entry : Turn) : Prop := exists s, content entry = PStr s.

(** Lines 139-144: the texts of the content items, concatenated. *)
Definition result_text (result : ConnectionManager.CallResult) : pystr :=
  match result with
  | ConnectionManager.WithContent content =>
      flat_map (fun content_item =>
                  match content_item with
                  | ConnectionManager.TextContent text => text
                  | ConnectionManager.OtherContent => []
                  end) content
  | ConnectionManager.Opaque s => s
  end.

Definition task_result (tool description : pyval) (result : pystr)
    (success : bool) : pyval :=
  PDict [(py "tool", tool); (py "description", description);
         (py "result", PStr result); (py "success", PBool success)].

(** The messages of lines 132, 133, 153 and 163. *)
Definition step_line (p : Platform) (i total : nat) (description : pyval)
  : pystr :=
  nl ++ py "[ステップ " ++ str_of_nat (i + 1) ++ py "/" ++ str_of_nat total
     ++ py "] " ++ format_value p description.

Definition running_line (p : Platform) (tool : pyval) : pystr :=
  py "  -> " ++ format_value p tool ++ py " を実行中...".

Definition completed_line (p : Platform) (description : pyval) : pystr :=
  py "[完了] " ++ format_value p description.

Definition failed_line (p : Platform) (description : pyval) (error_msg : pystr)
  : pystr :=
  py "[失敗] " ++ format_value p description ++ py ": " ++ error_msg.

(** The [try] block of lines 135-153 for one task, up to the point where
    it ends or raises: the list [results] as the block leaves it, and
    the exception the [except] clause receives, if any.  The record of a
    success is appended before its line is logged, so a failure of that
    [print] reaches the handler with the record in the list. *)
Definition attempt (env : Env) (self : Agent) (tool params description : pyval)
    (results : list pyval) : M (list pyval * option exn) :=
  try_except
    (result <~ ConnectionManager.call_tool (platform env) (transport env)
                 (connection_manager self) tool params ;;
     let results :=
       results ++ [task_result tool description
                     (safe_str (platform env) (result_text result)) true] in
     try_except
       (_ <~ log env self (completed_line (platform env) description)
               (py "info:completed") ;;
        retM (results, None))
       (fun e => retM (results, Some e)))
    (fun e => retM (results, Some e)).

(** The loop of [_execute_tasks] from the task of index [i] on, of
    [total]; [results] is the list built so far.  The three [task.get]
    and the two first log lines stand before the [try]; the [except]
    clause appends its record and then logs. *)
Fixpoint execute_loop (env : Env) (self : Agent) (total i : nat)
    (task_list : list pyval) (results : list pyval) : M (list pyval) :=
  match task_list with
  | [] => retM results
  | task :: rest =>
      tool <~ liftM (py_get task (py "tool") (PStr [])) ;;
      params <~ liftM (py_get task (py "params") (PDict [])) ;;
      description <~ liftM (py_get task (py "description") tool) ;;
      _ <~ log env self (step_line (platform env) i total description)
             (py "info") ;;
      _ <~ log env self (running_line (platform env) tool) (py "info") ;;
      tried <~ attempt env self tool params description results ;;
      match tried with
      | (results, None) => execute_loop env self total (S i) rest results
      | (results, Some e) =>
          let error_msg := safe_str (platform env) (exn_str e) in
          let results :=
            results ++ [task_result tool description
                          (py "エラー: " ++ error_msg) false] in
          _ <~ log env self (failed_line (platform env) description error_msg)
                 (py "error:failed") ;;
          execute_loop env self total (S i) rest results
      end
  end.

Definition _execute_tasks (env : Env) (self : Agent) (task_list : list pyval)
  : M (list pyval) :=
  execute_loop env self (length task_list) 0 task_list [].

Definition need_more_information : pystr := py "追加情報が必要です".

Definition no_task_list : pystr :=
  py "タスクを生成できませんでした。別の方法でお手伝いしましょうか？".

(** Lines 65-114 of [process_request]: the response of the turn.  Each
    of the four branches then appends it to the history and returns
    it. *)
Definition respond (env : Env) (self : Agent) (user_query : pystr) : M pyval :=
  context <~ liftM (_get_recent_context (platform env) self 10) ;;
  tools_info <~ liftM (ConnectionManager.format_tools_for_llm (platform env)
                         (connection_manager self)) ;;
  execution_type <~ LLMInterface.determine_execution_type (platform env)
                      (console env) (backend env) (config self)
                      (logger (platform env) self)
                      user_query context tools_info ;;
  exec_type <~ liftM (py_get execution_type (py "type") (PStr (py "TOOL"))) ;;
  if py_eq_str exec_type (py "NO_TOOL") then
    liftM (py_get execution_type (py "response") (PStr []))
  else if py_eq_str exec_type (py "CLARIFICATION") then
    clarification <~ liftM (py_get execution_type (py "clarification") (PDict [])) ;;
    fallback <~ liftM (py_get execution_type (py "response")
                         (PStr need_more_information)) ;;
    liftM (py_get clarification (py "question") fallback)
  else
    task_list <~ LLMInterface.generate_task_list (platform env) (console env)
                   (backend env) (config self) (logger (platform env) self)
                   user_query context tools_info [] ;;
    match task_list with
    | [] => retM (PStr no_task_list)
    | _ =>
        results <~ _execute_tasks env self task_list ;;
        response <~ LLMInterface.interpret_results (platform env)
                      (console env) (backend env) (config self)
                      (logger (platform env) self)
                      user_query results context [] ;;
        retM (PStr response)
    end.

(** [process_request]: the user's turn is appended first; the
    assistant's turn is appended only when a response is returned. *)
Definition process_request (env : Env) (user_query : pystr) (self : Agent)
    (w : World) : outcome pyval * Agent * World :=
  let self := append_turn self (py "user") (PStr user_query) in
  match respond env self user_query w with
  | (Ret response, w') =>
      (Ret response, append_turn self (py "assistant") response, w')
  | (Raise e, w') => (Raise e, self, w')
  end.

(** Successive calls of [process_request] on one agent, one per text of
    [queries]: the responses so far; the first call that raises ends the
    run. *)
Fixpoint converse (env : Env) (queries : list pystr) (self : Agent) (w : World)
  : outcome (list pyval) * Agent * World :=
  match queries with
  | [] => (Ret [], self, w)
  | user_input :: rest =>
      match process_request env user_input self w with
      | (Ret response, self', w') =>
          match converse env rest self' w' with
          | (Ret responses, self'', w'') => (Ret (response :: responses), self'', w'')
          | (Raise e, self'', w'') => (Raise e, self'', w'')
          end
      | (Raise e, self', w') => (Raise e, self', w')
      end
  end.

(** The entries that [queries] answered by [responses] add to the
    history. *)
Fixpoint transcript (queries : list pystr) (responses : list pyval) : list Turn :=
  match queries, responses with
  | q :: queries', r :: responses' =>
      {| role := py "user"; content := PStr q |}
        :: {| role := py "assistant"; content := r |}
        :: transcript queries' responses'
  | _, _ => []
  end.

(** A field of a verdict. *)
Definition verdict_field (verdict : pyval) (key : pystr) : option pyval :=
  match verdict with
  | PDict d => PyDict.get d key
  | _ => None
  end.

(** The question of a CLARIFICATION verdict: [clarification.question]. *)
Definition question_text (verdict : pyval) : option pyval :=
  match verdict_field verdict (py "clarification") with
  | Some clarification => verdict_field clarification (py "question")
  | None => None
  end.

(** The [clarification] field is absent or is a dict. *)
Definition clarification_well_formed (verdict : pyval) : Prop :=
  match verdict_field verdict (py "clarification") with
  | Some (PDict _) | None => True
  | Some _ => False
  end.

(** The calls that the task [task] sends to tool servers: one when it is
    a dict naming a registered tool of a connected server, none
    otherwise. *)
Definition attempts (self : Agent) (task : pyval) : list Invocation :=
  match py_get task (py "tool") (PStr []),
        py_get task (py "params") (PDict []) with
  | Ret (PStr tool), Ret params =>
      match PyDict.get (ConnectionManager.tools_info (connection_manager self)) tool with
      | Some info =>
          if PyDict.mem (ConnectionManager.clients (connection_manager self))
               (ConnectionManager.server info)
          then [{| inv_server := ConnectionManager.server info;
                   inv_tool := tool; inv_arguments := params |}]
          else []
      | None => []
      end
  | _, _ => []
  end.

(** A task that names a registered tool of a connected server. *)
Definition resolvable (self : Agent) (task : pyval) : Prop :=
  length (attempts self task) = 1%nat.

(** A recorded failure of [task]. *)
Definition failure_of (task result : pyval) : Prop :=
  exists tool description message,
    py_get task (py "tool") (PStr []) = Ret tool /\
    result = task_result tool description message false.

(** Every call to a tool server raises. *)
Definition always_fails (tr : ConnectionManager.Transport) : Prop :=
  forall n server_name tool arguments,
    exists e, ConnectionManager.call tr n server_name tool arguments = Raise e.

End MCPAgent.

(** ** Concrete collaborators

    Small environments on which the definitions above are run: one tool
    server [calc] with one tool [add], a backend with scripted replies and
    a parser that knows the documents of the scripts. *)
Module Samples.
Import Utils ConfigManager.

Definition unsupported {A} : outcome A :=
  Raise (mk_exn OtherError (py "unsupported")).

(** [str()] of [None] and of the booleans; the samples apply it to no
    other object. *)
Definition str_of_sample (v : pyval) : pystr :=
  match v with
  | PNone => py "None"
  | PBool true => py "True"
  | PBool false => py "False"
  | PStr s => s
  | _ => py "<object>"
  end.

(** The samples hold no letter outside ASCII. *)
Definition upper_sample (c : Z) : pystr := [c].

Definition posix : Platform :=
  {| win32 := false;
     cp932_encode_replace := fun _ => unsupported;
     cp932_decode := fun _ => unsupported;
     str_of := str_of_sample;
     unicode_upper := upper_sample |}.

(** A terminal in UTF-8 with strict error handling: it writes every line
    that holds no surrogate and raises [UnicodeEncodeError] on the
    others. *)
Definition terminal : Console :=
  {| print := fun _ line =>
       if existsb is_surrogate line
       then Raise (mk_exn UnicodeEncodeError
                     (py "'utf-8' codec can't encode character: surrogates not allowed"))
       else Ret tt |}.

(** A stream opened with [errors='replace'], as
    [setup_windows_encoding] opens it on win32: it writes every line. *)
Definition replacing : Console := {| print := fun _ _ => Ret tt |}.

(** The single-byte rows of cp932: ASCII, and the half-width katakana
    U+FF61..U+FF9F at bytes A1..DF.  The double-byte rows are left out:
    the samples hold no character of them. *)
Definition cp932_byte (c : Z) : Z :=
  if c <? 0x80 then c
  else if (0xFF61 <=? c) && (c <=? 0xFF9F) then c - 0xFEC0
  else question_mark.

Fixpoint cp932_chars (bs : list Z) : outcome pystr :=
  match bs with
  | [] => Ret []
  | b :: bs' =>
      if b <? 0x80 then (s <- cp932_chars bs' ;; Ret (b :: s))
      else if (0xA1 <=? b) && (b <=? 0xDF)
           then (s <- cp932_chars bs' ;; Ret (b + 0xFEC0 :: s))
           else unsupported
  end.

Definition windows : Platform :=
  {| win32 := true;
     cp932_encode_replace := fun text => Ret (map cp932_byte text);
     cp932_decode := cp932_chars;
     str_of := str_of_sample;
     unicode_upper := upper_sample |}.

Definition calc : pystr := py "calc".
Definition add : pystr := py "add".

Definition servers : PyDict.t ConnectionManager.ServerInfo :=
  [(calc, {| ConnectionManager.name := calc;
             ConnectionManager.path := [py "python"; py "calc.py"] |})].

Definition add_tool : ConnectionManager.Tool :=
  {| ConnectionManager.tool_name := add;
     ConnectionManager.inputSchema := Some (PDict []);
     ConnectionManager.tool_description := Some (PStr (py "adds")) |}.

(** A server that connects, lists [add] and answers every call with
    [answer]. *)
Definition server_answering (answer : outcome ConnectionManager.CallResult)
  : ConnectionManager.Transport :=
  {| ConnectionManager.aenter := fun _ _ => Ret tt;
     ConnectionManager.list_tools := fun _ _ => Ret [add_tool];
     ConnectionManager.call := fun _ _ _ _ => answer;
     ConnectionManager.aexit := fun _ _ => Ret tt |}.

Definition failing_server : ConnectionManager.Transport :=
  server_answering (Raise (mk_exn OtherError (py "boom"))).

(** U+1F600, a character outside the Basic Multilingual Plane. *)
Definition grinning_face : Z := 0x1F600.

Definition emoji_server : ConnectionManager.Transport :=
  server_answering
    (Ret (ConnectionManager.WithContent
            [ConnectionManager.TextContent [grinning_face]])).

(** The manager [MCPAgent.__init__] builds for [config], after
    [initialize] on the terminal. *)
Definition manager_for (config : Config) (tr : ConnectionManager.Transport)
  : ConnectionManager.Manager :=
  ConnectionManager.after (ConnectionManager.initialize posix terminal tr)
    (ConnectionManager.new servers (verbose (development config))) World_empty.

Definition manager (tr : ConnectionManager.Transport)
  : ConnectionManager.Manager :=
  manager_for Config_default tr.

(** JSON documents and the values [json.loads] gives for them. *)
Definition dq : pystr := [34].
Definition quoted (s : string) : pystr := dq ++ py s ++ dq.
Definition member (k v : string) : pystr := quoted k ++ py ": " ++ quoted v.

Definition no_tool_text : pystr :=
  py "{" ++ member "type" "NO_TOOL" ++ py ", " ++ member "response" "4" ++ py "}".
Definition no_tool_value : pyval :=
  PDict [(py "type", PStr (py "NO_TOOL")); (py "response", PStr (py "4"))].

Definition clarification_text : pystr :=
  py "{" ++ member "type" "CLARIFICATION" ++ py ", "
     ++ member "response" "Which city?" ++ py "}".
Definition clarification_value : pyval :=
  PDict [(py "type", PStr (py "CLARIFICATION"));
         (py "response", PStr (py "Which city?"))].

Definition tool_text : pystr := py "{" ++ member "type" "TOOL" ++ py "}".
Definition tool_value : pyval := PDict [(py "type", PStr (py "TOOL"))].

Definition empty_plan_text : pystr := py "[]".

Definition number_plan_text : pystr := py "[1]".
Definition number_plan_value : pyval := PList [PInt 1].

Definition add_task_text : pystr :=
  py "{" ++ member "tool" "add" ++ py "}".
Definition add_task : pyval := PDict [(py "tool", PStr add)].
Definition two_adds_text : pystr :=
  py "[" ++ add_task_text ++ py ", " ++ add_task_text ++ py "]".
Definition two_adds_value : pyval := PList [add_task; add_task].

Definition documents : PyDict.t pyval :=
  [(no_tool_text, no_tool_value);
   (clarification_text, clarification_value);
   (tool_text, tool_value);
   (empty_plan_text, PList []);
   (number_plan_text, number_plan_value);
   (two_adds_text, two_adds_value)].

Definition json_loads_sample (content : pystr) : outcome pyval :=
  match PyDict.get documents content with
  | Some v => Ret v
  | None => Raise (mk_exn JSONDecodeError (py "Expecting value"))
  end.

(** A backend that answers classification with [verdict], planning with
    [plan] and interpretation with a fixed sentence. *)
Definition scripted (verdict plan : pystr) : LLMInterface.Backend :=
  {| LLMInterface.create := fun _ request =>
       match req_prompt request with
       | ClassifyPrompt _ _ _ => Ret (Some verdict)
       | PlanPrompt _ _ _ _ => Ret (Some plan)
       | InterpretPrompt _ _ _ _ => Ret (Some (py "done"))
       end;
     LLMInterface.json_loads := json_loads_sample;
     LLMInterface.search_json_fence := fun _ => None |}.

(** The logger of an agent on [posix] whose configuration says
    [verbose], and the logger of one whose configuration does not. *)
Definition chatty : Logger.Logger := Logger.new upper_sample true (py "INFO").
Definition silent : Logger.Logger := Logger.new upper_sample false (py "INFO").

(** A backend whose failure text holds the lone surrogate U+D800. *)
Definition garbled : LLMInterface.Backend :=
  {| LLMInterface.create := fun _ _ =>
       Raise (mk_exn OtherError (py "Invalid request: " ++ [0xD800]));
     LLMInterface.json_loads := json_loads_sample;
     LLMInterface.search_json_fence := fun _ => None |}.

(** A backend that cannot be reached. *)
Definition unreachable : LLMInterface.Backend :=
  {| LLMInterface.create := fun _ _ =>
       Raise (mk_exn OtherError (py "Connection error."));
     LLMInterface.json_loads := json_loads_sample;
     LLMInterface.search_json_fence := fun _ => None |}.

Definition env_on (c : Console) (p : Platform)
    (tr : ConnectionManager.Transport) (be : LLMInterface.Backend)
  : MCPAgent.Env :=
  {| MCPAgent.platform := p; MCPAgent.console := c;
     MCPAgent.transport := tr; MCPAgent.backend := be |}.

(** An environment whose console is the terminal. *)
Definition env (p : Platform) (tr : ConnectionManager.Transport)
    (be : LLMInterface.Backend) : MCPAgent.Env :=
  env_on terminal p tr be.

Definition agent (config : Config) (tr : ConnectionManager.Transport)
  : MCPAgent.Agent :=
  {| MCPAgent.config := config;
     MCPAgent.connection_manager := manager_for config tr;
     MCPAgent.conversation_history := [] |}.

(** The default configuration with [conversation.context_limit] and
    [conversation.max_history] set. *)
Definition with_conversation (limit history : Z) : Config :=
  {| display := display Config_default;
     execution := execution Config_default;
     llm := llm Config_default;
     conversation := {| context_limit := PInt limit; max_history := PInt history |};
     error_handling := error_handling Config_default;
     development := development Config_default;
     result_display := result_display Config_default;
     interrupt_handling := interrupt_handling Config_default |}.

Definition said (role text : string) : MCPAgent.Turn :=
  {| MCPAgent.role := py role; MCPAgent.content := PStr (py text) |}.

(** An agent whose configuration limits the context to two turns and
    whose history holds three. *)
Definition talkative : MCPAgent.Agent :=
  {| MCPAgent.config := with_conversation 2 50;
     MCPAgent.connection_manager := manager failing_server;
     MCPAgent.conversation_history :=
       [said "user" "a"; said "assistant" "b"; said "user" "c"] |}.

(** The configuration of the retry scenario: three retries, progressive
    temperature from 0.1 in steps of 0.2, fallback enabled. *)
Definition retrying : Config :=
  {| display := display Config_default;
     execution :=
       {| max_retries := PInt 3; timeout_seconds := PInt 30;
          fallback_enabled := PBool true; max_tasks := PInt 10;
          retry_strategy :=
            {| rs_max_retries := PInt 3; progressive_temperature := PBool true;
               initial_temperature := PFloat (1 # 10);
               temperature_increment := PFloat (2 # 10) |} |};
     llm := llm Config_default;
     conversation := conversation Config_default;
     error_handling := error_handling Config_default;
     development := development Config_default;
     result_display := result_display Config_default;
     interrupt_handling := interrupt_handling Config_default |}.

(** The default configuration with [development.verbose] off. *)
Definition quiet : Config :=
  {| display := display Config_default;
     execution := execution Config_default;
     llm := llm Config_default;
     conversation := conversation Config_default;
     error_handling := error_handling Config_default;
     development :=
       {| verbose := PBool false; log_level := PStr (py "INFO");
          show_api_calls := PBool true |};
     result_display := result_display Config_default;
     interrupt_handling := interrupt_handling Config_default |}.

Definition absent_files : FileSystem :=
  {| path_exists := fun _ => false;
     open_read := fun _ => unsupported;
     yaml_safe_load := fun _ => unsupported |}.

End Samples.

(** ** Vocabulary for the properties of the registry *)
Module Discovery.
Import ConnectionManager.

(** The server of the entry [item] of [self.servers] can be connected:
    its [path] has a command and [__aenter__] returns. *)
Definition connects (tr : Transport) (item : pystr * ServerInfo) : bool :=
  match path (snd item) with
  | [] => false
  | command :: args =>
      match aenter tr (fst item) {| command := command; args := args |} with
      | Ret _ => true
      | Raise _ => false
      end
  end.

(** The client [item] lists a tool named [tool]. *)
Definition offers (tr : Transport) (item : pystr * Client) (tool : pystr) : bool :=
  match list_tools tr (fst item) (snd item) with
  | Ret tools => existsb (fun t => pystr_eqb (tool_name t) tool) tools
  | Raise _ => false
  end.

(** [self.clients] after the iteration of [_connect_all_servers] for
    [item], when the log lines of the iteration are written: the server
    is added when it can be connected. *)
Definition connected (tr : Transport) (clients : PyDict.t Client)
    (item : pystr * ServerInfo) : PyDict.t Client :=
  match path (snd item) with
  | [] => clients
  | command :: args =>
      let client := {| command := command; args := args |} in
      match aenter tr (fst item) client with
      | Ret _ => PyDict.set clients (fst item) client
      | Raise _ => clients
      end
  end.

(** [self.tools_info] after the iteration of [_collect_tools_info] for
    [item]: the tools the client lists are registered under its
    name. *)
Definition collected (tr : Transport) (tools_info : PyDict.t ToolInfo)
    (item : pystr * Client) : PyDict.t ToolInfo :=
  match list_tools tr (fst item) (snd item) with
  | Ret tools => fold_left (register_tool (fst item)) tools tools_info
  | Raise _ => tools_info
  end.

(** The registry entry that [_collect_tools_info] writes for [tool]
    listed by [server_name]. *)
Definition entry_for (server_name : pystr) (tool : Tool) : ToolInfo :=
  {| server := server_name;
     schema := match inputSchema tool with Some s => s | None => PDict [] end;
     description :=
       match tool_description tool with Some d => d | None => PStr [] end |}.

(** A schema that [format_tools_for_llm] can render: a dict whose
    [properties], when present, is a dict of dicts, and whose [required],
    when present, is a list. *)
Definition renderable (schema : pyval) : Prop :=
  exists d,
    schema = PDict d /\
    match PyDict.get d (py "properties") with
    | None => True
    | Some (PDict properties) =>
        Forall (fun item => exists info, snd item = PDict info) properties
    | Some _ => False
    end /\
    match PyDict.get d (py "required") with
    | None | Some (PList _) => True
    | Some _ => False
    end.

End Discovery.

(** ** The requests the three operations send *)
Module Requests.
Import Utils ConfigManager.

(** The parameters [_get_llm_params] builds for one message. *)
Definition request (config : Config) (role : pystr) (prompt : Prompt)
    (temperature : Q) (response_format : option pystr) : LLMRequest :=
  {| req_model := model (llm config);
     req_role := role;
     req_prompt := prompt;
     req_temperature := temperature;
     req_max_completion_tokens := max_completion_tokens (llm config);
     req_response_format := response_format |}.

Definition classify_request (config : Config)
    (user_query recent_context tools_info : pystr) : LLMRequest :=
  request config (py "system")
    (ClassifyPrompt tools_info recent_context user_query)
    (1 # 10) (Some (py "json_object")).

Definition plan_request (config : Config)
    (user_query context tools_info custom_instructions : pystr) : LLMRequest :=
  request config (py "user")
    (PlanPrompt user_query custom_instructions tools_info context)
    (1 # 10) None.

Definition interpret_request (config : Config) (user_query : pystr)
    (results : list pyval) (context custom_instructions : pystr) : LLMRequest :=
  request config (py "user")
    (InterpretPrompt user_query custom_instructions results context)
    (3 # 10) None.

(** The list [generate_task_list] makes of a reply, or of the failure
    of the backend. *)
Definition planned (be : LLMInterface.Backend) (reply : outcome pystr)
  : list pyval :=
  match reply with
  | Ret content =>
      match LLMInterface.parse_task_list be content with
      | Ret (Some tasks) => tasks
      | _ => []
      end
  | Raise _ => []
  end.

(** The sentence [interpret_results] puts before the text of a backend
    failure. *)
Definition apology : pystr :=
  py "実行は完了しましたが、結果の解釈中にエラーが発生しました: ".

End Requests.

(** ** The shape of what the parser returns *)
Module Shapes.
Import Utils ConfigManager MCPAgent.

Definition is_dict (v : pyval) : bool :=
  match v with PDict _ => true | _ => false end.

(** An object [len()] rejects: [None], a boolean, a number. *)
Definition unmeasurable (v : pyval) : bool :=
  match v with
  | PNone | PBool _ | PInt _ | PFloat _ => true
  | _ => false
  end.

Definition text_or_absent (field : option pyval) : Prop :=
  match field with
  | None | Some (PStr _) => True
  | Some _ => False
  end.

(** A document the pipeline can digest: in an object, [response] is a
    string when present and [clarification], when present, is an object
    whose [question] is a string when present; in a list, every element
    is an object. *)
Definition well_shaped (v : pyval) : Prop :=
  match v with
  | PDict d =>
      text_or_absent (PyDict.get d (py "response")) /\
      match PyDict.get d (py "clarification") with
      | None => True
      | Some (PDict c) => text_or_absent (PyDict.get c (py "question"))
      | Some _ => False
      end
  | PList l => forallb is_dict l = true
  | _ => True
  end.

(** The backend replies with well-shaped documents: what [json.loads]
    makes of a reply, and of the fenced block of a reply, is well
    shaped. *)
Definition replies_well_shaped (p : Platform) (be : LLMInterface.Backend)
  : Prop :=
  forall n request content v,
    LLMInterface.create be n request = Ret content ->
    LLMInterface.json_loads be (LLMInterface.reply_text p content) = Ret v \/
    (exists inner,
       LLMInterface.search_json_fence be (LLMInterface.reply_text p content)
       = Some inner /\
       LLMInterface.json_loads be inner = Ret v) ->
    well_shaped v.

(** [result] is the record [_execute_tasks] keeps of [task]. *)
Definition records (task result : pyval) : Prop :=
  exists tool description text success,
    py_get task (py "tool") (PStr []) = Ret tool /\
    py_get task (py "description") tool = Ret description /\
    result = task_result tool description text success.

Definition is_string (v : pyval) : Prop := exists s, v = PStr s.

End Shapes.

(** ** recommend_server/database_server.py: the query filter *)
Module DatabaseServer.

Definition dangerous_keywords : list pystr :=
  [py "DROP"; py "DELETE"; py "INSERT"; py "UPDATE"; py "ALTER";
   py "CREATE"; py "TRUNCATE"; py "REPLACE"; py "PRAGMA";
   py "ATTACH"; py "DETACH"; py "VACUUM"].

(** The alternatives of the first pattern. *)
Definition statement_keywords : list pystr :=
  [py "DROP"; py "DELETE"; py "INSERT"; py "UPDATE"].

(** [re.search] of the pattern [;\s*(DROP|DELETE|INSERT|UPDATE)]: a
    semicolon, then white space, then one of the four words.  No word
    starts with white space, so the white space matched is all there
    is. *)
Fixpoint search_statement (s : pystr) : bool :=
  match s with
  | [] => false
  | c :: rest =>
      ((c =? 59) && existsb (fun k => is_prefix k (lstrip rest)) statement_keywords)
      || search_statement rest
  end.

(** [closing] comes after characters none of which is a newline: what
    [.*closing] matches at the start of [s]. *)
Fixpoint closes_on_line (closing s : pystr) : bool :=
  is_prefix closing s ||
  match s with
  | [] => false
  | c :: rest => if c =? 10 then false else closes_on_line closing rest
  end.

(** [re.search] of [opening.*closing] for two literal words. *)
Fixpoint search_span (opening closing s : pystr) : bool :=
  (is_prefix opening s && closes_on_line closing (skipn (length opening) s))
  || match s with
     | [] => false
     | _ :: rest => search_span opening closing rest
     end.

Definition validate_sql_safety (full_upper : Z -> pystr) (sql : pystr) : bool :=
  let sql_upper := strip (upper full_upper sql) in
  if negb (is_prefix (py "SELECT") sql_upper) then false
  else if existsb (fun keyword => is_substring keyword sql_upper)
            dangerous_keywords then false
  else if search_statement sql_upper
          || is_substring (py "--") sql_upper
          || search_span (py "/*") (py "*/") sql_upper
          || search_span (py "UNION") (py "SELECT") sql_upper then false
  else true.

(** A word that neither starts nor ends with white space. *)
Definition solid (k : pystr) : bool :=
  match k, rev k with
  | c :: _, c' :: _ => negb (is_space c) && negb (is_space c')
  | _, _ => false
  end.

End DatabaseServer.

(** ** The shape of a configuration document *)
Module ConfigShapes.
Import ConfigManager.

(** The key is absent or holds a dict. *)
Definition section_ok (d : list (pystr * pyval)) (key : pystr) : Prop :=
  match PyDict.get d key with
  | None | Some (PDict _) => True
  | Some _ => False
  end.

(** The keys [_create_config_from_dict] looks for, in its order. *)
Definition section_keys : list pystr :=
  [py "display"; py "execution"; py "llm"; py "conversation";
   py "error_handling"; py "development"; py "result_display";
   py "interrupt_handling"].

(** Every section that is present is a dict, and so is
    [execution.retry_strategy]. *)
Definition sections_well_formed (d : list (pystr * pyval)) : Prop :=
  Forall (section_ok d) section_keys /\
  match PyDict.get d (py "execution") with
  | Some (PDict e) => section_ok e (py "retry_strategy")
  | _ => True
  end.

(** A file system with one readable file, whose text parses to
    [document]. *)
Definition one_file (document : pyval) : FileSystem :=
  {| path_exists := fun _ => true;
     open_read := fun _ => Ret (py "text");
     yaml_safe_load := fun _ => Ret document |}.

End ConfigShapes.

(** ** Further concrete collaborators *)
Module Scenes.
Import Utils ConfigManager.

Definition shop : pystr := py "shop".

Definition python_client : ConnectionManager.Client :=
  {| ConnectionManager.command := py "python";
     ConnectionManager.args := [py "server.py"] |}.

(** Two servers, [calc] and [shop], that both list a tool [add]. *)
Definition two_servers : ConnectionManager.Transport :=
  Samples.server_answering (Ret (ConnectionManager.WithContent [])).

(** A backend that answers every request with the NO_TOOL document and
    whose parser knows that document only. *)
Definition direct : LLMInterface.Backend :=
  {| LLMInterface.create := fun _ _ => Ret (Some Samples.no_tool_text);
     LLMInterface.json_loads := fun text =>
       if pystr_eqb text Samples.no_tool_text then Ret Samples.no_tool_value
       else Raise (mk_exn JSONDecodeError (py "Expecting value"));
     LLMInterface.search_json_fence := fun _ => None |}.

(** The NO_TOOL document whose [response] is the number 4, and a backend
    that answers with it. *)
Definition number_text : pystr :=
  py "{" ++ Samples.member "type" "NO_TOOL" ++ py ", "
     ++ Samples.quoted "response" ++ py ": 4}".

Definition number_value : pyval :=
  PDict [(py "type", PStr (py "NO_TOOL")); (py "response", PInt 4)].

Definition numeric : LLMInterface.Backend :=
  {| LLMInterface.create := fun _ _ => Ret (Some number_text);
     LLMInterface.json_loads := fun text =>
       if pystr_eqb text number_text then Ret number_value
       else Raise (mk_exn JSONDecodeError (py "Expecting value"));
     LLMInterface.search_json_fence := fun _ => None |}.

Definition both_connected : ConnectionManager.Manager :=
  {| ConnectionManager.verbose := PBool true;
     ConnectionManager.servers := [];
     ConnectionManager.clients :=
       [(Samples.calc, python_client); (shop, python_client)];
     ConnectionManager.tools_info := [];
     ConnectionManager._initialized := false |}.

(** The lone surrogate U+D800, which a strict UTF-8 stream cannot
    encode. *)
Definition lone_surrogate : pystr := [0xD800].

(** A task for [add] whose description is the lone surrogate, as
    [json.loads] makes it of the escape in a reply. *)
Definition garbled_task : pyval :=
  PDict [(py "tool", PStr Samples.add); (py "description", PStr lone_surrogate)].

(** A NO_TOOL document whose [reason] is the escape of the lone
    surrogate, and a backend that answers with it. *)
Definition escaped_text : pystr :=
  py "{" ++ Samples.member "type" "NO_TOOL" ++ py ", "
     ++ Samples.member "reason" "\ud800" ++ py ", "
     ++ Samples.member "response" "4" ++ py "}".

Definition escaped_value : pyval :=
  PDict [(py "type", PStr (py "NO_TOOL")); (py "reason", PStr lone_surrogate);
         (py "response", PStr (py "4"))].

Definition escaping : LLMInterface.Backend :=
  {| LLMInterface.create := fun _ _ => Ret (Some escaped_text);
     LLMInterface.json_loads := fun text =>
       if pystr_eqb text escaped_text then Ret escaped_value
       else Raise (mk_exn JSONDecodeError (py "Expecting value"));
     LLMInterface.search_json_fence := fun _ => None |}.

(** A server whose name, a key of the JSON configuration, holds the
    lone surrogate. *)
Definition odd : pystr := py "odd" ++ lone_surrogate.

Definition odd_info : ConnectionManager.ServerInfo :=
  {| ConnectionManager.name := odd;
     ConnectionManager.path := [py "python"; py "odd.py"] |}.

End Scenes.

(** * Properties of the embedding *)

(** ** Which collaborator a computation talks to *)
Section Frames.
Import Utils ConfigManager.

Lemma keeps_tool_calls_ret {A} (a : A) : keeps_tool_calls (retM a).
Proof. intros w. reflexivity. Qed.

Lemma keeps_tool_calls_lift {A} (o : outcome A) : keeps_tool_calls (liftM o).
Proof. intros w. reflexivity. Qed.

Lemma keeps_tool_calls_bind {A B} (m : M A) (k : A -> M B) :
  keeps_tool_calls m -> (forall a, keeps_tool_calls (k a)) ->
  keeps_tool_calls (bindM m k).
Proof.
  intros Hm Hk w. unfold bindM. specialize (Hm w).
  destruct (m w) as [[a|e] w1]; simpl in *; [|exact Hm].
  rewrite (Hk a w1). exact Hm.
Qed.

Lemma keeps_tool_calls_try {A} (body : M A) (handler : exn -> M A) :
  keeps_tool_calls body -> (forall e, keeps_tool_calls (handler e)) ->
  keeps_tool_calls (try_except body handler).
Proof.
  intros Hb Hh w. unfold try_except. specialize (Hb w).
  destruct (body w) as [[a|e] w1]; simpl in *; [exact Hb|].
  rewrite (Hh e w1). exact Hb.
Qed.

Lemma keeps_llm_calls_ret {A} (a : A) : keeps_llm_calls (retM a).
Proof. intros w. reflexivity. Qed.

Lemma keeps_llm_calls_lift {A} (o : outcome A) : keeps_llm_calls (liftM o).
Proof. intros w. reflexivity. Qed.

Lemma keeps_llm_calls_bind {A B} (m : M A) (k : A -> M B) :
  keeps_llm_calls m -> (forall a, keeps_llm_calls (k a)) ->
  keeps_llm_calls (bindM m k).
Proof.
  intros Hm Hk w. unfold bindM. specialize (Hm w).
  destruct (m w) as [[a|e] w1]; simpl in *; [|exact Hm].
  rewrite (Hk a w1). exact Hm.
Qed.

Lemma keeps_llm_calls_try {A} (body : M A) (handler : exn -> M A) :
  keeps_llm_calls body -> (forall e, keeps_llm_calls (handler e)) ->
  keeps_llm_calls (try_except body handler).
Proof.
  intros Hb Hh w. unfold try_except. specialize (Hb w).
  destruct (body w) as [[a|e] w1]; simpl in *; [exact Hb|].
  rewrite (Hh e w1). exact Hb.
Qed.

Lemma kept_tool_calls {A} (m : M A) (w w' : World) (o : outcome A) :
  keeps_tool_calls m -> m w = (o, w') -> tool_calls w' = tool_calls w.
Proof. intros K H. specialize (K w). now rewrite H in K. Qed.

Lemma kept_llm_calls {A} (m : M A) (w w' : World) (o : outcome A) :
  keeps_llm_calls m -> m w = (o, w') -> llm_calls w' = llm_calls w.
Proof. intros K H. specialize (K w). now rewrite H in K. Qed.

(** A log line goes to the console only. *)
Lemma emit_keeps_tool_calls p c logger message level always_print show_level :
  keeps_tool_calls
    (Logger.emit p c logger message level always_print show_level).
Proof.
  intros w. unfold Logger.emit.
  destruct (Logger.ulog _ _ _ _ _ _) as [line|]; [|reflexivity].
  unfold Logger.print_line. destruct (print c _ line); reflexivity.
Qed.

Lemma emit_keeps_llm_calls p c logger message level always_print show_level :
  keeps_llm_calls
    (Logger.emit p c logger message level always_print show_level).
Proof.
  intros w. unfold Logger.emit.
  destruct (Logger.ulog _ _ _ _ _ _) as [line|]; [|reflexivity].
  unfold Logger.print_line. destruct (print c _ line); reflexivity.
Qed.

(** A logger that is not verbose prints nothing it is not forced to. *)
Lemma quiet_prints_nothing (full_upper : Z -> pystr) (logger : Logger.Logger)
    (message level : pystr) (show_level : bool) :
  Logger.verbose logger = false ->
  Logger.ulog full_upper logger message level false show_level = None.
Proof.
  intros Q. unfold Logger.ulog.
  destruct (Logger.split_colon level) as [log_level prefix_key].
  rewrite Q. destruct (negb _ && negb false); reflexivity.
Qed.

Lemma emit_unfailing (p : Platform) (c : Console) (logger : Logger.Logger)
    (message level : pystr) (show_level : bool) (w : World) :
  Logger.unfailing c logger ->
  exists w',
    Logger.emit p c logger message level false show_level w = (Ret tt, w') /\
    llm_calls w' = llm_calls w /\ tool_calls w' = tool_calls w.
Proof.
  intros U. unfold Logger.emit.
  destruct (Logger.ulog _ _ _ _ _ _) as [line|] eqn:L.
  - destruct U as [Q|P].
    + rewrite quiet_prints_nothing in L by exact Q. discriminate.
    + unfold Logger.print_line. rewrite P. eexists. repeat split.
  - exists w. repeat split.
Qed.

(** A log line that cannot fail, followed by [k]. *)
Lemma emit_then {A} (p : Platform) (c : Console) (logger : Logger.Logger)
    (message level : pystr) (show_level : bool) (k : unit -> M A) (w : World) :
  Logger.unfailing c logger ->
  exists w',
    bindM (Logger.emit p c logger message level false show_level) k w = k tt w' /\
    llm_calls w' = llm_calls w /\ tool_calls w' = tool_calls w.
Proof.
  intros U. unfold bindM.
  destruct (emit_unfailing p message level show_level w U) as [w' [-> F]].
  now exists w'.
Qed.

Lemma call_llm_keeps_tool_calls p be config role prompt temperature format :
  keeps_tool_calls
    (LLMInterface._call_llm p be config role prompt temperature format).
Proof.
  intros w. unfold LLMInterface._call_llm.
  destruct (LLMInterface.create be _ _); reflexivity.
Qed.

Lemma call_tool_keeps_llm_calls p tr cm tool_name arguments :
  keeps_llm_calls (ConnectionManager.call_tool p tr cm tool_name arguments).
Proof.
  intros w. unfold ConnectionManager.call_tool.
  destruct tool_name as [| | | |tool| |]; try reflexivity.
  destruct (PyDict.get _ tool) as [info|]; [|reflexivity].
  destruct (PyDict.get _ (ConnectionManager.server info)); [|reflexivity].
  destruct (ConnectionManager.call tr _ _ _ _); reflexivity.
Qed.

End Frames.

Ltac frame :=
  repeat (intros;
          match goal with
          | |- keeps_tool_calls (retM _) => apply keeps_tool_calls_ret
          | |- keeps_tool_calls (liftM _) => apply keeps_tool_calls_lift
          | |- keeps_tool_calls (bindM _ _) => apply keeps_tool_calls_bind
          | |- keeps_tool_calls (try_except _ _) => apply keeps_tool_calls_try
          | |- keeps_tool_calls (Logger.emit _ _ _ _ _ _ _) =>
              apply emit_keeps_tool_calls
          | |- keeps_tool_calls (LLMInterface._call_llm _ _ _ _ _ _ _) =>
              apply call_llm_keeps_tool_calls
          | |- keeps_llm_calls (retM _) => apply keeps_llm_calls_ret
          | |- keeps_llm_calls (liftM _) => apply keeps_llm_calls_lift
          | |- keeps_llm_calls (bindM _ _) => apply keeps_llm_calls_bind
          | |- keeps_llm_calls (try_except _ _) => apply keeps_llm_calls_try
          | |- keeps_llm_calls (Logger.emit _ _ _ _ _ _ _) =>
              apply emit_keeps_llm_calls
          | |- keeps_llm_calls (ConnectionManager.call_tool _ _ _ _ _) =>
              apply call_tool_keeps_llm_calls
          | |- _ (if ?b then _ else _) => destruct b
          | |- _ (match ?x with Some _ => _ | None => _ end) => destruct x
          | |- _ (match ?x with (_, _) => _ end) => destruct x
          | |- _ => progress cbv zeta
          end).

(** The next log line of the agent, when logging cannot fail. *)
Ltac log_step U :=
  unfold MCPAgent.log at 1;
  match goal with
  | |- context [bindM (Logger.emit ?p ?c ?lg ?m ?l false ?s) ?k ?w0] =>
      let w1 := fresh "w" in
      let E := fresh "E" in
      let L := fresh "Llm" in
      let T := fresh "Tool" in
      destruct (@emit_then _ p c lg m l s k w0 U) as [w1 [E [L T]]];
      rewrite E; clear E; cbv beta
  end.

(** *** The three operations of the interface and the task loop *)
Section Frames_of_operations.
Import Utils ConfigManager.

Lemma classify_keeps_tool_calls p c be config logger user_query
    recent_context tools_info :
  keeps_tool_calls
    (LLMInterface.determine_execution_type p c be config logger user_query
       recent_context tools_info).
Proof. unfold LLMInterface.determine_execution_type. frame. Qed.

Lemma plan_keeps_tool_calls p c be config logger user_query context
    tools_info custom :
  keeps_tool_calls
    (LLMInterface.generate_task_list p c be config logger user_query context
       tools_info custom).
Proof. unfold LLMInterface.generate_task_list. frame. Qed.

Lemma interpret_keeps_tool_calls p c be config logger user_query results
    context custom :
  keeps_tool_calls
    (LLMInterface.interpret_results p c be config logger user_query results
       context custom).
Proof. unfold LLMInterface.interpret_results. frame. Qed.

Lemma attempt_keeps_llm_calls env self tool params description results :
  keeps_llm_calls (MCPAgent.attempt env self tool params description results).
Proof. unfold MCPAgent.attempt, MCPAgent.log. frame. Qed.

Lemma execute_loop_keeps_llm_calls env self total task_list :
  forall i results,
    keeps_llm_calls (MCPAgent.execute_loop env self total i task_list results).
Proof.
  induction task_list as [|task rest IH]; intros i results;
    cbn [MCPAgent.execute_loop].
  - apply keeps_llm_calls_ret.
  - unfold MCPAgent.log. frame; try apply attempt_keeps_llm_calls;
      intros; apply IH.
Qed.

End Frames_of_operations.

(** ** Sanitisation ([utils.safe_str], [ConnectionManager.call_tool]) *)
Section Sanitisation.
Import Utils.

Lemma replace_surrogates_clean (text : pystr) :
  no_surrogate (replace_surrogates text).
Proof.
  unfold no_surrogate, replace_surrogates.
  induction text as [|c text IH]; simpl; constructor; auto.
  destruct (is_surrogate c) eqn:E; simpl; auto.
Qed.

Lemma replace_surrogates_nth (text : pystr) (i : nat) (c : Z) :
  nth_error text i = Some c ->
  nth_error (replace_surrogates text) i
  = Some (if is_surrogate c then question_mark else c).
Proof.
  intros H. unfold replace_surrogates.
  rewrite nth_error_map, H. simpl.
  now destruct (is_surrogate c).
Qed.

Lemma safe_str_elsewhere (p : Platform) (text : pystr) :
  win32 p = false -> safe_str p text = replace_surrogates text.
Proof. intros H. unfold safe_str. now rewrite H. Qed.

Lemma safe_str_clean (p : Platform) (text : pystr) :
  decoder_sound p -> no_surrogate (safe_str p text).
Proof.
  intros sound. unfold safe_str.
  destruct (win32 p); [|apply replace_surrogates_clean].
  destruct (cp932_encode_replace p text) as [encoded|];
    [|apply replace_surrogates_clean].
  destruct (cp932_decode p encoded) as [decoded|] eqn:D;
    [|apply replace_surrogates_clean].
  exact (sound _ _ D).
Qed.

Lemma sanitize_result_texts (p : Platform) (raw : ConnectionManager.CallResult) :
  ConnectionManager.texts (ConnectionManager.sanitize_result p raw)
  = map (safe_str p) (ConnectionManager.texts raw).
Proof.
  destruct raw as [content|]; simpl; [|reflexivity].
  induction content as [|[text|] content IH]; simpl; congruence.
Qed.

Lemma cp932_chars_clean (bs : list Z) :
  forall s, Samples.cp932_chars bs = Ret s -> no_surrogate s.
Proof.
  induction bs as [|b bs IH]; simpl; intros s H.
  - inversion H. constructor.
  - destruct (b <? 128) eqn:Lo.
    + destruct (Samples.cp932_chars bs) as [s'|]; simpl in H; inversion H.
      constructor; [|now apply IH].
      unfold is_surrogate. apply Z.ltb_lt in Lo.
      apply andb_false_intro1. apply Z.leb_gt. lia.
    + destruct ((161 <=? b) && (b <=? 223)) eqn:Kana; [|discriminate].
      destruct (Samples.cp932_chars bs) as [s'|]; simpl in H; inversion H.
      constructor; [|now apply IH].
      apply andb_prop in Kana. destruct Kana as [K1 K2].
      apply Z.leb_le in K1. apply Z.leb_le in K2.
      unfold is_surrogate. apply andb_false_intro2. apply Z.leb_gt. lia.
Qed.

Lemma windows_decoder_sound : decoder_sound Samples.windows.
Proof. intros bs s H. exact (cp932_chars_clean bs H). Qed.

Lemma replace_surrogates_only (text : pystr) :
  only_surrogates_replaced text (replace_surrogates text).
Proof.
  split.
  - unfold replace_surrogates. apply length_map.
  - intros i c. apply replace_surrogates_nth.
Qed.

(** C9, as stated, fails on win32: the server sends the one character
    U+1F600, which is no surrogate, and [call_tool] hands the caller a
    question mark in its place. *)
Lemma call_tool_replaces_emoji_on_windows :
  Utils.is_surrogate Samples.grinning_face = false /\
  ConnectionManager.call Samples.emoji_server 0 Samples.calc Samples.add (PDict [])
  = Ret (ConnectionManager.WithContent
           [ConnectionManager.TextContent [Samples.grinning_face]]) /\
  fst (ConnectionManager.call_tool Samples.windows Samples.emoji_server
         (Samples.manager Samples.emoji_server) (PStr Samples.add) (PDict [])
         World_empty)
  = Ret (ConnectionManager.WithContent
           [ConnectionManager.TextContent [Utils.question_mark]]) /\
  ~ only_surrogates_replaced [Samples.grinning_face]
      (safe_str Samples.windows [Samples.grinning_face]).
Proof.
  repeat split; try reflexivity.
  intros [_ H]. specialize (H 0%nat Samples.grinning_face eq_refl).
  vm_compute in H. discriminate.
Qed.

(** C9 (amended): every string text of a result that [call_tool]
    returns is the [safe_str] of the text the server sent and holds no
    surrogate code point (on win32 as long as the cp932 decoder yields
    none); on a platform other than win32 each surrogate is replaced by
    a question mark and every other character is kept, position by
    position. *)
Theorem call_tool_texts_sanitized
    (p : Platform) (tr : ConnectionManager.Transport)
    (self : ConnectionManager.Manager) (tool_name arguments : pyval)
    (w w' : World) (result : ConnectionManager.CallResult) :
  decoder_sound p ->
  ConnectionManager.call_tool p tr self tool_name arguments w = (Ret result, w') ->
  exists tool server_name raw,
    tool_name = PStr tool /\
    ConnectionManager.call tr (length (tool_calls w)) server_name tool arguments
    = Ret raw /\
    ConnectionManager.texts result
    = map (safe_str p) (ConnectionManager.texts raw) /\
    Forall no_surrogate (ConnectionManager.texts result) /\
    (win32 p = false ->
     Forall2 only_surrogates_replaced
       (ConnectionManager.texts raw) (ConnectionManager.texts result)).
Proof.
  intros sound H. unfold ConnectionManager.call_tool in H.
  destruct tool_name as [| | | |tool| |]; try discriminate.
  destruct (PyDict.get (ConnectionManager.tools_info self) tool) as [info|];
    [|discriminate].
  destruct (PyDict.get (ConnectionManager.clients self)
              (ConnectionManager.server info)) as [client|]; [|discriminate].
  destruct (ConnectionManager.call tr (length (tool_calls w))
              (ConnectionManager.server info) tool arguments) as [raw|] eqn:C;
    [|discriminate].
  inversion H; subst; clear H.
  exists tool, (ConnectionManager.server info), raw.
  rewrite sanitize_result_texts.
  repeat split; auto.
  - apply Forall_forall. intros t Ht. apply in_map_iff in Ht.
    destruct Ht as [t0 [<- _]]. now apply safe_str_clean.
  - intros posix.
    induction (ConnectionManager.texts raw) as [|t ts IH]; simpl; constructor; auto.
    rewrite (safe_str_elsewhere _ t posix). apply replace_surrogates_only.
Qed.

Lemma call_tool_texts_sanitized_witness :
  exists raw,
    ConnectionManager.texts
      (ConnectionManager.WithContent
         [ConnectionManager.TextContent [Utils.question_mark]])
    = map (safe_str Samples.windows) (ConnectionManager.texts raw).
Proof.
  destruct (@call_tool_texts_sanitized Samples.windows Samples.emoji_server
              (Samples.manager Samples.emoji_server) (PStr Samples.add)
              (PDict []) World_empty
              (ConnectionManager.record_call
                 {| inv_server := Samples.calc; inv_tool := Samples.add;
                    inv_arguments := PDict [] |} World_empty)
              (ConnectionManager.WithContent
                 [ConnectionManager.TextContent [Utils.question_mark]])
              windows_decoder_sound eq_refl)
    as [tool [server_name [raw [_ [_ [E _]]]]]].
  exists raw. exact E.
Defined.

End Sanitisation.

(** ** The tool registry ([ConnectionManager]) *)
Section Registry.
Import Utils ConnectionManager.

Lemma pystr_eqb_refl (s : pystr) : pystr_eqb s s = true.
Proof. induction s as [|c s IH]; simpl; [reflexivity|]. now rewrite Z.eqb_refl. Qed.

Lemma mem_of_In {V} (d : PyDict.t V) (k : pystr) (v : V) :
  In (k, v) d -> PyDict.mem d k = true.
Proof.
  unfold PyDict.mem. induction d as [|[k0 v0] d IH]; simpl; [tauto|].
  intros [E|I].
  - inversion E; subst. now rewrite pystr_eqb_refl.
  - destruct (pystr_eqb k0 k); [reflexivity|]. now apply IH.
Qed.

Lemma mem_set_mono {V} (d : PyDict.t V) (k k' : pystr) (v : V) :
  PyDict.mem d k = true -> PyDict.mem (PyDict.set d k' v) k = true.
Proof.
  unfold PyDict.mem. induction d as [|[k0 v0] d IH]; simpl; [discriminate|].
  destruct (pystr_eqb k0 k') eqn:E'; simpl;
    destruct (pystr_eqb k0 k); auto.
Qed.

Lemma get_set_cases {V} (d : PyDict.t V) (k k' : pystr) (v x : V) :
  PyDict.get (PyDict.set d k' v) k = Some x ->
  x = v \/ PyDict.get d k = Some x.
Proof.
  induction d as [|[k0 v0] d IH]; simpl.
  - destruct (pystr_eqb k' k); [|discriminate]. intros H. left. now inversion H.
  - destruct (pystr_eqb k0 k') eqn:E'; simpl;
      destruct (pystr_eqb k0 k); auto.
    intros H. left. now inversion H.
Qed.

(** *** Invariants of the state through the steps of a method *)

Lemma preserves_ret {S A} (I : S -> Prop) (a : A) : preserves I (retM a).
Proof. intros s H. exact H. Qed.

Lemma preserves_lift {S A} (I : S -> Prop) (o : outcome A) :
  preserves I (liftM o).
Proof. intros s H. exact H. Qed.

Lemma preserves_bind {S A B} (I : S -> Prop) (m : ST S A) (k : A -> ST S B) :
  preserves I m -> (forall a, preserves I (k a)) -> preserves I (bindM m k).
Proof.
  intros Hm Hk s H. unfold bindM. specialize (Hm s H).
  destruct (m s) as [[a|e] s1]; simpl in *; [|exact Hm].
  exact (Hk a s1 Hm).
Qed.

Lemma preserves_try {S A} (I : S -> Prop) (body : ST S A)
    (handler : exn -> ST S A) :
  preserves I body -> (forall e, preserves I (handler e)) ->
  preserves I (try_except body handler).
Proof.
  intros Hb Hh s H. unfold try_except. specialize (Hb s H).
  destruct (body s) as [[a|e] s1]; simpl in *; [exact Hb|].
  exact (Hh e s1 Hb).
Qed.

Lemma preserves_for_each {S A} (I : S -> Prop) (items : list A)
    (body : A -> ST S unit) :
  (forall item, In item items -> preserves I (body item)) ->
  preserves I (for_each items body).
Proof.
  induction items as [|item rest IH]; intros Hb; simpl.
  - apply preserves_ret.
  - apply preserves_bind; [apply Hb; now left|].
    intros _. apply IH. intros x Hx. apply Hb. now right.
Qed.

(** A property of the manager alone, as a property of the state. *)
Lemma preserves_log (P : Manager -> Prop) p c message level :
  preserves (fun s => P (fst s)) (log p c message level).
Proof.
  intros [self w] H. unfold log, bindM, this, in_world. simpl.
  destruct (Logger.emit _ _ _ _ _ _ _ w). exact H.
Qed.

Lemma preserves_update (P : Manager -> Prop) (f : Manager -> Manager) :
  (forall self, P self -> P (f self)) ->
  preserves (fun s => P (fst s)) (update f).
Proof. intros Hf [self w] H. simpl. now apply Hf. Qed.

(** [self <~ this ;; k self]: [k] runs on the manager of the state. *)
Lemma preserves_this {B} (I : Manager * World -> Prop) (k : Manager -> Op B) :
  (forall self w, I (self, w) -> I (snd (k self (self, w)))) ->
  preserves I (bindM this k).
Proof. intros Hk [self w] H. unfold bindM, this. simpl. now apply Hk. Qed.

(** Assigning to [self.clients[server_name]] keeps every owner
    connected. *)
Lemma connect_server_keeps_owners p c tr (item : pystr * ServerInfo) :
  preserves (fun s => owners_connected (fst s)) (connect_server p c tr item).
Proof.
  destruct item as [server_name server_info]. unfold connect_server.
  apply preserves_try; [|intros e; apply (preserves_log owners_connected)].
  apply preserves_bind; [apply (preserves_log owners_connected)|intros _].
  destruct (path server_info) as [|command args]; [apply preserves_lift|].
  apply preserves_bind; [apply preserves_lift|intros _].
  apply preserves_bind; [|intros _; apply (preserves_log owners_connected)].
  apply (preserves_update owners_connected).
  intros self inv tool info G. simpl. apply mem_set_mono. exact (inv _ _ G).
Qed.

Lemma connect_all_keeps_owners p c tr :
  preserves (fun s => owners_connected (fst s)) (_connect_all_servers p c tr).
Proof.
  unfold _connect_all_servers.
  apply preserves_bind; [apply (preserves_log owners_connected)|intros _].
  apply preserves_bind; [intros s H; exact H|intros self].
  apply preserves_for_each. intros item _. apply connect_server_keeps_owners.
Qed.

(** Registering tools under a server that satisfies [P] keeps "every
    owner satisfies [P]". *)
Lemma register_keeps_owners (P : pystr -> Prop) (server_name : pystr)
    (tools : list Tool) :
  P server_name ->
  forall registry : PyDict.t ToolInfo,
    (forall tool info, PyDict.get registry tool = Some info -> P (server info)) ->
    forall tool info,
      PyDict.get (fold_left (register_tool server_name) tools registry) tool
      = Some info ->
      P (server info).
Proof.
  intros Ps. induction tools as [|t tools IH]; simpl; intros registry H;
    [exact H|].
  apply IH. intros tool info G. unfold register_tool in G.
  apply get_set_cases in G. destruct G as [->|G]; [exact Ps|].
  exact (H _ _ G).
Qed.

(** While tools are collected the connected set stays as it is, and
    every entry written belongs to a member of it. *)
Lemma collect_from_keeps_owners p c tr (connected : PyDict.t Client)
    (item : pystr * Client) :
  In item connected ->
  preserves (fun s => clients (fst s) = connected /\ owners_connected (fst s))
    (collect_from p c tr item).
Proof.
  destruct item as [server_name client]. intros I. unfold collect_from.
  set (J := fun self => clients self = connected /\ owners_connected self).
  apply preserves_try; [|intros e; apply (preserves_log J)].
  apply preserves_bind; [apply preserves_lift|intros tools].
  apply preserves_bind; [|intros _; apply (preserves_log J)].
  apply (preserves_update J).
  intros self [C inv]. split; [exact C|].
  intros tool info G. simpl in G |- *.
  apply register_keeps_owners
    with (P := fun s => PyDict.mem (clients self) s = true) in G;
    [exact G| |exact inv].
  rewrite C. exact (mem_of_In _ _ _ I).
Qed.

Lemma collect_all_keeps_owners p c tr :
  preserves (fun s => owners_connected (fst s)) (_collect_tools_info p c tr).
Proof.
  unfold _collect_tools_info.
  apply preserves_bind; [apply (preserves_log owners_connected)|intros _].
  apply preserves_this. intros self w inv.
  assert (K : preserves
                (fun s => clients (fst s) = clients self
                          /\ owners_connected (fst s))
                (for_each (clients self) (collect_from p c tr))).
  { apply preserves_for_each. intros item I.
    now apply collect_from_keeps_owners. }
  apply (K (self, w)). split; [reflexivity|exact inv].
Qed.

Lemma initialize_keeps_owners p c tr :
  preserves (fun s => owners_connected (fst s)) (initialize p c tr).
Proof.
  unfold initialize.
  apply preserves_bind; [intros s H; exact H|intros self].
  destruct (_initialized self); [apply (preserves_log owners_connected)|].
  do 4 (apply preserves_bind; [apply (preserves_log owners_connected)|intros _]).
  apply preserves_bind; [apply connect_all_keeps_owners|intros _].
  apply preserves_bind; [apply collect_all_keeps_owners|intros _].
  apply preserves_bind;
    [apply (preserves_update owners_connected); intros self0 inv; exact inv
    |intros _].
  apply preserves_bind; [apply (preserves_log owners_connected)|intros _].
  apply preserves_bind; [intros s H; exact H|intros self1].
  do 2 (apply preserves_bind; [apply (preserves_log owners_connected)|intros _]).
  apply (preserves_log owners_connected).
Qed.

(** *** [close] *)

Lemma log_leaves_manager p c message level (self : Manager) (w : World) :
  exists o w', log p c message level (self, w) = (o, (self, w')).
Proof.
  unfold log, bindM, this, in_world. simpl.
  destruct (Logger.emit _ _ _ _ _ _ _ w) as [o w']. now exists o, w'.
Qed.

Lemma log_unfailing p c message level (self : Manager) (w : World) :
  Logger.unfailing c (logger p self) ->
  exists w', log p c message level (self, w) = (Ret tt, (self, w')).
Proof.
  intros U. unfold log, bindM, this, in_world. simpl.
  destruct (emit_unfailing p message level false w U) as [w' [-> _]].
  now exists w'.
Qed.

Lemma close_client_run p c tr (item : pystr * Client) (self : Manager)
    (w : World) :
  exists o w',
    close_client p c tr item (self, w) = (o, (self, w')) /\
    (Logger.unfailing c (logger p self) -> o = Ret tt).
Proof.
  destruct item as [server_name client].
  unfold close_client, try_except, liftM.
  destruct (aexit tr server_name client) as [[]|e].
  - now exists (Ret tt), w.
  - unfold bindM, this. cbn [fst].
    destruct (py_truthy (verbose self)) eqn:V.
    + destruct (log_leaves_manager p c
                  (server_name ++ py "の切断エラー: " ++ exn_str e)
                  (py "warning:warning") self w) as [o [w' L]].
      exists o, w'. split; [exact L|].
      intros U. destruct (log_unfailing
                            (server_name ++ py "の切断エラー: " ++ exn_str e)
                            (py "warning:warning") w U) as [w2 L2].
      congruence.
    + now exists (Ret tt), w.
Qed.

Lemma close_clients_run p c tr (items : list (pystr * Client)) (self : Manager) :
  forall w,
  exists o w',
    for_each items (close_client p c tr) (self, w) = (o, (self, w')) /\
    (Logger.unfailing c (logger p self) -> o = Ret tt).
Proof.
  induction items as [|item rest IH]; intros w; simpl.
  - now exists (Ret tt), w.
  - unfold bindM.
    destruct (close_client_run p c tr item self w) as [o [w1 [R U1]]].
    rewrite R. destruct o as [[]|e].
    + apply IH.
    + exists (Raise e), w1. split; [reflexivity|].
      intros U. specialize (U1 U). discriminate.
Qed.

(** What [close] leaves: the registry as it was, and no client when it
    returned. *)
Lemma close_run p c tr (self : Manager) (w : World) :
  tools_info (after (close p c tr) self w) = tools_info self /\
  (Logger.unfailing c (logger p self) -> fst (close p c tr (self, w)) = Ret tt) /\
  (fst (close p c tr (self, w)) = Ret tt ->
   clients (after (close p c tr) self w) = []).
Proof.
  unfold after, close, bindM, this. cbn [fst].
  destruct (close_clients_run p c tr (clients self) self w) as [o [w' [R U]]].
  rewrite R. destruct o as [[]|e]; simpl.
  - repeat split.
  - split; [reflexivity|]. split; [exact U|discriminate].
Qed.

(** C4, as stated, fails after [close]: the tool [add] of the server
    [calc] is still resolvable, and [calc] is no longer connected. *)
Lemma add_resolvable_after_close :
  let closed := after (close Samples.posix Samples.terminal Samples.failing_server)
                  (Samples.manager Samples.failing_server) World_empty in
  get_tool_info closed Samples.add
  = Some {| server := Samples.calc; schema := PDict [];
            description := PStr (py "adds") |} /\
  PyDict.mem (clients closed) Samples.calc = false /\
  ~ owners_connected closed.
Proof.
  repeat split.
  intros inv. specialize (inv Samples.add _ eq_refl).
  vm_compute in inv. discriminate.
Qed.

(** C4 (amended): [initialize] keeps the invariant that the server of
    every resolvable entry is connected, entries being created only
    while collecting tools from a connected client, and it keeps it also
    when it is interrupted; [close] leaves the registry as it is, so the
    entries stay resolvable; it returns when logging cannot fail, and
    when it has returned the connected set is empty and [call_tool] on
    any entry raises [ValueError] without contacting a server. *)
Theorem registry_owners_connected
    (p : Platform) (c : Console) (tr : Transport) (self : Manager) (w : World) :
  owners_connected self ->
  let closed := after (close p c tr) self w in
  owners_connected (after (initialize p c tr) self w) /\
  tools_info closed = tools_info self /\
  (Logger.unfailing c (logger p self) -> fst (close p c tr (self, w)) = Ret tt) /\
  (fst (close p c tr (self, w)) = Ret tt ->
   clients closed = [] /\
   forall p' tr' tool info arguments w',
     get_tool_info closed tool = Some info ->
     exists e,
       call_tool p' tr' closed (PStr tool) arguments w' = (Raise e, w') /\
       exn_type e = ValueError).
Proof.
  intros inv closed.
  destruct (close_run p c tr self w) as [Registry [Returns Emptied]].
  pose proof (initialize_keeps_owners p c tr) as Kept. unfold preserves in Kept.
  split; [exact (Kept (self, w) inv)|].
  split; [exact Registry|]. split; [exact Returns|].
  intros R. specialize (Emptied R). split; [exact Emptied|].
  intros p' tr' tool info arguments w' G. unfold get_tool_info in G.
  unfold call_tool. rewrite G. fold closed in Emptied. rewrite Emptied.
  simpl. eexists. split; reflexivity.
Qed.

Lemma new_owners_connected (servers : PyDict.t ServerInfo) (verbose : pyval) :
  owners_connected (new servers verbose).
Proof. intros tool info G. discriminate. Qed.

Lemma registry_owners_connected_witness :
  owners_connected (Samples.manager Samples.failing_server).
Proof.
  exact (proj1 (@registry_owners_connected Samples.posix Samples.terminal
                  Samples.failing_server
                  (new Samples.servers (PBool true)) World_empty
                  (@new_owners_connected Samples.servers (PBool true)))).
Defined.

End Registry.

(** ** The context window ([MCPAgent._get_recent_context]) *)
Section Context.
Import Utils ConfigManager MCPAgent.

Lemma slice_from_last {A} (l : list A) (m : Z) :
  (0 < m)%Z ->
  exists older,
    l = older ++ slice_from l (- m) /\
    length (slice_from l (- m)) = Nat.min (Z.to_nat m) (length l).
Proof.
  intros Hm. unfold slice_from.
  replace (- m <? 0)%Z with true by (symmetry; apply Z.ltb_lt; lia).
  set (i := Z.to_nat (Z.max 0 (- m + Z.of_nat (length l)))).
  exists (firstn i l). split.
  - symmetry. apply firstn_skipn.
  - rewrite length_skipn. subst i. lia.
Qed.

Lemma clip_text (s : pystr) :
  exists body,
    clip (PStr s) = Ret (PStr body) /\
    ((length s <= 150)%nat -> body = s) /\
    ((150 < length s)%nat -> body = firstn 150 s ++ ellipsis).
Proof.
  unfold clip.
  destruct (150 <? Z.of_nat (length s))%Z eqn:E.
  - apply Z.ltb_lt in E. eexists. split; [reflexivity|]. split; [lia|reflexivity].
  - apply Z.ltb_ge in E. eexists. split; [reflexivity|]. split; [reflexivity|lia].
Qed.

Lemma context_lines_of_texts (p : Platform) (recent : list Turn) :
  Forall is_text recent ->
  exists lines,
    context_lines p recent = Ret lines /\ Forall2 shows recent lines.
Proof.
  induction 1 as [|entry recent [s Hs] _ [lines [IH1 IH2]]]; simpl.
  - exists []. split; [reflexivity|constructor].
  - unfold context_line. rewrite Hs.
    destruct (clip_text s) as [body [C [Short Long]]].
    rewrite C. simpl. rewrite IH1. simpl.
    eexists. split; [reflexivity|].
    constructor; [|exact IH2].
    exists s, body. repeat split; auto.
Qed.

(** C5, as stated, fails when [context_limit] is not 10: with
    [context_limit = 2] and three turns in the history, the context built
    for the next request shows all three (and the user's new turn). *)
Lemma context_ignores_context_limit :
  context_limit (conversation (config Samples.talkative)) = PInt 2 /\
  _get_recent_context Samples.posix Samples.talkative 10
  = Ret (join nl [py "User: a"; py "Assistant: b"; py "User: c"]) /\
  (let '(_, _, w) :=
     process_request
       (Samples.env Samples.posix Samples.failing_server
          (Samples.scripted Samples.no_tool_text Samples.empty_plan_text))
       (py "d") Samples.talkative World_empty in
   map (fun r => match req_prompt r with
                 | ClassifyPrompt _ recent_context _ => recent_context
                 | _ => []
                 end) (llm_calls w))
  = [join nl [py "User: a"; py "Assistant: b"; py "User: c"; py "User: d"]].
Proof. repeat split. Qed.

(** C5 (amended): for every history of text turns and every
    configuration, the context [process_request] builds (it asks for 10
    entries, whatever [context_limit] says) is the lines, joined by
    newlines, of the last [min 10 n] turns of the [n] in the history, in
    their order; each line shows its turn with the text cut to its first
    150 characters and followed by the marker exactly when it is longer
    than 150. *)
Theorem recent_context_shows_last_ten (p : Platform) (self : Agent) :
  Forall is_text (conversation_history self) ->
  exists older recent lines,
    conversation_history self = older ++ recent /\
    length recent = Nat.min 10 (length (conversation_history self)) /\
    _get_recent_context p self 10 = Ret (join nl lines) /\
    Forall2 shows recent lines.
Proof.
  intros texts. unfold _get_recent_context.
  destruct (slice_from_last (conversation_history self) (m := 10) eq_refl)
    as [older [Split Len]].
  assert (T : Forall is_text (slice_from (conversation_history self) (- (10)))).
  { rewrite Split in texts. apply Forall_app in texts. tauto. }
  destruct (context_lines_of_texts p T) as [lines [L S]].
  exists older, (slice_from (conversation_history self) (- (10))), lines.
  rewrite L. simpl. repeat split; auto.
Qed.

Lemma talkative_texts : Forall is_text (conversation_history Samples.talkative).
Proof. repeat constructor; eexists; reflexivity. Qed.

Lemma recent_context_shows_last_ten_witness :
  exists older recent lines,
    conversation_history Samples.talkative = older ++ recent /\
    length recent = 3%nat /\
    _get_recent_context Samples.posix Samples.talkative 10 = Ret (join nl lines) /\
    Forall2 shows recent lines.
Proof.
  exact (recent_context_shows_last_ten Samples.posix Samples.talkative
           talkative_texts).
Defined.

End Context.

(** ** Classification ([LLMInterface.determine_execution_type]) *)
Section Classification.
Import Utils ConfigManager LLMInterface Requests.

Lemma pystr_eqb_eq (a b : pystr) : pystr_eqb a b = true -> a = b.
Proof.
  revert b. induction a as [|x a IH]; destruct b as [|y b]; simpl;
    try discriminate; [reflexivity|].
  intros H. apply andb_prop in H. destruct H as [H1 H2].
  apply Z.eqb_eq in H1. f_equal; auto.
Qed.

Lemma py_eq_str_eq (v : pyval) (s : pystr) : py_eq_str v s = true -> v = PStr s.
Proof.
  destruct v; simpl; try discriminate. intros H. f_equal. now apply pystr_eqb_eq.
Qed.

Lemma get_set_same {V} (d : PyDict.t V) (k : pystr) (v : V) :
  PyDict.get (PyDict.set d k v) k = Some v.
Proof.
  induction d as [|[k0 v0] d IH]; simpl.
  - now rewrite pystr_eqb_refl.
  - destruct (pystr_eqb k0 k) eqn:E; simpl; rewrite E; auto.
Qed.

Lemma call_llm_run (p : Platform) (be : Backend) (config : Config)
    (role : pystr) (prompt : Prompt) (temperature : Q)
    (response_format : option pystr) (w : World) :
  _call_llm p be config role prompt temperature response_format w
  = (match create be (length (llm_calls w))
             (request config role prompt temperature response_format) with
     | Ret content => Ret (reply_text p content)
     | Raise e => Raise e
     end,
     record_request (request config role prompt temperature response_format) w).
Proof.
  unfold _call_llm. fold (request config role prompt temperature response_format).
  destruct (create be _ _); reflexivity.
Qed.

(** C6, as stated, fails twice.  The reason of the verdict does not
    name the failure: when the backend cannot be reached the verdict is
    the default one, whose reason is a fixed sentence that does not hold
    the text of the failure.  And the operation can raise: the handler
    logs the text of the failure before it returns, and on a terminal
    that cannot encode that text [print] raises out of the handler. *)
Lemma classification_reason_is_fixed_and_log_can_raise :
  (fst (determine_execution_type Samples.posix Samples.terminal
          Samples.unreachable Config_default Samples.chatty
          (py "What is 2+2?") [] [] World_empty)
   = Ret default_verdict /\
   verdict_reason default_verdict
   = Some (PStr (py "判定エラーによりデフォルト選択")) /\
   is_substring (py "Connection error.") (py "判定エラーによりデフォルト選択")
   = false) /\
  (exists e,
     fst (determine_execution_type Samples.posix Samples.terminal
            Samples.garbled Config_default Samples.chatty
            (py "What is 2+2?") [] [] World_empty)
     = Raise e /\
     exn_type e = UnicodeEncodeError).
Proof.
  split; [repeat split; vm_compute; reflexivity|].
  eexists. split; vm_compute; reflexivity.
Qed.

Ltac default_case request w' :=
  exists default_verdict, w';
  repeat split; auto; try tauto; intros; congruence.

(** C6 (amended): when logging cannot fail, [determine_execution_type]
    returns, having sent one request; the verdict is a dict whose type
    is NO_TOOL, CLARIFICATION or TOOL; it is NO_TOOL or CLARIFICATION
    only when the backend replied, the reply parsed as a dict and that
    dict, returned as it is, has this type; and when the backend raised,
    or the reply did not parse as a dict, the verdict is the default
    one, the same for every failure: type TOOL with the fixed reason
    [判定エラーによりデフォルト選択]. *)
Theorem classification_defaults_to_tool
    (p : Platform) (c : Console) (be : Backend) (config : Config)
    (logger : Logger.Logger)
    (user_query recent_context tools_info : pystr) (w : World) :
  Logger.unfailing c logger ->
  let sent := classify_request config user_query recent_context tools_info in
  exists verdict w',
    determine_execution_type p c be config logger user_query recent_context
      tools_info w
    = (Ret verdict, w') /\
    llm_calls w' = llm_calls w ++ [sent] /\
    (verdict_type verdict = Some (PStr (py "NO_TOOL")) \/
     verdict_type verdict = Some (PStr (py "CLARIFICATION")) \/
     verdict_type verdict = Some (PStr (py "TOOL"))) /\
    (verdict_type verdict <> Some (PStr (py "TOOL")) ->
     exists content d,
       create be (length (llm_calls w)) sent = Ret content /\
       json_loads be (reply_text p content) = Ret (PDict d) /\
       verdict = PDict d) /\
    (forall e, create be (length (llm_calls w)) sent = Raise e ->
       verdict = default_verdict) /\
    (forall content,
       create be (length (llm_calls w)) sent = Ret content ->
       (forall d, json_loads be (reply_text p content) <> Ret (PDict d)) ->
       verdict = default_verdict) /\
    verdict_type default_verdict = Some (PStr (py "TOOL")) /\
    verdict_reason default_verdict
    = Some (PStr (py "判定エラーによりデフォルト選択")).
Proof.
  intros U sent.
  assert (D : verdict_type default_verdict = Some (PStr (py "TOOL")) /\
              verdict_reason default_verdict
              = Some (PStr (py "判定エラーによりデフォルト選択")))
    by (split; reflexivity).
  assert (N : ~ verdict_type default_verdict <> Some (PStr (py "TOOL")))
    by (intros H; apply H; apply D).
  unfold determine_execution_type, try_except. unfold bindM at 1.
  rewrite call_llm_run.
  fold (classify_request config user_query recent_context tools_info).
  fold sent.
  assert (Handler : forall e0,
            exists w',
              bindM (Logger.emit p c logger (py "実行方式判定失敗: " ++ exn_str e0)
                       (py "error:error") false false)
                (fun _ => retM default_verdict) (record_request sent w)
              = (Ret default_verdict, w') /\
              llm_calls w' = llm_calls w ++ [sent]).
  { intros e0.
    destruct (emit_then p (py "実行方式判定失敗: " ++ exn_str e0) (py "error:error")
                false (fun _ => retM default_verdict) (record_request sent w) U)
      as [w' [-> [L _]]].
    exists w'. split; [reflexivity|exact L]. }
  destruct (create be (length (llm_calls w)) sent) as [content|e0] eqn:C.
  2:{ destruct (Handler e0) as [w' [-> L]]. default_case sent w'. }
  unfold bindM at 1, liftM at 1.
  destruct (json_loads be (reply_text p content)) as [result|e1] eqn:J.
  2:{ destruct (Handler e1) as [w' [-> L]]. default_case sent w'. }
  destruct result as [| | | | | |d];
    try (unfold bindM at 1, liftM at 1, py_get at 1;
         match goal with
         | |- context [mk_exn AttributeError ?m] =>
             destruct (Handler (mk_exn AttributeError m)) as [w' [-> L]]
         end; default_case sent w').
  assert (Parsed : forall content0 : option pystr,
            Ret (A := option pystr) content = Ret content0 ->
            ~ forall d0, json_loads be (reply_text p content0) <> Ret (PDict d0)).
  { intros content0 E H. inversion E; subst. exact (H d J). }
  assert (Closing : forall verdict,
            (forall content0 : option pystr,
               Ret (A := option pystr) content = Ret content0 ->
               (forall d0, json_loads be (reply_text p content0) <> Ret (PDict d0)) ->
               verdict = default_verdict) /\
            verdict_type default_verdict = Some (PStr (py "TOOL")) /\
            verdict_reason default_verdict
            = Some (PStr (py "判定エラーによりデフォルト選択"))).
  { intros verdict. split; [|exact D].
    intros content0 E H. now destruct (Parsed content0 E). }
  assert (Logged : forall verdict : list (pystr * pyval),
            exists w',
              bindM (liftM (py_get (PDict verdict) (py "type") (PStr (py "UNKNOWN"))))
                (fun shown_type =>
                   shown_reason <~ liftM (py_get (PDict verdict) (py "reason")
                                            (PStr [])) ;;
                   _ <~ Logger.emit p c logger
                          (verdict_line p shown_type shown_reason)
                          (py "info:classification") false true ;;
                   retM (PDict verdict)) (record_request sent w)
              = (Ret (PDict verdict), w') /\
              llm_calls w' = llm_calls w ++ [sent]).
  { intros verdict. unfold bindM at 1, liftM at 1, py_get at 1.
    unfold bindM at 1, liftM at 1, py_get at 1.
    match goal with
    | |- context [bindM (Logger.emit p c logger ?m ?l false true) ?k ?w0] =>
        destruct (emit_then p m l true k w0 U) as [w' [-> [L _]]]
    end.
    exists w'. split; [reflexivity|exact L]. }
  unfold bindM at 1, liftM at 1, py_get at 1.
  destruct (PyDict.get d (py "type")) as [ty|] eqn:T.
  2:{ cbn [py_eq_str orb negb]. unfold bindM at 1, liftM at 1, py_setitem.
      destruct (Logged (PyDict.set d (py "type") (PStr (py "TOOL"))))
        as [w' [-> L]].
      eexists; exists w'. split; [reflexivity|]. split; [exact L|].
      assert (Forced : verdict_type
                         (PDict (PyDict.set d (py "type") (PStr (py "TOOL"))))
                       = Some (PStr (py "TOOL"))) by apply get_set_same.
      split; [tauto|]. split; [tauto|]. split; [intros; congruence|].
      apply Closing. }
  destruct (py_eq_str ty (py "NO_TOOL")) eqn:E1.
  { cbn [orb negb]. unfold bindM at 1, retM at 1.
    destruct (Logged d) as [w' [-> L]].
    apply py_eq_str_eq in E1. subst ty.
    exists (PDict d), w'. split; [reflexivity|]. split; [exact L|].
    split; [now left|]. split; [intros _; exists content, d; auto|].
    split; [intros; congruence|]. apply Closing. }
  destruct (py_eq_str ty (py "CLARIFICATION")) eqn:E2.
  { cbn [orb negb]. unfold bindM at 1, retM at 1.
    destruct (Logged d) as [w' [-> L]].
    apply py_eq_str_eq in E2. subst ty.
    exists (PDict d), w'. split; [reflexivity|]. split; [exact L|].
    split; [right; now left|]. split; [intros _; exists content, d; auto|].
    split; [intros; congruence|]. apply Closing. }
  cbn [orb negb]. unfold bindM at 1, liftM at 1, py_setitem.
  destruct (Logged (PyDict.set d (py "type") (PStr (py "TOOL"))))
    as [w' [-> L]].
  assert (Forced : verdict_type
                     (PDict (PyDict.set d (py "type") (PStr (py "TOOL"))))
                   = Some (PStr (py "TOOL"))) by apply get_set_same.
  eexists; exists w'. split; [reflexivity|]. split; [exact L|].
  split; [tauto|]. split; [tauto|]. split; [intros; congruence|].
  apply Closing.
Qed.

Lemma silent_unfailing (c : Console) : Logger.unfailing c Samples.silent.
Proof. left. reflexivity. Qed.

Lemma classification_defaults_to_tool_witness :
  fst (determine_execution_type Samples.posix Samples.terminal
         Samples.unreachable Config_default Samples.silent
         (py "What is 2+2?") [] [] World_empty)
  = Ret default_verdict.
Proof.
  destruct (@classification_defaults_to_tool Samples.posix Samples.terminal
              Samples.unreachable Config_default Samples.silent
              (py "What is 2+2?") [] [] World_empty
              (silent_unfailing Samples.terminal))
    as [verdict [w' [Run [_ [_ [_ [Failed _]]]]]]].
  rewrite Run. simpl. f_equal.
  apply (Failed (mk_exn OtherError (py "Connection error."))).
  reflexivity.
Defined.

End Classification.

(** ** One turn ([MCPAgent.process_request]) *)
Section Turn.
Import Utils ConfigManager LLMInterface MCPAgent.

(** C7, as stated, fails on its fallback: the verdict is CLARIFICATION
    with a response and without a question, and the turn answers with
    that response, not with the generic sentence. *)
Lemma clarification_falls_back_to_response :
  let env := Samples.env Samples.posix Samples.failing_server
               (Samples.scripted Samples.clarification_text
                  Samples.empty_plan_text) in
  let self := Samples.agent Config_default Samples.failing_server in
  LLMInterface.json_loads (backend env) Samples.clarification_text
  = Ret Samples.clarification_value /\
  verdict_type Samples.clarification_value = Some (PStr (py "CLARIFICATION")) /\
  question_text Samples.clarification_value = None /\
  fst (fst (process_request env (py "weather?") self World_empty))
  = Ret (PStr (py "Which city?")) /\
  PStr (py "Which city?") <> PStr need_more_information.
Proof. repeat split. discriminate. Qed.

(** C7 (amended): when the verdict of the turn is NO_TOOL, or is
    CLARIFICATION with a [clarification] field that is absent or a dict,
    no call is sent to a tool server; for NO_TOOL the response is the
    verdict's [response], the empty string when there is none; for
    CLARIFICATION it is the question of the [clarification] field, else
    the verdict's [response], else the generic sentence
    [追加情報が必要です]; the response is appended to the history. *)
Theorem short_circuit_sends_no_tool_call
    (env : Env) (user_query : pystr) (self : Agent) (w w1 : World)
    (context tools_info : pystr) (verdict : pyval) :
  let asked := append_turn self (py "user") (PStr user_query) in
  _get_recent_context (platform env) asked 10 = Ret context ->
  ConnectionManager.format_tools_for_llm (platform env) (connection_manager self)
  = Ret tools_info ->
  determine_execution_type (platform env) (console env) (backend env)
    (config self) (logger (platform env) self)
    user_query context tools_info w = (Ret verdict, w1) ->
  (verdict_type verdict = Some (PStr (py "NO_TOOL")) ->
   let response := match verdict_field verdict (py "response") with
                   | Some r => r
                   | None => PStr []
                   end in
   process_request env user_query self w
   = (Ret response, append_turn asked (py "assistant") response, w1) /\
   tool_calls w1 = tool_calls w) /\
  (verdict_type verdict = Some (PStr (py "CLARIFICATION")) ->
   clarification_well_formed verdict ->
   let question :=
     match question_text verdict with
     | Some q => q
     | None => match verdict_field verdict (py "response") with
               | Some r => r
               | None => PStr need_more_information
               end
     end in
   process_request env user_query self w
   = (Ret question, append_turn asked (py "assistant") question, w1) /\
   tool_calls w1 = tool_calls w).
Proof.
  intros asked C F D.
  assert (K : tool_calls w1 = tool_calls w)
    by (eapply kept_tool_calls; [apply classify_keeps_tool_calls|exact D]).
  split.
  - intros T response. split; [|exact K].
    unfold process_request, respond, bindM, liftM. fold asked.
    rewrite C. simpl connection_manager. rewrite F. simpl config.
    change (logger (platform env) asked) with (logger (platform env) self).
    rewrite D.
    destruct verdict as [| | | | | |d]; try discriminate. simpl in T.
    simpl py_get. rewrite T.
    replace (py_eq_str (PStr (py "NO_TOOL")) (py "NO_TOOL")) with true
      by reflexivity.
    reflexivity.
  - intros T W question. split; [|exact K].
    unfold process_request, respond, bindM, liftM. fold asked.
    rewrite C. simpl connection_manager. rewrite F. simpl config.
    change (logger (platform env) asked) with (logger (platform env) self).
    rewrite D.
    destruct verdict as [| | | | | |d]; try discriminate. simpl in T.
    simpl py_get. rewrite T.
    replace (py_eq_str (PStr (py "CLARIFICATION")) (py "NO_TOOL")) with false
      by reflexivity.
    replace (py_eq_str (PStr (py "CLARIFICATION")) (py "CLARIFICATION")) with true
      by reflexivity.
    subst question. unfold question_text, clarification_well_formed in *.
    simpl verdict_field in *. unfold py_get at 1 2.
    destruct (PyDict.get d (py "clarification")) as [clarification|].
    + destruct clarification as [| | | | | |c]; try contradiction.
      simpl. destruct (PyDict.get c (py "question")); reflexivity.
    + simpl. reflexivity.
Qed.

Lemma short_circuit_sends_no_tool_call_witness :
  let env := Samples.env Samples.posix Samples.failing_server
               (Samples.scripted Samples.no_tool_text Samples.empty_plan_text) in
  let self := Samples.agent Config_default Samples.failing_server in
  fst (fst (process_request env (py "What is 2+2?") self World_empty))
  = Ret (PStr (py "4")) /\
  tool_calls (snd (process_request env (py "What is 2+2?") self World_empty)) = [].
Proof.
  intros env self.
  destruct (@short_circuit_sends_no_tool_call env (py "What is 2+2?") self
              World_empty
              (snd (process_request env (py "What is 2+2?") self World_empty))
              _ _ Samples.no_tool_value eq_refl eq_refl eq_refl)
    as [NoTool _].
  destruct (NoTool eq_refl) as [Run Calls].
  rewrite Run. split; [reflexivity|exact Calls].
Defined.

(** C8: when the verdict of the turn is TOOL and planning returns the
    empty list, the response is the fixed sentence
    [タスクを生成できませんでした。別の方法でお手伝いしましょうか？], it is
    appended to the history, and no call is sent to a tool server. *)
Theorem empty_plan_fixed_response
    (env : Env) (user_query : pystr) (self : Agent) (w w1 w2 : World)
    (context tools_info : pystr) (verdict : pyval) :
  let asked := append_turn self (py "user") (PStr user_query) in
  _get_recent_context (platform env) asked 10 = Ret context ->
  ConnectionManager.format_tools_for_llm (platform env) (connection_manager self)
  = Ret tools_info ->
  determine_execution_type (platform env) (console env) (backend env)
    (config self) (logger (platform env) self)
    user_query context tools_info w = (Ret verdict, w1) ->
  verdict_type verdict = Some (PStr (py "TOOL")) ->
  generate_task_list (platform env) (console env) (backend env)
    (config self) (logger (platform env) self)
    user_query context tools_info [] w1 = (Ret [], w2) ->
  process_request env user_query self w
  = (Ret (PStr no_task_list),
     append_turn asked (py "assistant") (PStr no_task_list), w2) /\
  tool_calls w2 = tool_calls w.
Proof.
  intros asked C F D T G. split.
  - unfold process_request, respond, bindM, liftM. fold asked.
    rewrite C. simpl connection_manager. rewrite F. simpl config.
    change (logger (platform env) asked) with (logger (platform env) self).
    rewrite D.
    destruct verdict as [| | | | | |d]; try discriminate. simpl in T.
    simpl py_get. rewrite T.
    replace (py_eq_str (PStr (py "TOOL")) (py "NO_TOOL")) with false
      by reflexivity.
    replace (py_eq_str (PStr (py "TOOL")) (py "CLARIFICATION")) with false
      by reflexivity.
    cbv beta iota. change (config asked) with (config self).
    change (logger (platform env) asked) with (logger (platform env) self).
    rewrite G. reflexivity.
  - transitivity (tool_calls w1).
    + eapply kept_tool_calls; [apply plan_keeps_tool_calls|exact G].
    + eapply kept_tool_calls; [apply classify_keeps_tool_calls|exact D].
Qed.

Lemma empty_plan_fixed_response_witness :
  let env := Samples.env Samples.posix Samples.failing_server
               (Samples.scripted Samples.tool_text Samples.empty_plan_text) in
  let self := Samples.agent Config_default Samples.failing_server in
  fst (fst (process_request env (py "add 2 and 2") self World_empty))
  = Ret (PStr no_task_list) /\
  tool_calls (snd (process_request env (py "add 2 and 2") self World_empty)) = [].
Proof.
  intros env self.
  destruct (@empty_plan_fixed_response env (py "add 2 and 2") self
              World_empty _
              (snd (process_request env (py "add 2 and 2") self World_empty))
              _ _ Samples.tool_value eq_refl eq_refl eq_refl eq_refl eq_refl)
    as [Run Calls].
  rewrite Run. split; [reflexivity|exact Calls].
Defined.

(** C2 at a failing input: the classifier answers TOOL and the planner
    replies with the JSON list [[1]]; [generate_task_list] returns it,
    [_execute_tasks] calls [get] on the number outside its [try], and
    [process_request] raises [AttributeError]. *)
Theorem process_request_raises_on_number_plan :
  let env := Samples.env Samples.posix Samples.failing_server
               (Samples.scripted Samples.tool_text Samples.number_plan_text) in
  let self := Samples.agent Config_default Samples.failing_server in
  LLMInterface.json_loads (backend env) Samples.number_plan_text
  = Ret (PList [PInt 1]) /\
  (exists w w',
     generate_task_list (platform env) (console env) (backend env)
       (config self) (logger (platform env) self)
       (py "add 2 and 2") (py "User: add 2 and 2")
       (py "add (サーバー: calc):
  説明: adds
  パラメータ:
  パラメータなし") [] w
     = (Ret [PInt 1], w')) /\
  exists e world,
    process_request env (py "add 2 and 2") self World_empty
    = (Raise e, append_turn self (py "user") (PStr (py "add 2 and 2")), world) /\
    exn_type e = AttributeError.
Proof.
  intros env self. split; [reflexivity|]. split.
  - exists World_empty. eexists. vm_compute. reflexivity.
  - eexists. eexists. split; vm_compute; reflexivity.
Qed.

End Turn.

(** ** The conversation store ([MCPAgent.conversation_history]) *)
Section History.
Import Utils ConfigManager LLMInterface MCPAgent.

Lemma process_request_history (env : Env) (user_query : pystr) (self self' : Agent)
    (w w' : World) (o : outcome pyval) :
  process_request env user_query self w = (o, self', w') ->
  config self' = config self /\
  connection_manager self' = connection_manager self /\
  conversation_history self'
  = conversation_history self
      ++ {| role := py "user"; content := PStr user_query |}
      :: match o with
         | Ret response => [{| role := py "assistant"; content := response |}]
         | Raise _ => []
         end.
Proof.
  unfold process_request.
  destruct (respond env _ user_query w) as [[response|e] w0]; intros H;
    inversion H; subst; clear H; simpl; repeat split.
  now rewrite <- app_assoc.
Qed.

(** C3, as stated, fails: with the default [max_history = 50], after 26
    turns answered directly the history holds 52 entries. *)
Lemma history_exceeds_max_history :
  let env := Samples.env Samples.posix Samples.failing_server
               (Samples.scripted Samples.no_tool_text Samples.empty_plan_text) in
  let self := Samples.agent Config_default Samples.failing_server in
  max_history (conversation (config self)) = PInt 50 /\
  (let '(o, self', _) := converse env (repeat (py "What is 2+2?") 26) self
                           World_empty in
   (o, length (conversation_history self')))
  = (Ret (repeat (PStr (py "4")) 26), 52%nat).
Proof. split; vm_compute; reflexivity. Qed.

(** C3 (amended): the history is append-only and is never cut, whatever
    [max_history] is: a run of turns keeps the configuration and
    leaves the earlier history as a prefix of the new one; when every
    turn returned a response, what was added is the transcript of the
    turns, the user's entry followed by the assistant's for each, so the
    history has grown by exactly two entries per turn. *)
Theorem history_grows_by_two_per_turn
    (env : Env) (queries : list pystr) :
  forall (self self' : Agent) (w w' : World) (o : outcome (list pyval)),
    converse env queries self w = (o, self', w') ->
    config self' = config self /\
    (exists added,
       conversation_history self' = conversation_history self ++ added) /\
    (forall responses, o = Ret responses ->
       conversation_history self'
       = conversation_history self ++ transcript queries responses /\
       length responses = length queries /\
       length (conversation_history self')
       = (length (conversation_history self) + 2 * length queries)%nat).
Proof.
  induction queries as [|q rest IH]; simpl; intros self self' w w' o H.
  - inversion H; subst; clear H. split; [reflexivity|]. split.
    + exists []. now rewrite app_nil_r.
    + intros responses R. inversion R; subst. simpl.
      rewrite app_nil_r. repeat split. lia.
  - destruct (process_request env q self w) as [[[response|e] self1] w1] eqn:P;
      apply process_request_history in P; destruct P as [Pc [_ Ph]].
    + destruct (converse env rest self1 w1) as [[[responses|e] self2] w2] eqn:Cv;
        inversion H; subst; clear H;
        destruct (IH _ _ _ _ _ Cv) as [Ic [[added Ia] Ir]].
      * split; [congruence|]. split.
        { eexists. rewrite Ia, Ph, <- app_assoc. reflexivity. }
        intros rs R. inversion R; subst; clear R.
        destruct (Ir responses eq_refl) as [It [Il In]].
        simpl. repeat split.
        { rewrite It, Ph, <- app_assoc. reflexivity. }
        { now rewrite Il. }
        { rewrite In, Ph, length_app. simpl. lia. }
      * split; [congruence|]. split.
        { eexists. rewrite Ia, Ph, <- app_assoc. reflexivity. }
        intros rs R. discriminate.
    + inversion H; subst; clear H. split; [exact Pc|]. split.
      * eexists. exact Ph.
      * intros rs R. discriminate.
Qed.

Lemma history_grows_by_two_per_turn_witness :
  let env := Samples.env Samples.posix Samples.failing_server
               (Samples.scripted Samples.no_tool_text Samples.empty_plan_text) in
  let self := Samples.agent Config_default Samples.failing_server in
  length (conversation_history
            (snd (fst (converse env [py "What is 2+2?"; py "And 3+3?"] self
                         World_empty))))
  = 4%nat.
Proof.
  intros env self.
  destruct (@history_grows_by_two_per_turn env [py "What is 2+2?"; py "And 3+3?"]
              self _ World_empty _ _ eq_refl) as [_ [_ Grown]].
  destruct (Grown _ eq_refl) as [_ [_ Len]].
  exact Len.
Defined.

End History.

(** ** Task execution ([MCPAgent._execute_tasks]) *)
Section Execution.
Import Utils ConfigManager LLMInterface MCPAgent.

Lemma mem_get {V} (d : PyDict.t V) (k : pystr) :
  PyDict.mem d k = true -> exists v, PyDict.get d k = Some v.
Proof. unfold PyDict.mem. destruct (PyDict.get d k) as [v|]; [now exists v|discriminate]. Qed.

(** What [resolvable] says of a task, field by field. *)
Lemma resolvable_fields (self : Agent) (task : pyval) :
  resolvable self task ->
  exists d tool params info client,
    task = PDict d /\
    py_get task (py "tool") (PStr []) = Ret (PStr tool) /\
    py_get task (py "params") (PDict []) = Ret params /\
    PyDict.get (ConnectionManager.tools_info (connection_manager self)) tool
    = Some info /\
    PyDict.get (ConnectionManager.clients (connection_manager self))
      (ConnectionManager.server info) = Some client /\
    attempts self task
    = [{| inv_server := ConnectionManager.server info; inv_tool := tool;
          inv_arguments := params |}].
Proof.
  unfold resolvable, attempts. intros R.
  destruct task as [| | | | | |d]; try discriminate.
  destruct (py_get (PDict d) (py "tool") (PStr [])) as [[| | | |tool| |]|] eqn:T;
    try discriminate.
  destruct (py_get (PDict d) (py "params") (PDict [])) as [params|] eqn:Pa;
    try discriminate.
  destruct (PyDict.get _ tool) as [info|] eqn:I; try discriminate.
  destruct (PyDict.mem _ (ConnectionManager.server info)) eqn:Me; try discriminate.
  destruct (mem_get _ _ Me) as [client Cl].
  exists d, tool, params, info, client. repeat split; auto.
Qed.

(** A call that fails reaches the handler with the list as it was. *)
Lemma attempt_failing (env : Env) (self : Agent) (tool : pystr)
    (params description : pyval) (results : list pyval) (w : World)
    (info : ConnectionManager.ToolInfo) (client : ConnectionManager.Client) :
  always_fails (transport env) ->
  PyDict.get (ConnectionManager.tools_info (connection_manager self)) tool
  = Some info ->
  PyDict.get (ConnectionManager.clients (connection_manager self))
    (ConnectionManager.server info) = Some client ->
  exists e,
    attempt env self (PStr tool) params description results w
    = (Ret (results, Some e),
       ConnectionManager.record_call
         {| inv_server := ConnectionManager.server info; inv_tool := tool;
            inv_arguments := params |} w).
Proof.
  intros fails I Cl.
  unfold attempt, try_except, bindM, ConnectionManager.call_tool.
  rewrite I, Cl.
  destruct (fails (length (tool_calls w)) (ConnectionManager.server info)
              tool params) as [e ->].
  eexists. reflexivity.
Qed.

(** One failed attempt per task, with the results accumulated. *)
Lemma execute_loop_failing (env : Env) (self : Agent) (total : nat)
    (task_list : list pyval) :
  Logger.unfailing (console env) (logger (platform env) self) ->
  always_fails (transport env) ->
  Forall (resolvable self) task_list ->
  forall (i : nat) (results : list pyval) (w : World),
  exists added w',
    execute_loop env self total i task_list results w
    = (Ret (results ++ added), w') /\
    tool_calls w' = tool_calls w ++ flat_map (attempts self) task_list /\
    Forall2 failure_of task_list added.
Proof.
  intros U fails. induction 1 as [|task rest R _ IH]; intros i results w.
  - exists [], w. rewrite !app_nil_r. repeat split. constructor.
  - destruct (resolvable_fields R)
      as [d [tool [params [info [client [-> [T [Pa [I [Cl At]]]]]]]]]].
    cbn [execute_loop].
    unfold bindM at 1, liftM at 1. rewrite T.
    unfold bindM at 1, liftM at 1. rewrite Pa.
    unfold bindM at 1, liftM at 1.
    destruct (py_get (PDict d) (py "description") (PStr tool)) as [description|]
      eqn:De; [|discriminate].
    log_step U. log_step U.
    destruct (@attempt_failing env self tool params description results w1
                info client fails I Cl) as [e A].
    unfold bindM at 1. rewrite A. cbv zeta.
    log_step U.
    match goal with
    | |- context [execute_loop env self total (S i) rest (results ++ [?entry]) ?w3] =>
        destruct (IH (S i) (results ++ [entry]) w3) as [added [w' [Run [Calls Fs]]]];
        exists (entry :: added), w'
    end.
    rewrite Run, Calls. cbn [flat_map]. rewrite At, Tool1.
    cbn [tool_calls ConnectionManager.record_call].
    rewrite Tool0, Tool, <- !app_assoc.
    repeat split.
    constructor; [|exact Fs].
    eexists. eexists. eexists. split; [exact T|reflexivity].
Qed.

(** C1, as stated, fails: with [max_retries = 3], progressive
    temperature from 0.1 in steps of 0.2 and [fallback_enabled], the task
    whose tool always fails is sent to the server once, not three times,
    and no request goes to the backend while tasks run; over the whole
    turn the backend sees the temperatures 0.1, 0.1 and 0.3 of
    classification, planning and interpretation. *)
Lemma failing_task_is_not_retried :
  let env := Samples.env Samples.posix Samples.failing_server
               (Samples.scripted Samples.tool_text Samples.two_adds_text) in
  let self := Samples.agent Samples.retrying Samples.failing_server in
  rs_max_retries (retry_strategy (execution (config self))) = PInt 3 /\
  fallback_enabled (execution (config self)) = PBool true /\
  (let w := snd (_execute_tasks env self [Samples.add_task] World_empty) in
   (length (tool_calls w), map req_temperature (llm_calls w)))
  = (1%nat, []) /\
  map req_temperature
    (llm_calls (snd (process_request env (py "add twice") self World_empty)))
  = [1 # 10; 1 # 10; 3 # 10]%Q.
Proof. repeat split. Qed.

(** C1 (amended): whatever the configuration says about retries and
    fallback, when every call to a tool server fails and logging cannot
    fail, [_execute_tasks] on tasks that name registered tools of
    connected servers sends exactly one call per task, in the order of
    the list, sends no request to the backend (there is no re-planning
    at any temperature), records every task as a failure and goes on to
    the next task until the list ends. *)
Theorem failing_tasks_attempted_once
    (env : Env) (self : Agent) (task_list : list pyval) (w : World) :
  Logger.unfailing (console env) (logger (platform env) self) ->
  always_fails (transport env) ->
  Forall (resolvable self) task_list ->
  exists results w',
    _execute_tasks env self task_list w = (Ret results, w') /\
    llm_calls w' = llm_calls w /\
    tool_calls w' = tool_calls w ++ flat_map (attempts self) task_list /\
    length (flat_map (attempts self) task_list) = length task_list /\
    Forall2 failure_of task_list results.
Proof.
  intros U fails R.
  destruct (@execute_loop_failing env self (length task_list) task_list
              U fails R 0%nat [] w)
    as [results [w' [Run [Calls Fs]]]].
  exists results, w'. unfold _execute_tasks. simpl in Run.
  split; [exact Run|]. split.
  - eapply kept_llm_calls; [apply execute_loop_keeps_llm_calls|exact Run].
  - split; [exact Calls|]. split; [|exact Fs].
    clear - R. induction R as [|task rest Rt _ IH]; simpl; [reflexivity|].
    rewrite length_app, IH. unfold resolvable in Rt. now rewrite Rt.
Qed.

Lemma failing_server_always_fails : always_fails Samples.failing_server.
Proof. intros n s t a. eexists. reflexivity. Qed.

Lemma replacing_unfailing (logger : Logger.Logger) :
  Logger.unfailing Samples.replacing logger.
Proof. right. intros n line. reflexivity. Qed.

Lemma failing_tasks_attempted_once_witness :
  let env := Samples.env_on Samples.replacing Samples.posix
               Samples.failing_server
               (Samples.scripted Samples.tool_text Samples.two_adds_text) in
  let self := Samples.agent Samples.retrying Samples.failing_server in
  exists results w',
    _execute_tasks env self [Samples.add_task; Samples.add_task] World_empty
    = (Ret results, w') /\
    length (tool_calls w') = 2%nat /\
    llm_calls w' = [].
Proof.
  intros env self.
  assert (R : Forall (resolvable self) [Samples.add_task; Samples.add_task])
    by (repeat constructor).
  destruct (@failing_tasks_attempted_once env self
              [Samples.add_task; Samples.add_task] World_empty
              (replacing_unfailing _) failing_server_always_fails R)
    as [results [w' [Run [Llm [Calls _]]]]].
  exists results, w'. split; [exact Run|]. split; [|exact Llm].
  rewrite Calls. reflexivity.
Defined.

End Execution.

(** ** Configuration loading ([ConfigManager.load]) *)
Section Loading.
Import ConfigManager.

Lemma bind_raise {A B} (m : outcome A) (k : A -> outcome B) (e : exn) :
  bind m k = Raise e ->
  m = Raise e \/ exists a, m = Ret a /\ k a = Raise e.
Proof.
  destruct m as [a|e0]; simpl; intros H.
  - right. now exists a.
  - left. now inversion H.
Qed.

(** C10: when [config_path] names nothing that exists, [load] returns
    the built-in default configuration; and whenever [load] raises, the
    path exists, the exception is a [ValueError], and it wraps a failure
    of opening the file, of parsing it as YAML, or of reading the
    configuration out of the parsed document. *)
Theorem load_raises_only_on_existing_file (fs : FileSystem) (config_path : pystr) :
  (path_exists fs config_path = false ->
   load fs config_path = Ret Config_default) /\
  (forall e, load fs config_path = Raise e ->
     path_exists fs config_path = true /\
     exn_type e = ValueError /\
     exists cause,
       exn_str e = py "設定ファイル読み込みエラー: " ++ exn_str cause /\
       (open_read fs config_path = Raise cause \/
        exists text, open_read fs config_path = Ret text /\
          (yaml_safe_load fs text = Raise cause \/
           exists yaml_data, yaml_safe_load fs text = Ret yaml_data /\
             _create_config_from_dict
               (if py_truthy yaml_data then yaml_data else PDict [])
             = Raise cause))).
Proof.
  unfold load. split.
  - intros absent. now rewrite absent.
  - intros e H.
    destruct (path_exists fs config_path); simpl in H; [|discriminate].
    destruct (read_config fs config_path) as [c|cause] eqn:R; [discriminate|].
    inversion H; subst; clear H. simpl.
    repeat split. exists cause. split; [reflexivity|].
    unfold read_config in R.
    apply bind_raise in R. destruct R as [R|[text [O R]]]; [now left|].
    right. exists text. split; [exact O|].
    apply bind_raise in R. destruct R as [R|[yaml_data [Y R]]]; [now left|].
    right. now exists yaml_data.
Qed.

Lemma load_raises_only_on_existing_file_witness :
  load Samples.absent_files (py "config.yaml") = Ret Config_default.
Proof.
  apply (proj1 (load_raises_only_on_existing_file Samples.absent_files
                  (py "config.yaml"))).
  reflexivity.
Defined.

End Loading.

(** ** Connecting and discovering ([ConnectionManager]) *)
Section Discovering.
Import Utils ConnectionManager Discovery.

Lemma mem_set_iff {V} (d : PyDict.t V) (k s : pystr) (v : V) :
  PyDict.mem (PyDict.set d k v) s = true <-> PyDict.mem d s = true \/ k = s.
Proof.
  unfold PyDict.mem. induction d as [|[k0 v0] d IH]; simpl.
  - destruct (pystr_eqb k s) eqn:E.
    + split; [right; now apply pystr_eqb_eq|reflexivity].
    + split; [discriminate|]. intros [H|H]; [discriminate|].
      subst. now rewrite pystr_eqb_refl in E.
  - destruct (pystr_eqb k0 k) eqn:E0; simpl.
    + destruct (pystr_eqb k0 s) eqn:Es; [tauto|].
      split; [tauto|]. intros [H|H]; [exact H|].
      apply pystr_eqb_eq in E0. subst. now rewrite pystr_eqb_refl in Es.
    + destruct (pystr_eqb k0 s); [tauto|exact IH].
Qed.

Lemma get_set_other {V} (d : PyDict.t V) (k t : pystr) (v : V) :
  pystr_eqb k t = false -> PyDict.get (PyDict.set d k v) t = PyDict.get d t.
Proof.
  intros N. induction d as [|[k0 v0] d IH]; simpl.
  - now rewrite N.
  - destruct (pystr_eqb k0 k) eqn:E0; simpl.
    + apply pystr_eqb_eq in E0. subst. now rewrite N.
    + destruct (pystr_eqb k0 t); [reflexivity|exact IH].
Qed.

Lemma get_set_origin {V} (d : PyDict.t V) (k t : pystr) (v x : V) :
  PyDict.get (PyDict.set d k v) t = Some x ->
  (k = t /\ x = v) \/ PyDict.get d t = Some x.
Proof.
  destruct (pystr_eqb k t) eqn:E.
  - apply pystr_eqb_eq in E. subst. rewrite get_set_same.
    intros H. left. split; [reflexivity|]. now inversion H.
  - rewrite get_set_other by exact E. tauto.
Qed.

Lemma get_In_keys {V} (d : PyDict.t V) (k : pystr) (v : V) :
  PyDict.get d k = Some v -> In k (PyDict.keys d).
Proof.
  induction d as [|[k0 v0] d IH]; simpl; [discriminate|].
  destruct (pystr_eqb k0 k) eqn:E.
  - intros _. left. now apply pystr_eqb_eq.
  - intros H. right. now apply IH.
Qed.

Lemma connect_fold_iff (tr : Transport) (todo : PyDict.t ServerInfo) :
  forall (before : PyDict.t Client) (s : pystr),
    PyDict.mem (fold_left (connected tr) todo before) s = true <->
    PyDict.mem before s = true \/
    exists info, In (s, info) todo /\ connects tr (s, info) = true.
Proof.
  induction todo as [|[server_name server_info] todo IH]; simpl; intros c s.
  - split; [tauto|]. intros [H|[info [[] _]]]. exact H.
  - rewrite IH. clear IH.
    assert (Step :
      PyDict.mem (connected tr c (server_name, server_info)) s = true <->
      PyDict.mem c s = true \/
      (server_name = s /\ connects tr (server_name, server_info) = true)).
    { unfold connected, connects. simpl.
      destruct (path server_info) as [|command args].
      - split; [tauto|]. intros [H|[_ H]]; [exact H|discriminate].
      - destruct (aenter tr server_name _).
        + rewrite mem_set_iff. tauto.
        + split; [tauto|]. intros [H|[_ H]]; [exact H|discriminate]. }
    rewrite Step. split.
    + intros [[H|[E H]]|[info [I H]]].
      * now left.
      * subst. right. exists server_info. split; [now left|exact H].
      * right. exists info. split; [now right|exact H].
    + intros [H|[info [[E|I] H]]].
      * left. now left.
      * inversion E; subst. left. right. split; [reflexivity|exact H].
      * right. exists info. split; [exact I|exact H].
Qed.

Lemma set_clients_same (self : Manager) : set_clients (clients self) self = self.
Proof. now destruct self. Qed.

Lemma set_tools_info_same (self : Manager) :
  set_tools_info (tools_info self) self = self.
Proof. now destruct self. Qed.

(** An iteration of [_connect_all_servers] whose log lines are
    written. *)
Lemma connect_server_unfailing p c tr (item : pystr * ServerInfo)
    (self : Manager) (w : World) :
  Logger.unfailing c (logger p self) ->
  exists w',
    connect_server p c tr item (self, w)
    = (Ret tt, (set_clients (connected tr (clients self) item) self, w')).
Proof.
  intros U. destruct item as [server_name server_info].
  unfold connect_server, connected, try_except. cbn [fst snd].
  unfold bindM at 1.
  destruct (log_unfailing (py "  " ++ server_name ++ py "に接続中...")
              (py "info:connection") w U) as [w1 ->].
  destruct (path server_info) as [|command args].
  - unfold liftM.
    destruct (log_unfailing (py " 失敗: " ++ py "list index out of range")
                (py "error:error") w1 U) as [w2 L].
    cbn [exn_str]. rewrite L, set_clients_same. now exists w2.
  - unfold bindM at 1, liftM at 1.
    destruct (aenter tr server_name _) as [[]|e].
    + unfold bindM at 1, update at 1. cbn [fst snd].
      match goal with
      | |- context [log p c ?m ?l (?self1, w1)] =>
          destruct (@log_unfailing p c m l self1 w1 U) as [w2 ->]
      end.
      now exists w2.
    + destruct (log_unfailing (py " 失敗: " ++ exn_str e) (py "error:error")
                  w1 U) as [w2 ->].
      rewrite set_clients_same. now exists w2.
Qed.

Lemma connect_each_unfailing p c tr (items : PyDict.t ServerInfo) :
  forall (self : Manager) (w : World),
    Logger.unfailing c (logger p self) ->
    exists w',
      for_each items (connect_server p c tr) (self, w)
      = (Ret tt,
         (set_clients (fold_left (connected tr) items (clients self)) self, w')).
Proof.
  induction items as [|item rest IH]; intros self w U; simpl.
  - rewrite set_clients_same. now exists w.
  - unfold bindM.
    destruct (@connect_server_unfailing p c tr item self w U) as [w1 ->].
    destruct (IH (set_clients (connected tr (clients self) item) self) w1 U)
      as [w2 ->].
    now exists w2.
Qed.

Lemma connect_all_unfailing p c tr (self : Manager) (w : World) :
  Logger.unfailing c (logger p self) ->
  exists w',
    _connect_all_servers p c tr (self, w)
    = (Ret tt,
       (set_clients (fold_left (connected tr) (servers self) (clients self))
          self, w')).
Proof.
  intros U. unfold _connect_all_servers. unfold bindM at 1.
  destruct (log_unfailing (nl ++ py "MCPサーバーに接続中...")
              (py "info:connection") w U) as [w1 ->].
  unfold bindM, this. cbn [fst].
  apply connect_each_unfailing. exact U.
Qed.

(** An iteration of [_collect_tools_info]: whatever becomes of its log
    lines, the registry holds what the client listed. *)
Lemma collect_from_run p c tr (item : pystr * Client) (self : Manager)
    (w : World) :
  exists o w',
    collect_from p c tr item (self, w)
    = (o, (set_tools_info (collected tr (tools_info self) item) self, w')) /\
    (Logger.unfailing c (logger p self) -> o = Ret tt).
Proof.
  destruct item as [server_name client].
  unfold collect_from, collected, try_except. cbn [fst snd].
  unfold bindM at 1, liftM at 1.
  destruct (list_tools tr server_name client) as [tools|e].
  - unfold bindM at 1, update at 1. cbn [fst snd].
    set (listed := set_tools_info
                     (fold_left (register_tool server_name) tools
                        (tools_info self)) self).
    destruct (log_leaves_manager p c
                (py "[" ++ server_name ++ py "] "
                   ++ str_of_nat (length tools) ++ py "個のツールを発見")
                (py "info:collection") listed w) as [o [w1 L]].
    rewrite L. destruct o as [[]|e].
    + exists (Ret tt), w1. split; [reflexivity|tauto].
    + destruct (log_leaves_manager p c
                  (py "[" ++ server_name ++ py "] ツール情報取得失敗: "
                     ++ exn_str e) (py "error:error") listed w1)
        as [o2 [w2 L2]].
      exists o2, w2. split; [exact L2|].
      intros U.
      destruct (@log_unfailing p c
                  (py "[" ++ server_name ++ py "] ツール情報取得失敗: "
                     ++ exn_str e) (py "error:error") listed w1 U) as [w3 L3].
      congruence.
  - rewrite set_tools_info_same.
    destruct (log_leaves_manager p c
                (py "[" ++ server_name ++ py "] ツール情報取得失敗: "
                   ++ exn_str e) (py "error:error") self w) as [o [w1 L]].
    exists o, w1. split; [exact L|].
    intros U.
    destruct (log_unfailing
                (py "[" ++ server_name ++ py "] ツール情報取得失敗: "
                   ++ exn_str e) (py "error:error") w U) as [w2 L2].
    congruence.
Qed.

(** The loop of [_collect_tools_info] has registered the tools of the
    clients it went through, [done], which are all of them when it
    returned. *)
Lemma collect_each_run p c tr (items : PyDict.t Client) :
  forall (self : Manager) (w : World),
  exists o w' done rest,
    for_each items (collect_from p c tr) (self, w)
    = (o, (set_tools_info (fold_left (collected tr) done (tools_info self))
             self, w')) /\
    items = done ++ rest /\
    (o = Ret tt -> rest = []) /\
    (Logger.unfailing c (logger p self) -> o = Ret tt).
Proof.
  induction items as [|item items IH]; intros self w; simpl.
  - exists (Ret tt), w, [], []. cbn [fold_left]. rewrite set_tools_info_same.
    repeat split.
  - unfold bindM.
    destruct (collect_from_run p c tr item self w) as [o1 [w1 [-> U1]]].
    destruct o1 as [[]|e].
    + destruct (IH (set_tools_info (collected tr (tools_info self) item) self)
                  w1) as [o [w' [done [rest [-> [Split [Whole U2]]]]]]].
      exists o, w', (item :: done), rest. split; [reflexivity|].
      split; [simpl; now rewrite Split|]. split; [exact Whole|exact U2].
    + exists (Raise e), w1, [item], items. split; [reflexivity|].
      split; [reflexivity|]. split; [discriminate|].
      intros U. specialize (U1 U). discriminate.
Qed.

Lemma collect_all_run p c tr (self : Manager) (w : World) :
  exists o w' done rest,
    _collect_tools_info p c tr (self, w)
    = (o, (set_tools_info (fold_left (collected tr) done (tools_info self))
             self, w')) /\
    clients self = done ++ rest /\
    (o = Ret tt -> rest = []) /\
    (Logger.unfailing c (logger p self) -> o = Ret tt).
Proof.
  unfold _collect_tools_info. unfold bindM at 1.
  destruct (log_leaves_manager p c (nl ++ py "ツール情報を収集中...")
              (py "info:collection") self w) as [o [w1 L]].
  rewrite L. destruct o as [[]|e].
  - unfold bindM, this. cbn [fst]. apply collect_each_run.
  - exists (Raise e), w1, [], (clients self). cbn [fold_left].
    rewrite set_tools_info_same.
    split; [reflexivity|]. split; [reflexivity|]. split; [discriminate|].
    intros U.
    destruct (log_unfailing (nl ++ py "ツール情報を収集中...")
                (py "info:collection") w U) as [w2 L2].
    congruence.
Qed.

(** [initialize] on a manager not yet initialised, when logging cannot
    fail. *)
Lemma initialize_unfailing p c tr (self : Manager) (w : World) :
  Logger.unfailing c (logger p self) ->
  _initialized self = false ->
  exists w',
    initialize p c tr (self, w)
    = (Ret tt,
       (set_initialized true
          (set_tools_info
             (fold_left (collected tr)
                (fold_left (connected tr) (servers self) (clients self))
                (tools_info self))
             (set_clients
                (fold_left (connected tr) (servers self) (clients self)) self)),
        w')).
Proof.
  intros U Fresh. unfold initialize. unfold bindM at 1, this at 1. cbn [fst].
  rewrite Fresh.
  unfold bindM at 1.
  destruct (log_unfailing rule (py "info") w U) as [w1 ->].
  unfold bindM at 1.
  destruct (log_unfailing (py " MCP Connection Manager") (py "info") w1 U)
    as [w2 ->].
  unfold bindM at 1.
  destruct (log_unfailing rule (py "info") w2 U) as [w3 ->].
  unfold bindM at 1.
  destruct (log_unfailing
              (str_of_nat (length (servers self)) ++ py "個のサーバーを検出")
              (py "info:config") w3 U) as [w4 ->].
  unfold bindM at 1.
  destruct (@connect_all_unfailing p c tr self w4 U) as [w5 ->].
  set (online := set_clients
                   (fold_left (connected tr) (servers self) (clients self)) self).
  unfold bindM at 1.
  destruct (collect_all_run p c tr online w5)
    as [o [w6 [done [rest [Run [Split [Whole Returns]]]]]]].
  rewrite Run. rewrite (Returns U) in *. specialize (Whole eq_refl). subst rest.
  rewrite app_nil_r in Split. subst done.
  unfold bindM at 1, update at 1. cbn [fst snd].
  set (ready := set_initialized true _).
  unfold bindM at 1.
  destruct (@log_unfailing p c (nl ++ py "初期化完了") (py "info:init") ready w6 U)
    as [w7 ->].
  unfold bindM at 1, this at 1. cbn [fst].
  unfold bindM at 1.
  destruct (@log_unfailing p c
              (py "  接続サーバー: " ++ str_of_nat (length (clients ready))
                 ++ py "個") (py "info") ready w7 U) as [w8 ->].
  unfold bindM at 1.
  destruct (@log_unfailing p c
              (py "  利用可能ツール: " ++ str_of_nat (length (tools_info ready))
                 ++ py "個") (py "info") ready w8 U) as [w9 ->].
  destruct (@log_unfailing p c rule (py "info") ready w9 U) as [w10 ->].
  now exists w10.
Qed.

(** X1: when logging cannot fail, [initialize] on a manager just built
    returns, and a server is then in the connected set exactly when one
    of its entries in [servers] has a command and could be entered; a
    server that fails to connect does not keep another from
    connecting. *)
Theorem connected_exactly_the_reachable
    (p : Platform) (c : Console) (tr : Transport)
    (servers : PyDict.t ServerInfo) (verbose : pyval) (w : World) (s : pystr) :
  Logger.unfailing c (logger p (new servers verbose)) ->
  fst (initialize p c tr (new servers verbose, w)) = Ret tt /\
  (PyDict.mem (clients (after (initialize p c tr) (new servers verbose) w)) s
   = true <->
   exists info, In (s, info) servers /\ connects tr (s, info) = true).
Proof.
  intros U. unfold after.
  destruct (@initialize_unfailing p c tr (new servers verbose) w U eq_refl)
    as [w' ->].
  split; [reflexivity|]. cbn [fst snd clients set_initialized set_tools_info
                                set_clients new ConnectionManager.servers].
  rewrite connect_fold_iff. simpl.
  split; [intros [H|H]; [discriminate|exact H]|tauto].
Qed.

Lemma connected_exactly_the_reachable_witness :
  PyDict.mem
    (clients
       (after (initialize Samples.posix Samples.replacing Samples.failing_server)
          (new Samples.servers (PBool true)) World_empty)) Samples.calc
  = true.
Proof.
  apply (proj2 (@connected_exactly_the_reachable Samples.posix Samples.replacing
                  Samples.failing_server Samples.servers (PBool true)
                  World_empty Samples.calc (replacing_unfailing _))).
  eexists. split; [left; reflexivity|reflexivity].
Defined.

Lemma register_fold_kept (server_name t : pystr) (tools : list Tool) :
  forall registry : PyDict.t ToolInfo,
    (exists info, PyDict.get registry t = Some info /\ server info = server_name) ->
    exists info,
      PyDict.get (fold_left (register_tool server_name) tools registry) t
      = Some info /\ server info = server_name.
Proof.
  induction tools as [|tool tools IH]; simpl; intros registry H; [exact H|].
  apply IH. unfold register_tool.
  destruct (pystr_eqb (tool_name tool) t) eqn:E.
  - apply pystr_eqb_eq in E. rewrite E, get_set_same. eexists. split; reflexivity.
  - rewrite get_set_other by exact E. exact H.
Qed.

Lemma register_fold_hit (server_name t : pystr) (tools : list Tool) :
  existsb (fun tool => pystr_eqb (tool_name tool) t) tools = true ->
  forall registry : PyDict.t ToolInfo,
    exists info,
      PyDict.get (fold_left (register_tool server_name) tools registry) t
      = Some info /\ server info = server_name.
Proof.
  induction tools as [|tool tools IH]; simpl; [discriminate|].
  intros H registry.
  destruct (pystr_eqb (tool_name tool) t) eqn:E.
  - apply register_fold_kept. unfold register_tool.
    apply pystr_eqb_eq in E. rewrite E, get_set_same. eexists. split; reflexivity.
  - simpl in H. now apply IH.
Qed.

Lemma register_fold_miss (server_name t : pystr) (tools : list Tool) :
  existsb (fun tool => pystr_eqb (tool_name tool) t) tools = false ->
  forall registry : PyDict.t ToolInfo,
    PyDict.get (fold_left (register_tool server_name) tools registry) t
    = PyDict.get registry t.
Proof.
  induction tools as [|tool tools IH]; simpl; [reflexivity|].
  intros H registry. apply orb_false_elim in H. destruct H as [E H].
  rewrite IH by exact H. unfold register_tool. now apply get_set_other.
Qed.

Lemma collect_fold_miss (tr : Transport) (t : pystr) (todo : PyDict.t Client) :
  Forall (fun item => offers tr item t = false) todo ->
  forall registry : PyDict.t ToolInfo,
    PyDict.get (fold_left (collected tr) todo registry) t
    = PyDict.get registry t.
Proof.
  induction 1 as [|[s c] todo O _ IH]; simpl; intros registry; [reflexivity|].
  rewrite IH. unfold offers in O. unfold collected. simpl in O |- *.
  destruct (list_tools tr s c) as [tools|]; [|reflexivity].
  now apply register_fold_miss.
Qed.

(** X2: last write wins.  Discovery returns when logging cannot fail;
    and when it has returned, if the client [s] lists a tool named [t]
    and no client connected after it does, [t] resolves to an entry
    owned by [s], whatever the clients before it listed. *)
Theorem later_listing_wins
    (p : Platform) (c : Console) (tr : Transport) (self : Manager) (w : World)
    (earlier later : PyDict.t Client) (s : pystr) (client : Client) (t : pystr) :
  clients self = earlier ++ (s, client) :: later ->
  offers tr (s, client) t = true ->
  Forall (fun item => offers tr item t = false) later ->
  (Logger.unfailing c (logger p self) ->
   fst (_collect_tools_info p c tr (self, w)) = Ret tt) /\
  (fst (_collect_tools_info p c tr (self, w)) = Ret tt ->
   exists info,
     get_tool_info (after (_collect_tools_info p c tr) self w) t = Some info /\
     server info = s).
Proof.
  intros Split O None. unfold after.
  destruct (collect_all_run p c tr self w)
    as [o [w' [done [rest [Run [Parts [Whole Returns]]]]]]].
  rewrite Run. cbn [fst snd]. split; [exact Returns|].
  intros R. specialize (Whole R). subst rest. rewrite app_nil_r in Parts.
  subst done. unfold get_tool_info. cbn [tools_info set_tools_info].
  rewrite Split, fold_left_app. simpl.
  rewrite collect_fold_miss by exact None.
  unfold offers in O. unfold collected. simpl in O |- *.
  destruct (list_tools tr s client) as [tools|]; [|discriminate].
  now apply register_fold_hit.
Qed.

Lemma later_listing_wins_witness :
  exists info,
    get_tool_info
      (after (_collect_tools_info Samples.posix Samples.terminal
                Scenes.two_servers) Scenes.both_connected World_empty)
      Samples.add
    = Some info /\
    server info = Scenes.shop.
Proof.
  apply (proj2 (@later_listing_wins Samples.posix Samples.terminal
                  Scenes.two_servers Scenes.both_connected World_empty
                  [(Samples.calc, Scenes.python_client)] []
                  Scenes.shop Scenes.python_client Samples.add
                  eq_refl eq_refl (Forall_nil _))).
  vm_compute. reflexivity.
Defined.

Lemma register_fold_origin (server_name t : pystr) (tools : list Tool) :
  forall (registry : PyDict.t ToolInfo) (info : ToolInfo),
    PyDict.get (fold_left (register_tool server_name) tools registry) t
    = Some info ->
    PyDict.get registry t = Some info \/
    exists tool,
      In tool tools /\ tool_name tool = t /\ info = entry_for server_name tool.
Proof.
  induction tools as [|tool tools IH]; simpl; intros registry info H; [now left|].
  apply IH in H. destruct H as [H|[tool' [I [N E]]]].
  - unfold register_tool in H. apply get_set_origin in H.
    destruct H as [[N E]|H]; [|now left].
    right. exists tool. split; [now left|]. split; [exact N|exact E].
  - right. exists tool'. split; [now right|]. split; [exact N|exact E].
Qed.

Lemma collect_fold_origin (tr : Transport) (t : pystr) (info : ToolInfo)
    (done : PyDict.t Client) :
  forall registry : PyDict.t ToolInfo,
    PyDict.get (fold_left (collected tr) done registry) t = Some info ->
    PyDict.get registry t = Some info \/
    exists client tools tool,
      In (server info, client) done /\
      list_tools tr (server info) client = Ret tools /\
      In tool tools /\ tool_name tool = t /\
      info = entry_for (server info) tool.
Proof.
  induction done as [|[s c] todo IH]; simpl; intros registry H; [now left|].
  apply IH in H. destruct H as [H|[client [tools [tool [I R]]]]].
  - unfold collected in H. simpl in H.
    destruct (list_tools tr s c) as [tools|] eqn:L; [|now left].
    apply register_fold_origin in H. destruct H as [H|[tool [I [N E]]]];
      [now left|].
    right. exists c, tools, tool. subst info. simpl.
    repeat split; auto.
  - right. exists client, tools, tool. split; [now right|exact R].
Qed.

(** X3: discovery only adds what a connected client listed, also when it
    is interrupted.  An entry resolvable after [_collect_tools_info] was
    resolvable before, or its server is a client of the manager whose
    [list_tools] returned a tool of that name, and the entry holds that
    tool's schema and description. *)
Theorem discovered_entries_were_listed
    (p : Platform) (c : Console) (tr : Transport) (self : Manager) (w : World)
    (t : pystr) (info : ToolInfo) :
  get_tool_info (after (_collect_tools_info p c tr) self w) t = Some info ->
  get_tool_info self t = Some info \/
  exists client tools tool,
    In (server info, client) (clients self) /\
    list_tools tr (server info) client = Ret tools /\
    In tool tools /\ tool_name tool = t /\
    info = entry_for (server info) tool.
Proof.
  unfold after.
  destruct (collect_all_run p c tr self w)
    as [o [w' [done [rest [Run [Parts _]]]]]].
  rewrite Run. unfold get_tool_info. cbn [fst snd tools_info set_tools_info].
  intros H. apply collect_fold_origin in H.
  destruct H as [H|[client [tools [tool [I R]]]]]; [now left|].
  right. exists client, tools, tool. split; [|exact R].
  rewrite Parts. apply in_or_app. now left.
Qed.

Lemma discovered_entries_were_listed_witness :
  exists client tools tool,
    In (Samples.calc, client) (clients Scenes.both_connected) /\
    list_tools Scenes.two_servers Samples.calc client = Ret tools /\
    In tool tools /\ tool_name tool = Samples.add /\
    {| server := Samples.calc; schema := PDict [];
       description := PStr (py "adds") |}
    = entry_for Samples.calc tool.
Proof.
  destruct (@discovered_entries_were_listed Samples.posix Samples.terminal
              Scenes.two_servers
              (set_clients [(Samples.calc, Scenes.python_client)]
                 Scenes.both_connected)
              World_empty Samples.add
              {| server := Samples.calc; schema := PDict [];
                 description := PStr (py "adds") |})
    as [H|[client [tools [tool [I R]]]]].
  - vm_compute. reflexivity.
  - discriminate.
  - exists client, tools, tool. split; [|exact R].
    simpl in I |- *. tauto.
Defined.

(** X4: the names [get_available_tools] returns are exactly the names
    [get_tool_info] resolves. *)
Theorem available_tools_are_the_resolvable (self : Manager) (t : pystr) :
  In t (get_available_tools self) <-> exists info, get_tool_info self t = Some info.
Proof.
  unfold get_available_tools, get_tool_info. split.
  - intros I. unfold PyDict.keys in I. apply in_map_iff in I.
    destruct I as [[k v] [E I]]. simpl in E. subst k.
    apply mem_get. exact (mem_of_In _ _ _ I).
  - intros [info G]. exact (get_In_keys _ _ G).
Qed.

Lemma bind_this {B} (k : Manager -> Op B) (s : Manager * World) :
  bindM this k s = k (fst s) s.
Proof. reflexivity. Qed.

(** [initialize] has set [_initialized] when it returns. *)
Lemma initialize_sets_flag p c tr (self : Manager) (w : World) :
  fst (initialize p c tr (self, w)) = Ret tt ->
  _initialized (after (initialize p c tr) self w) = true.
Proof.
  unfold after, initialize. rewrite bind_this. cbn [fst].
  destruct (_initialized self) eqn:Flag.
  - destruct (log_leaves_manager p c (py "既に初期化済みです")
                (py "info:connection") self w) as [o [w' ->]].
    intros _. exact Flag.
  - assert (Rest : forall (s : Manager * World) (k : unit -> Op unit),
              (forall s', _initialized (fst s') = true ->
                 _initialized (fst (snd (k tt s'))) = true) ->
              forall m : Op unit,
                (forall s0, fst (m s0) = Ret tt ->
                   _initialized (fst (snd (m s0))) = true) ->
                fst (bindM m k s) = Ret tt ->
                _initialized (fst (snd (bindM m k s))) = true).
    { intros s k Hk m Hm. unfold bindM.
      destruct (m s) as [[[]|e] s1] eqn:R; [|discriminate].
      intros _. apply Hk. specialize (Hm s). rewrite R in Hm. now apply Hm. }
    assert (Skip : forall (s : Manager * World) (m : Op unit)
                          (k : unit -> Op unit),
              (fst (k tt (snd (m s))) = Ret tt ->
               _initialized (fst (snd (k tt (snd (m s))))) = true) ->
              fst (bindM m k s) = Ret tt ->
              _initialized (fst (snd (bindM m k s))) = true).
    { intros s m k Hk. unfold bindM.
      destruct (m s) as [[[]|e] s1]; [exact Hk|discriminate]. }
    do 6 apply Skip.
    apply Rest; [|intros s0 _; reflexivity].
    intros s' Ready.
    pose proof (preserves_log (fun self => _initialized self = true)) as Kept.
    assert (Tail : preserves (fun s => _initialized (fst s) = true)
                     (fun s =>
                        (_ <~ log p c (nl ++ py "初期化完了") (py "info:init") ;;
                         self0 <~ this ;;
                         _ <~ log p c
                                (py "  接続サーバー: "
                                   ++ str_of_nat (length (clients self0))
                                   ++ py "個") (py "info") ;;
                         _ <~ log p c
                                (py "  利用可能ツール: "
                                   ++ str_of_nat (length (tools_info self0))
                                   ++ py "個") (py "info") ;;
                         log p c rule (py "info")) s)).
    { apply preserves_bind; [apply Kept|intros _].
      apply preserves_bind; [intros s1 H1; exact H1|intros self0].
      apply preserves_bind; [apply Kept|intros _].
      apply preserves_bind; [apply Kept|intros _].
      apply Kept. }
    exact (Tail s' Ready).
Qed.

(** X5: [initialize] runs once: when it has returned, a later call, with
    whatever transport and console, leaves the manager as it is, so it
    connects nothing and discovers nothing more. *)
Theorem initialize_twice
    (p : Platform) (c c' : Console) (tr tr' : Transport) (self : Manager)
    (w w2 : World) :
  fst (initialize p c tr (self, w)) = Ret tt ->
  let ready := after (initialize p c tr) self w in
  _initialized ready = true /\
  after (initialize p c' tr') ready w2 = ready.
Proof.
  intros R ready.
  pose proof (initialize_sets_flag p c tr self w R) as Flag.
  fold ready in Flag. split; [exact Flag|].
  unfold after, initialize. unfold bindM at 1, this at 1. cbn [fst].
  rewrite Flag.
  destruct (log_leaves_manager p c' (py "既に初期化済みです")
              (py "info:connection") ready w2) as [o [w' ->]].
  reflexivity.
Qed.

Lemma initialize_twice_witness :
  after (initialize Samples.posix Samples.terminal Samples.emoji_server)
    (Samples.manager Samples.failing_server) World_empty
  = Samples.manager Samples.failing_server.
Proof.
  apply (@initialize_twice Samples.posix Samples.terminal Samples.terminal
           Samples.failing_server Samples.emoji_server
           (new Samples.servers (PBool true)) World_empty World_empty).
  vm_compute. reflexivity.
Defined.

(** X6: [call_tool] contacts a server only for a registered tool whose
    server is connected, and then exactly once, at that server, with the
    arguments it was given; a transport failure comes back as a
    [RuntimeError] that names the tool and carries the sanitised text of
    the failure.  In every other case it raises [ValueError] or
    [TypeError] and the trace is as before. *)
Theorem call_tool_contacts_owner_once
    (p : Platform) (tr : Transport) (self : Manager)
    (tool_name arguments : pyval) (w : World) :
  let '(o, w') := call_tool p tr self tool_name arguments w in
  (exists tool info client,
     tool_name = PStr tool /\
     get_tool_info self tool = Some info /\
     PyDict.get (clients self) (server info) = Some client /\
     w' = record_call {| inv_server := server info; inv_tool := tool;
                         inv_arguments := arguments |} w /\
     match call tr (length (tool_calls w)) (server info) tool arguments with
     | Ret raw => o = Ret (sanitize_result p raw)
     | Raise e =>
         o = Raise (mk_exn RuntimeError
                      (py "ツール実行エラー (" ++ tool ++ py "): "
                         ++ safe_str p (exn_str e)))
     end) \/
  (w' = w /\
   (forall tool info,
      tool_name = PStr tool -> get_tool_info self tool = Some info ->
      PyDict.mem (clients self) (server info) = false) /\
   exists e, o = Raise e /\
     (exn_type e = ValueError \/ exn_type e = TypeError)).
Proof.
  unfold call_tool, get_tool_info.
  destruct tool_name as [| | | |tool| |];
    try (right; split; [reflexivity|]; split; [discriminate|];
         eexists; split; [reflexivity|]; simpl; tauto).
  destruct (PyDict.get (tools_info self) tool) as [info|] eqn:G.
  2:{ right. split; [reflexivity|]. split.
      - intros tool0 info0 E. inversion E; subst. congruence.
      - eexists. split; [reflexivity|]. simpl. tauto. }
  destruct (PyDict.get (clients self) (server info)) as [client|] eqn:C.
  2:{ right. split; [reflexivity|]. split.
      - intros tool0 info0 E G0. inversion E; subst.
        rewrite G in G0. inversion G0; subst.
        unfold PyDict.mem. now rewrite C.
      - eexists. split; [reflexivity|]. simpl. tauto. }
  destruct (call tr (length (tool_calls w)) (server info) tool arguments)
    as [raw|e] eqn:R; left; exists tool, info, client; rewrite R; repeat split; auto.
Qed.

Lemma format_params_total (p : Platform) (required : list pyval)
    (properties : list (pystr * pyval)) :
  Forall (fun item => exists info, snd item = PDict info) properties ->
  exists lines, format_params p (PList required) properties = Ret lines.
Proof.
  induction 1 as [|[param_name param_info] properties [info E] _ [lines IH]];
    simpl.
  - now exists [].
  - simpl in E. subst param_info. rewrite IH. simpl. eexists. reflexivity.
Qed.

Lemma format_tool_total (p : Platform) (item : pystr * ToolInfo) :
  renderable (schema (snd item)) -> exists text, format_tool p item = Ret text.
Proof.
  destruct item as [tool_name info]. simpl. intros [d [S [P R]]].
  unfold format_tool. rewrite S. simpl.
  assert (Req : exists required,
            match PyDict.get d (py "required") with
            | Some v => v
            | None => PList []
            end = PList required).
  { destruct (PyDict.get d (py "required")) as [[| | | | |l|]|];
      try contradiction; eexists; reflexivity. }
  destruct Req as [required ->].
  destruct (PyDict.get d (py "properties")) as [[| | | | | |properties]|];
    try contradiction; simpl.
  - destruct (format_params_total p required P) as [lines ->]. simpl.
    eexists. reflexivity.
  - eexists. reflexivity.
Qed.

(** X7: [format_tools_for_llm] returns a text, and so does not raise,
    when the schema of every registered tool is a dict whose
    [properties], if given, is a dict of dicts and whose [required], if
    given, is a list. *)
Theorem format_tools_total (p : Platform) (self : Manager) :
  Forall (fun item => renderable (schema (snd item))) (tools_info self) ->
  exists text, format_tools_for_llm p self = Ret text.
Proof.
  unfold format_tools_for_llm.
  induction 1 as [|item registry R _ [text IH]]; simpl.
  - eexists. reflexivity.
  - destruct (format_tool_total p item R) as [first ->]. simpl.
    destruct (format_tools p registry) as [texts|]; [|discriminate].
    simpl. eexists. reflexivity.
Qed.

Lemma format_tools_total_witness :
  exists text,
    format_tools_for_llm Samples.posix (Samples.manager Samples.failing_server)
    = Ret text.
Proof.
  apply format_tools_total. repeat constructor.
  exists []. repeat split.
Defined.

End Discovering.

(** ** Planning and interpreting ([LLMInterface]) *)
Section Gateway.
Import Utils ConfigManager LLMInterface Requests.

Ltac settle_parse :=
  intros;
  repeat match goal with
         | H : forall whole, Ret (PList ?l) <> Ret (PList whole) |- _ =>
             exfalso; exact (H l eq_refl)
         | H : forall e, Raise ?e1 = Raise e -> _ |- _ =>
             specialize (H e1 eq_refl)
         end;
  try discriminate; try congruence.

Lemma plan_run (p : Platform) (c : Console) (be : Backend) (config : Config)
    (logger : Logger.Logger) (user_query context tools_info custom : pystr)
    (w : World) :
  Logger.unfailing c logger ->
  let sent := plan_request config user_query context tools_info custom in
  exists w',
    generate_task_list p c be config logger user_query context tools_info
      custom w
    = (Ret (planned be
              match create be (length (llm_calls w)) sent with
              | Ret content => Ret (reply_text p content)
              | Raise e => Raise e
              end), w') /\
    llm_calls w' = llm_calls w ++ [sent] /\
    tool_calls w' = tool_calls w.
Proof.
  intros U sent. unfold generate_task_list, try_except. unfold bindM at 1.
  rewrite call_llm_run.
  fold (plan_request config user_query context tools_info custom). fold sent.
  assert (Handler : forall e0,
            exists w',
              bindM (Logger.emit p c logger (py "タスクリスト生成失敗: " ++ exn_str e0)
                       (py "error:task") false false)
                (fun _ => retM []) (record_request sent w)
              = (Ret (@nil pyval), w') /\
              llm_calls w' = llm_calls w ++ [sent] /\
              tool_calls w' = tool_calls w).
  { intros e0.
    destruct (emit_then p (py "タスクリスト生成失敗: " ++ exn_str e0) (py "error:task")
                false (fun _ => retM (@nil pyval)) (record_request sent w) U)
      as [w' [-> [L T]]].
    exists w'. split; [reflexivity|]. split; [exact L|exact T]. }
  destruct (create be (length (llm_calls w)) sent) as [content|e0].
  2:{ exact (Handler e0). }
  unfold planned. unfold bindM at 1, liftM at 1.
  destruct (parse_task_list be (reply_text p content)) as [[tasks|]|e1].
  - exists (record_request sent w). repeat split.
  - match goal with
    | |- context [bindM (Logger.emit p c logger ?m ?l false false) ?k ?w0] =>
        destruct (emit_then p m l false k w0 U) as [w' [-> [L T]]]
    end.
    exists w'. split; [reflexivity|]. split; [exact L|exact T].
  - exact (Handler e1).
Qed.

(** X8: when logging cannot fail, [generate_task_list] returns, having
    sent exactly one request, as [user], at temperature 0.1 and without
    a response format.  It returns the list the whole reply parses to;
    when the whole reply is not JSON or is JSON but no list, the list
    that the fenced block parses to; and the empty list when the backend
    raised, when [json.loads] failed with another error than
    [JSONDecodeError], or when the reply is no list and holds no fenced
    block. *)
Theorem plan_total_and_ordered
    (p : Platform) (c : Console) (be : Backend) (config : Config)
    (logger : Logger.Logger)
    (user_query context tools_info custom : pystr) (w : World) :
  Logger.unfailing c logger ->
  let sent := plan_request config user_query context tools_info custom in
  exists tasks w',
    generate_task_list p c be config logger user_query context tools_info
      custom w
    = (Ret tasks, w') /\
    llm_calls w' = llm_calls w ++ [sent] /\
    tool_calls w' = tool_calls w /\
    (forall e, create be (length (llm_calls w)) sent = Raise e -> tasks = []) /\
    (forall content,
       create be (length (llm_calls w)) sent = Ret content ->
       (forall whole,
          json_loads be (reply_text p content) = Ret (PList whole) ->
          tasks = whole) /\
       (forall inner fenced,
          (forall whole, json_loads be (reply_text p content) <> Ret (PList whole)) ->
          (forall e, json_loads be (reply_text p content) = Raise e ->
                     is_json_decode_error e = true) ->
          search_json_fence be (reply_text p content) = Some inner ->
          json_loads be inner = Ret (PList fenced) ->
          tasks = fenced) /\
       (forall e,
          json_loads be (reply_text p content) = Raise e ->
          is_json_decode_error e = false ->
          tasks = []) /\
       (search_json_fence be (reply_text p content) = None ->
        (forall whole, json_loads be (reply_text p content) <> Ret (PList whole)) ->
        tasks = [])).
Proof.
  intros U sent.
  destruct (plan_run p be config user_query context tools_info custom w U)
    as [w' [Run [L T]]].
  fold sent in Run, L.
  eexists; exists w'. split; [exact Run|]. split; [exact L|].
  split; [exact T|].
  destruct (create be (length (llm_calls w)) sent) as [content|e0] eqn:C.
  2:{ split; [reflexivity|]. intros content E. discriminate. }
  split; [intros; discriminate|].
  intros content0 E. inversion E; subst content0. clear E.
  unfold planned, parse_task_list.
  destruct (json_loads be (reply_text p content)) as [whole|e1] eqn:J.
  - destruct whole as [| | | | |whole|]; simpl;
      destruct (search_json_fence be (reply_text p content)) as [inner|] eqn:F;
      try (destruct (json_loads be inner) as [[| | | | |fenced|]|e2] eqn:J2);
      simpl; repeat split; settle_parse.
  - destruct (is_json_decode_error e1) eqn:D; simpl.
    + destruct (search_json_fence be (reply_text p content)) as [inner|] eqn:F;
        [destruct (json_loads be inner) as [[| | | | |fenced|]|e2] eqn:J2|];
        simpl; repeat split; settle_parse.
    + repeat split; settle_parse.
Qed.

Lemma plan_total_and_ordered_witness :
  fst (generate_task_list Samples.posix Samples.terminal
         (Samples.scripted Samples.tool_text Samples.two_adds_text)
         Config_default Samples.silent (py "add twice") [] [] [] World_empty)
  = Ret [Samples.add_task; Samples.add_task].
Proof.
  destruct (@plan_total_and_ordered Samples.posix Samples.terminal
              (Samples.scripted Samples.tool_text Samples.two_adds_text)
              Config_default Samples.silent (py "add twice") [] [] []
              World_empty (silent_unfailing Samples.terminal))
    as [tasks [w' [Run [_ [_ [_ Replied]]]]]].
  rewrite Run. cbn [fst]. f_equal.
  destruct (Replied (Some Samples.two_adds_text) eq_refl) as [Whole _].
  apply Whole. vm_compute. reflexivity.
Defined.

Lemma interpret_run (p : Platform) (c : Console) (be : Backend)
    (config : Config) (logger : Logger.Logger) (user_query : pystr)
    (results : list pyval) (context custom : pystr) (w : World) :
  Logger.unfailing c logger ->
  let sent := interpret_request config user_query results context custom in
  exists w',
    interpret_results p c be config logger user_query results context custom w
    = (Ret match create be (length (llm_calls w)) sent with
           | Ret content => reply_text p content
           | Raise e => apology ++ exn_str e
           end, w') /\
    llm_calls w' = llm_calls w ++ [sent] /\
    tool_calls w' = tool_calls w.
Proof.
  intros U sent. unfold interpret_results, try_except.
  rewrite call_llm_run.
  fold (interpret_request config user_query results context custom). fold sent.
  destruct (create be (length (llm_calls w)) sent) as [content|e0].
  - eexists. repeat split.
  - match goal with
    | |- context [bindM (Logger.emit p c logger ?m ?l false false) ?k ?w0] =>
        destruct (emit_then p m l false k w0 U) as [w' [-> [L T]]]
    end.
    exists w'. unfold apology, retM. split; [reflexivity|].
    split; [exact L|exact T].
Qed.

(** X9: when logging cannot fail, [interpret_results] returns, having
    sent exactly one request, as [user], at temperature 0.3; it returns
    the sanitised reply, and when the backend raised, the fixed apology
    followed by the text of the exception as it is. *)
Theorem interpret_total_and_verbatim
    (p : Platform) (c : Console) (be : Backend) (config : Config)
    (logger : Logger.Logger) (user_query : pystr)
    (results : list pyval) (context custom : pystr) (w : World) :
  Logger.unfailing c logger ->
  let sent := interpret_request config user_query results context custom in
  exists text w',
    interpret_results p c be config logger user_query results context custom w
    = (Ret text, w') /\
    llm_calls w' = llm_calls w ++ [sent] /\
    tool_calls w' = tool_calls w /\
    (forall content,
       create be (length (llm_calls w)) sent = Ret content ->
       text = reply_text p content) /\
    (forall e,
       create be (length (llm_calls w)) sent = Raise e ->
       text = apology ++ exn_str e).
Proof.
  intros U sent.
  destruct (interpret_run p be config user_query results context custom w U)
    as [w' [Run [L T]]].
  fold sent in Run, L.
  eexists; exists w'. split; [exact Run|]. split; [exact L|].
  split; [exact T|].
  destruct (create be (length (llm_calls w)) sent) as [content|e0];
    split; intros; congruence.
Qed.

Lemma interpret_total_and_verbatim_witness :
  fst (interpret_results Samples.posix Samples.terminal Samples.unreachable
         Config_default Samples.silent (py "add twice") [] [] [] World_empty)
  = Ret (apology ++ py "Connection error.").
Proof.
  destruct (@interpret_total_and_verbatim Samples.posix Samples.terminal
              Samples.unreachable Config_default Samples.silent
              (py "add twice") [] [] [] World_empty
              (silent_unfailing Samples.terminal))
    as [text [w' [Run [_ [_ [_ Failed]]]]]].
  rewrite Run. cbn [fst]. f_equal.
  exact (Failed (mk_exn OtherError (py "Connection error.")) eq_refl).
Defined.

(** Whatever becomes of the log lines, each operation sends its one
    request. *)
Lemma sent_once {A} (p : Platform) (be : Backend) (config : Config)
    (role : pystr) (prompt : Prompt) (temperature : Q)
    (response_format : option pystr) (k : pystr -> M A)
    (handler : exn -> M A) (w : World) :
  (forall content, keeps_llm_calls (k content)) ->
  (forall e, keeps_llm_calls (handler e)) ->
  llm_calls
    (snd (try_except
            (bindM (_call_llm p be config role prompt temperature
                      response_format) k) handler w))
  = llm_calls w ++ [request config role prompt temperature response_format].
Proof.
  intros Hk Hh. unfold try_except, bindM. rewrite call_llm_run.
  destruct (create be _ _) as [content|e0].
  - specialize (Hk (reply_text p content) (record_request
      (request config role prompt temperature response_format) w)).
    destruct (k _ _) as [[a|e] w1]; cbn [snd] in *.
    + exact Hk.
    + rewrite (Hh e w1). exact Hk.
  - rewrite (Hh e0 _). reflexivity.
Qed.

Lemma classify_sent (p : Platform) (c : Console) (be : Backend)
    (config : Config) (logger : Logger.Logger)
    (user_query recent_context tools_info : pystr) (w : World) :
  llm_calls
    (snd (determine_execution_type p c be config logger user_query
            recent_context tools_info w))
  = llm_calls w
      ++ [classify_request config user_query recent_context tools_info].
Proof. unfold determine_execution_type. apply sent_once; frame. Qed.

Lemma plan_sent (p : Platform) (c : Console) (be : Backend) (config : Config)
    (logger : Logger.Logger) (user_query context tools_info custom : pystr)
    (w : World) :
  llm_calls
    (snd (generate_task_list p c be config logger user_query context
            tools_info custom w))
  = llm_calls w ++ [plan_request config user_query context tools_info custom].
Proof. unfold generate_task_list. apply sent_once; frame. Qed.

Lemma interpret_sent (p : Platform) (c : Console) (be : Backend)
    (config : Config) (logger : Logger.Logger)
    (user_query : pystr) (results : list pyval) (context custom : pystr)
    (w : World) :
  llm_calls
    (snd (interpret_results p c be config logger user_query results context
            custom w))
  = llm_calls w
      ++ [interpret_request config user_query results context custom].
Proof.
  unfold interpret_results, try_except. rewrite call_llm_run.
  destruct (create be _ _) as [content|e0]; [reflexivity|].
  unfold bindM.
  match goal with
  | |- context [Logger.emit p c logger ?m ?l false false ?w0] =>
      pose proof (@emit_keeps_llm_calls p c logger m l false false w0) as K;
      destruct (Logger.emit p c logger m l false false w0) as [[[]|e] w1]
  end; unfold retM; cbn [snd] in *; rewrite K; reflexivity.
Qed.

End Gateway.

(** ** What a turn sends to the backend ([MCPAgent.process_request]) *)
Section Requests_of_a_turn.
Import Utils ConfigManager LLMInterface MCPAgent Requests.

(** X10: a turn sends the backend at most three requests, in this order:
    the classification, the planning and the interpretation request, at
    the temperatures 0.1, 0.1 and 0.3 written in the code and with the
    configured model; the configured [llm.temperature] is in none of
    them. *)
Theorem turn_sends_at_most_three_requests
    (env : Env) (user_query : pystr) (self : Agent) (w : World) :
  exists (n : nat) (context tools_info : pystr) (results : list pyval),
    llm_calls (snd (process_request env user_query self w))
    = llm_calls w
        ++ firstn n
             [classify_request (config self) user_query context tools_info;
              plan_request (config self) user_query context tools_info [];
              interpret_request (config self) user_query results context []].
Proof.
  unfold process_request.
  set (asked := append_turn self (py "user") (PStr user_query)).
  assert (Sent : exists n context tools_info results,
            llm_calls (snd (respond env asked user_query w))
            = llm_calls w
                ++ firstn n
                     [classify_request (config self) user_query context tools_info;
                      plan_request (config self) user_query context tools_info [];
                      interpret_request (config self) user_query results context []]).
  { unfold respond, bindM, liftM.
    destruct (_get_recent_context (platform env) asked 10) as [context|];
      [|exists 0%nat, [], [], []; simpl; now rewrite app_nil_r].
    destruct (ConnectionManager.format_tools_for_llm _ _) as [tools_info|];
      [|exists 0%nat, [], [], []; simpl; now rewrite app_nil_r].
    change (config asked) with (config self).
    change (logger (platform env) asked) with (logger (platform env) self).
    pose proof (classify_sent (platform env) (console env) (backend env)
                  (config self) (logger (platform env) self)
                  user_query context tools_info w) as S1.
    destruct (determine_execution_type _ _ _ _ _ _ _ _ w) as [[verdict|e] w1];
      cbn [snd] in S1;
      [|exists 1%nat, context, tools_info, []; exact S1].
    destruct (py_get verdict (py "type") (PStr (py "TOOL"))) as [exec_type|];
      [|exists 1%nat, context, tools_info, []; exact S1].
    destruct (py_eq_str exec_type (py "NO_TOOL")).
    { exists 1%nat, context, tools_info, [].
      destruct (py_get verdict (py "response") (PStr [])); exact S1. }
    destruct (py_eq_str exec_type (py "CLARIFICATION")).
    { exists 1%nat, context, tools_info, [].
      destruct (py_get verdict (py "clarification") (PDict [])) as [cl|];
        [|exact S1].
      destruct (py_get verdict (py "response") (PStr need_more_information))
        as [f|]; [|exact S1].
      destruct (py_get cl (py "question") f); exact S1. }
    pose proof (plan_sent (platform env) (console env) (backend env)
                  (config self) (logger (platform env) self)
                  user_query context tools_info [] w1) as S2.
    rewrite S1, <- app_assoc in S2.
    destruct (generate_task_list _ _ _ _ _ _ _ _ _ w1) as [[task_list|e] w2];
      cbn [snd] in S2;
      [|exists 2%nat, context, tools_info, []; exact S2].
    destruct task_list as [|task rest];
      [exists 2%nat, context, tools_info, []; exact S2|].
    destruct (_execute_tasks env asked (task :: rest) w2) as [[results|e] w3] eqn:X;
      unfold _execute_tasks in X;
      (eapply kept_llm_calls in X; [|apply execute_loop_keeps_llm_calls]);
      rewrite S2 in X;
      [|exists 2%nat, context, tools_info, []; exact X].
    pose proof (interpret_sent (platform env) (console env) (backend env)
                  (config self) (logger (platform env) self)
                  user_query results context [] w3) as S3.
    rewrite X, <- app_assoc in S3.
    destruct (interpret_results _ _ _ _ _ _ _ _ _ w3) as [[response|e] w4];
      cbn [snd] in S3;
      exists 3%nat, context, tools_info, results; exact S3. }
  destruct Sent as [n [context [tools_info [results Sent]]]].
  exists n, context, tools_info, results.
  destruct (respond env asked user_query w) as [[response|e] w']; exact Sent.
Qed.

End Requests_of_a_turn.

(** ** Running a task list ([MCPAgent._execute_tasks]) *)
Section Running.
Import Utils ConfigManager LLMInterface MCPAgent Shapes.

(** The [try] block always hands the loop a list; when logging cannot
    fail it is the list with the record of the success, or the list as
    it was together with the exception of the call. *)
Lemma attempt_run (env : Env) (self : Agent) (tool params description : pyval)
    (results : list pyval) (w : World) :
  exists tried w',
    attempt env self tool params description results w = (Ret tried, w') /\
    llm_calls w' = llm_calls w /\
    (Logger.unfailing (console env) (logger (platform env) self) ->
     (exists text,
        tried = (results ++ [task_result tool description text true], None)) \/
     (exists e, tried = (results, Some e))).
Proof.
  pose proof (@attempt_keeps_llm_calls env self tool params description
                results w) as K.
  unfold attempt, try_except in K |- *. unfold bindM at 1 in K.
  unfold bindM at 1.
  destruct (ConnectionManager.call_tool _ _ _ _ _ w) as [[result|e] w1].
  - cbv zeta in K |- *. unfold log, bindM in K |- *.
    destruct (Logger.emit _ _ _ _ _ _ _ w1) as [[[]|e] w2] eqn:E.
    + eexists; exists w2. split; [reflexivity|]. split; [exact K|].
      intros _. left. eexists. reflexivity.
    + eexists; exists w2. split; [reflexivity|]. split; [exact K|].
      intros U.
      destruct (emit_unfailing (platform env)
                  (completed_line (platform env) description)
                  (py "info:completed") false w1 U) as [w3 [E3 _]].
      congruence.
  - eexists; exists w1. split; [reflexivity|]. split; [exact K|].
    intros _. right. now exists e.
Qed.

Lemma execute_loop_dicts (env : Env) (self : Agent) (total : nat)
    (task_list : list pyval) :
  Logger.unfailing (console env) (logger (platform env) self) ->
  forallb is_dict task_list = true ->
  forall (i : nat) (results : list pyval) (w : World),
  exists added w',
    execute_loop env self total i task_list results w
    = (Ret (results ++ added), w') /\
    Forall2 records task_list added.
Proof.
  intros U. induction task_list as [|task rest IH]; intros D i results w.
  - exists [], w. rewrite app_nil_r. split; [reflexivity|constructor].
  - cbn [forallb] in D. apply andb_prop in D. destruct D as [Dt Dr].
    destruct task as [| | | | | |d]; try discriminate.
    cbn [execute_loop]. unfold bindM at 1 2 3, liftM at 1 2 3, py_get.
    cbv beta iota.
    log_step U. log_step U.
    match goal with
    | |- context [bindM (attempt env self ?tool ?params ?description results)
                    _ ?w1] =>
        destruct (attempt_run env self tool params description results w1)
          as [tried [w2 [A [_ Shape]]]]
    end.
    unfold bindM at 1. rewrite A.
    destruct (Shape U) as [[text ->]|[e ->]]; cbv beta iota zeta.
    + match goal with
      | |- context [execute_loop env self total (S i) rest (results ++ [?entry]) w2] =>
          destruct (IH Dr (S i) (results ++ [entry]) w2)
            as [added [w' [Run Rec]]];
          exists (entry :: added), w'
      end.
      rewrite Run, <- app_assoc. split; [reflexivity|].
      constructor; [|exact Rec].
      eexists. eexists. eexists. eexists. repeat split.
    + log_step U.
      match goal with
      | |- context [execute_loop env self total (S i) rest (results ++ [?entry]) ?w3] =>
          destruct (IH Dr (S i) (results ++ [entry]) w3)
            as [added [w' [Run Rec]]];
          exists (entry :: added), w'
      end.
      rewrite Run, <- app_assoc. split; [reflexivity|].
      constructor; [|exact Rec].
      eexists. eexists. eexists. eexists. repeat split.
Qed.

Lemma execute_loop_not_dicts (env : Env) (self : Agent) (total : nat)
    (task_list : list pyval) :
  forallb is_dict task_list = false ->
  forall (i : nat) (results : list pyval) (w : World),
  exists e w',
    execute_loop env self total i task_list results w = (Raise e, w') /\
    (Logger.unfailing (console env) (logger (platform env) self) ->
     exn_type e = AttributeError).
Proof.
  induction task_list as [|task rest IH]; intros D i results w;
    [discriminate|].
  cbn [forallb] in D. cbn [execute_loop].
  destruct (is_dict task) eqn:Dt.
  - cbn [andb] in D.
    destruct task as [| | | | | |d]; try discriminate.
    unfold bindM at 1 2 3, liftM at 1 2 3, py_get. cbv beta iota.
    unfold log at 1. unfold bindM at 1.
    match goal with
    | |- context [Logger.emit ?p ?c ?lg ?m ?l false false w] =>
        destruct (Logger.emit p c lg m l false false w) as [[[]|e] w1] eqn:E1;
        [|exists e, w1; split; [reflexivity|]; intros U;
          destruct (emit_unfailing p m l false w U) as [w0 [E0 _]]; congruence]
    end.
    unfold log at 1. unfold bindM at 1.
    match goal with
    | |- context [Logger.emit ?p ?c ?lg ?m ?l false false w1] =>
        destruct (Logger.emit p c lg m l false false w1) as [[[]|e] w2] eqn:E2;
        [|exists e, w2; split; [reflexivity|]; intros U;
          destruct (emit_unfailing p m l false w1 U) as [w0 [E0 _]]; congruence]
    end.
    match goal with
    | |- context [bindM (attempt env self ?tool ?params ?description results)
                    _ w2] =>
        destruct (attempt_run env self tool params description results w2)
          as [[results1 [e|]] [w3 [A _]]]
    end; unfold bindM at 1; rewrite A; cbv beta iota zeta.
    + unfold log at 1. unfold bindM at 1.
      match goal with
      | |- context [Logger.emit ?p ?c ?lg ?m ?l false false w3] =>
          destruct (Logger.emit p c lg m l false false w3) as [[[]|e'] w4] eqn:E3;
          [|exists e', w4; split; [reflexivity|]; intros U;
            destruct (emit_unfailing p m l false w3 U) as [w0 [E0 _]];
            congruence]
      end.
      apply (IH D).
    + apply (IH D).
  - destruct task; try discriminate; eexists; eexists;
      (split; [reflexivity|intros _; reflexivity]).
Qed.

(** X11: when logging cannot fail, [_execute_tasks] returns exactly when
    every task is a dict.  Then it returns one record per task, in the
    order of the list, each with the task's [tool] and [description],
    whether the call succeeded or not.  When some task is not a dict it
    raises, whatever the console does, and the exception is an
    [AttributeError] when logging cannot fail. *)
Theorem execute_tasks_returns_iff_dicts
    (env : Env) (self : Agent) (task_list : list pyval) (w : World) :
  (Logger.unfailing (console env) (logger (platform env) self) ->
   forallb is_dict task_list = true ->
   exists results w',
     _execute_tasks env self task_list w = (Ret results, w') /\
     length results = length task_list /\
     Forall2 records task_list results) /\
  (forallb is_dict task_list = false ->
   exists e w',
     _execute_tasks env self task_list w = (Raise e, w') /\
     (Logger.unfailing (console env) (logger (platform env) self) ->
      exn_type e = AttributeError)).
Proof.
  unfold _execute_tasks. split.
  - intros U D.
    destruct (@execute_loop_dicts env self (length task_list) task_list U D
                0%nat [] w) as [results [w' [Run Rec]]].
    exists results, w'. split; [exact Run|]. split; [|exact Rec].
    symmetry. exact (Forall2_length Rec).
  - intros D.
    exact (@execute_loop_not_dicts env self (length task_list) task_list D
             0%nat [] w).
Qed.

Lemma quiet_agent_unfailing (c : Console) (p : Platform)
    (tr : ConnectionManager.Transport) :
  Logger.unfailing c (logger p (Samples.agent Samples.quiet tr)).
Proof. left. reflexivity. Qed.

Lemma execute_tasks_returns_iff_dicts_witness :
  exists results w',
    _execute_tasks
      (Samples.env Samples.posix Samples.failing_server
         (Samples.scripted Samples.tool_text Samples.two_adds_text))
      (Samples.agent Samples.quiet Samples.failing_server)
      [Samples.add_task; PDict []] World_empty
    = (Ret results, w') /\
    length results = 2%nat.
Proof.
  destruct (proj1 (execute_tasks_returns_iff_dicts
                     (Samples.env Samples.posix Samples.failing_server
                        (Samples.scripted Samples.tool_text Samples.two_adds_text))
                     (Samples.agent Samples.quiet Samples.failing_server)
                     [Samples.add_task; PDict []] World_empty)
              (quiet_agent_unfailing _ _ _) eq_refl)
    as [results [w' [Run [Len _]]]].
  exists results, w'. split; [exact Run|exact Len].
Defined.

(** X12: when logging cannot fail, a task whose tool is not in the
    registry is recorded as a failure whose text is [エラー: ] followed
    by the sanitised message [未知のツール: ] and the name, and nothing is
    sent to a server or to the backend; a task without a [tool] key is
    looked up under the empty name. *)
Theorem unknown_tool_is_recorded
    (env : Env) (self : Agent) (d : list (pystr * pyval)) (name : pystr)
    (w : World) :
  Logger.unfailing (console env) (logger (platform env) self) ->
  py_get (PDict d) (py "tool") (PStr []) = Ret (PStr name) ->
  ConnectionManager.get_tool_info (connection_manager self) name = None ->
  exists description w',
    _execute_tasks env self [PDict d] w
    = (Ret [task_result (PStr name) description
              (py "エラー: "
                 ++ safe_str (platform env) (py "未知のツール: " ++ name))
              false], w') /\
    tool_calls w' = tool_calls w /\
    llm_calls w' = llm_calls w.
Proof.
  intros U T G. unfold ConnectionManager.get_tool_info in G.
  unfold _execute_tasks. cbn [execute_loop length].
  unfold bindM at 1, liftM at 1. rewrite T.
  unfold bindM at 1 2, liftM at 1 2, py_get. cbv beta iota.
  log_step U. log_step U.
  unfold bindM at 1, attempt, try_except.
  unfold bindM at 1, ConnectionManager.call_tool.
  rewrite G. cbv beta iota zeta. unfold retM at 1. cbv beta iota zeta.
  cbn [exn_str].
  log_step U. unfold retM.
  eexists; exists w2. split; [reflexivity|].
  split; congruence.
Qed.

Lemma unknown_tool_is_recorded_witness :
  exists description w',
    _execute_tasks
      (Samples.env Samples.posix Samples.failing_server
         (Samples.scripted Samples.tool_text Samples.two_adds_text))
      (Samples.agent Samples.quiet Samples.failing_server) [PDict []]
      World_empty
    = (Ret [task_result (PStr []) description
              (py "エラー: "
                 ++ safe_str Samples.posix (py "未知のツール: " ++ []))
              false], w') /\
    tool_calls w' = [] /\
    llm_calls w' = [].
Proof.
  apply (@unknown_tool_is_recorded
           (Samples.env Samples.posix Samples.failing_server
              (Samples.scripted Samples.tool_text Samples.two_adds_text))
           (Samples.agent Samples.quiet Samples.failing_server) [] []
           World_empty (quiet_agent_unfailing _ _ _)); reflexivity.
Defined.

Lemma replace_surrogates_app (a b : pystr) :
  replace_surrogates (a ++ b) = replace_surrogates a ++ replace_surrogates b.
Proof. unfold replace_surrogates. apply map_app. Qed.

Lemma replace_surrogates_twice (text : pystr) :
  replace_surrogates (replace_surrogates text) = replace_surrogates text.
Proof.
  unfold replace_surrogates. rewrite map_map. apply map_ext. intros c.
  destruct (is_surrogate c) eqn:E; simpl; [reflexivity|now rewrite E].
Qed.

Lemma result_text_sanitized (p : Platform) (raw : ConnectionManager.CallResult) :
  win32 p = false ->
  replace_surrogates (result_text (ConnectionManager.sanitize_result p raw))
  = replace_surrogates (result_text raw).
Proof.
  intros posix. destruct raw as [content|s]; simpl; [|reflexivity].
  induction content as [|[text|] content IH]; simpl; [reflexivity| |exact IH].
  rewrite !replace_surrogates_app, IH, (safe_str_elsewhere _ _ posix).
  now rewrite replace_surrogates_twice.
Qed.

(** X13: on a platform other than win32 and when logging cannot fail, a
    task whose tool is registered at a connected server and whose call
    returns is recorded as a success whose text is the texts of the
    reply, concatenated, with each surrogate replaced by a question
    mark: sanitising in [call_tool] and again in [_execute_tasks] is the
    same as sanitising once.  The call is the only one sent. *)
Theorem successful_task_is_recorded
    (env : Env) (self : Agent) (d : list (pystr * pyval)) (name : pystr)
    (params : pyval) (info : ConnectionManager.ToolInfo)
    (client : ConnectionManager.Client) (raw : ConnectionManager.CallResult)
    (w : World) :
  Logger.unfailing (console env) (logger (platform env) self) ->
  win32 (platform env) = false ->
  py_get (PDict d) (py "tool") (PStr []) = Ret (PStr name) ->
  py_get (PDict d) (py "params") (PDict []) = Ret params ->
  ConnectionManager.get_tool_info (connection_manager self) name = Some info ->
  PyDict.get (ConnectionManager.clients (connection_manager self))
    (ConnectionManager.server info) = Some client ->
  ConnectionManager.call (transport env) (length (tool_calls w))
    (ConnectionManager.server info) name params = Ret raw ->
  exists description w',
    _execute_tasks env self [PDict d] w
    = (Ret [task_result (PStr name) description
              (replace_surrogates (result_text raw)) true], w') /\
    tool_calls w'
    = tool_calls w
        ++ [{| inv_server := ConnectionManager.server info; inv_tool := name;
               inv_arguments := params |}] /\
    llm_calls w' = llm_calls w.
Proof.
  intros U posix T P G C R. unfold ConnectionManager.get_tool_info in G.
  unfold _execute_tasks. cbn [execute_loop length].
  unfold bindM at 1, liftM at 1. rewrite T.
  unfold bindM at 1, liftM at 1. rewrite P.
  unfold bindM at 1, liftM at 1, py_get. cbv beta iota.
  log_step U. log_step U.
  unfold bindM at 1, attempt, try_except.
  unfold bindM at 1, ConnectionManager.call_tool.
  rewrite G, C, Tool0, Tool, R. cbv beta iota zeta.
  log_step U. unfold retM. cbv beta iota.
  rewrite (safe_str_elsewhere _ _ posix).
  rewrite result_text_sanitized by exact posix.
  eexists; exists w2. split; [reflexivity|].
  cbn [tool_calls llm_calls ConnectionManager.record_call] in *.
  split; congruence.
Qed.

Lemma successful_task_is_recorded_witness :
  exists description w',
    _execute_tasks
      (Samples.env Samples.posix Samples.emoji_server
         (Samples.scripted Samples.tool_text Samples.two_adds_text))
      (Samples.agent Samples.quiet Samples.emoji_server) [Samples.add_task]
      World_empty
    = (Ret [task_result (PStr Samples.add) description
              [Samples.grinning_face] true], w') /\
    tool_calls w'
    = [{| inv_server := Samples.calc; inv_tool := Samples.add;
          inv_arguments := PDict [] |}] /\
    llm_calls w' = [].
Proof.
  apply (@successful_task_is_recorded
           (Samples.env Samples.posix Samples.emoji_server
              (Samples.scripted Samples.tool_text Samples.two_adds_text))
           (Samples.agent Samples.quiet Samples.emoji_server)
           [(py "tool", PStr Samples.add)] Samples.add (PDict [])
           {| ConnectionManager.server := Samples.calc;
              ConnectionManager.schema := PDict [];
              ConnectionManager.description := PStr (py "adds") |}
           {| ConnectionManager.command := py "python";
              ConnectionManager.args := [py "calc.py"] |}
           (ConnectionManager.WithContent
              [ConnectionManager.TextContent [Samples.grinning_face]])
           World_empty (quiet_agent_unfailing _ _ _)); reflexivity.
Defined.

(** X14: on a platform other than win32, [safe_str] leaves a text without
    surrogates as it is, and applying it twice is the same as applying
    it once. *)
Theorem safe_str_idempotent (p : Platform) (text : pystr) :
  win32 p = false ->
  (no_surrogate text -> safe_str p text = text) /\
  safe_str p (safe_str p text) = safe_str p text.
Proof.
  intros posix. rewrite !(safe_str_elsewhere _ _ posix). split.
  - unfold no_surrogate, replace_surrogates.
    induction 1 as [|c text C _ IH]; simpl; [reflexivity|].
    now rewrite C, IH.
  - apply replace_surrogates_twice.
Qed.

Lemma safe_str_idempotent_witness :
  safe_str Samples.posix (safe_str Samples.posix [0xD800; 65])
  = safe_str Samples.posix [0xD800; 65].
Proof. exact (proj2 (safe_str_idempotent Samples.posix [0xD800; 65] eq_refl)). Defined.

End Running.

(** ** When a conversation cannot fail ([MCPAgent.process_request]) *)
Section Conversation.
Import Utils ConfigManager LLMInterface MCPAgent Shapes Requests.

Lemma recent_context_returns (p : Platform) (self : Agent) (max_entries : Z) :
  (0 < max_entries)%Z ->
  Forall is_text (conversation_history self) ->
  exists context, _get_recent_context p self max_entries = Ret context.
Proof.
  intros positive texts. unfold _get_recent_context.
  destruct (slice_from_last (conversation_history self) positive)
    as [older [Split _]].
  rewrite Split in texts. apply Forall_app in texts. destruct texts as [_ T].
  destruct (context_lines_of_texts p T) as [lines [L _]].
  rewrite L. simpl. eexists. reflexivity.
Qed.

Lemma default_verdict_well_shaped : well_shaped default_verdict.
Proof. split; exact I. Qed.

Lemma forced_tool_well_shaped (d : list (pystr * pyval)) :
  well_shaped (PDict d) ->
  well_shaped (PDict (PyDict.set d (py "type") (PStr (py "TOOL")))).
Proof.
  unfold well_shaped.
  rewrite !get_set_other by reflexivity. tauto.
Qed.

Lemma classify_well_shaped (p : Platform) (c : Console) (be : Backend)
    (config : Config) (logger : Logger.Logger)
    (user_query recent_context tools_info : pystr) (w : World) :
  Logger.unfailing c logger ->
  replies_well_shaped p be ->
  exists d w1,
    determine_execution_type p c be config logger user_query recent_context
      tools_info w
    = (Ret (PDict d), w1) /\
    well_shaped (PDict d).
Proof.
  intros U shaped.
  unfold determine_execution_type, try_except. unfold bindM at 1.
  rewrite call_llm_run.
  assert (Handler : forall e0 w0,
            exists w',
              bindM (Logger.emit p c logger (py "実行方式判定失敗: " ++ exn_str e0)
                       (py "error:error") false false)
                (fun _ => retM default_verdict) w0
              = (Ret default_verdict, w')).
  { intros e0 w0.
    destruct (emit_then p (py "実行方式判定失敗: " ++ exn_str e0) (py "error:error")
                false (fun _ => retM default_verdict) w0 U) as [w' [-> _]].
    now exists w'. }
  assert (Default : forall e0 w0,
            exists d w1,
              bindM (Logger.emit p c logger (py "実行方式判定失敗: " ++ exn_str e0)
                       (py "error:error") false false)
                (fun _ => retM default_verdict) w0
              = (Ret (PDict d), w1) /\ well_shaped (PDict d)).
  { intros e0 w0. destruct (Handler e0 w0) as [w' ->].
    eexists; exists w'. split; [reflexivity|apply default_verdict_well_shaped]. }
  destruct (create be _ _) as [content|e0] eqn:C; [|apply Default].
  unfold bindM at 1, liftM at 1.
  destruct (json_loads be (reply_text p content)) as [result|e1] eqn:J;
    [|apply Default].
  assert (W : well_shaped result)
    by (eapply shaped; [exact C|left; exact J]).
  destruct result as [| | | | | |d];
    try (unfold bindM at 1, liftM at 1, py_get at 1; apply Default).
  assert (Logged : forall verdict : list (pystr * pyval),
            well_shaped (PDict verdict) ->
            forall w0,
            exists d1 w1,
              bindM (liftM (py_get (PDict verdict) (py "type") (PStr (py "UNKNOWN"))))
                (fun shown_type =>
                   shown_reason <~ liftM (py_get (PDict verdict) (py "reason")
                                            (PStr [])) ;;
                   _ <~ Logger.emit p c logger
                          (verdict_line p shown_type shown_reason)
                          (py "info:classification") false true ;;
                   retM (PDict verdict)) w0
              = (Ret (PDict d1), w1) /\ well_shaped (PDict d1)).
  { intros verdict Wv w0. unfold bindM at 1, liftM at 1, py_get at 1.
    unfold bindM at 1, liftM at 1, py_get at 1.
    match goal with
    | |- context [bindM (Logger.emit p c logger ?m ?l false true) ?k ?w2] =>
        destruct (emit_then p m l true k w2 U) as [w' [-> _]]
    end.
    exists verdict, w'. split; [reflexivity|exact Wv]. }
  unfold bindM at 1, liftM at 1, py_get at 1.
  destruct (negb _).
  - unfold bindM at 1, liftM at 1, py_setitem.
    destruct (Logged (PyDict.set d (py "type") (PStr (py "TOOL")))
                (@forced_tool_well_shaped d W)
                (record_request
                   (request config (py "system")
                      (ClassifyPrompt tools_info recent_context user_query)
                      (1 # 10) (Some (py "json_object"))) w))
      as [d1 [w1 [-> Wd]]].
    exists d1, w1. split; [reflexivity|exact Wd].
  - unfold bindM at 1, retM at 1.
    destruct (Logged d W
                (record_request
                   (request config (py "system")
                      (ClassifyPrompt tools_info recent_context user_query)
                      (1 # 10) (Some (py "json_object"))) w))
      as [d1 [w1 [-> Wd]]].
    exists d1, w1. split; [reflexivity|exact Wd].
Qed.

Lemma planned_dicts (p : Platform) (be : Backend) (n : nat)
    (request : LLMRequest) :
  replies_well_shaped p be ->
  forallb is_dict
    (planned be match create be n request with
                | Ret content => Ret (reply_text p content)
                | Raise e => Raise e
                end) = true.
Proof.
  intros shaped. unfold planned.
  destruct (create be n request) as [content|e0] eqn:C; [|reflexivity].
  unfold parse_task_list.
  assert (Fenced : forall inner fenced,
            search_json_fence be (reply_text p content) = Some inner ->
            json_loads be inner = Ret (PList fenced) ->
            forallb is_dict fenced = true).
  { intros inner fenced F J2.
    apply (shaped n request content (PList fenced) C).
    right. now exists inner. }
  destruct (json_loads be (reply_text p content)) as [whole|e] eqn:J.
  - assert (W : well_shaped whole)
      by (eapply shaped; [exact C|left; exact J]).
    destruct whole as [| | | | |whole|]; simpl; try exact W;
      (destruct (search_json_fence be (reply_text p content)) as [inner|] eqn:F;
       [destruct (json_loads be inner) as [[| | | | |fenced|]|] eqn:J2|]);
      simpl; try reflexivity; exact (Fenced inner fenced eq_refl J2).
  - destruct (is_json_decode_error e); simpl; [|reflexivity].
    destruct (search_json_fence be (reply_text p content)) as [inner|] eqn:F;
      [destruct (json_loads be inner) as [[| | | | |fenced|]|] eqn:J2|];
      simpl; try reflexivity; exact (Fenced inner fenced eq_refl J2).
Qed.

Lemma respond_text (env : Env) (self : Agent) (user_query : pystr) (w : World) :
  Logger.unfailing (console env) (logger (platform env) self) ->
  replies_well_shaped (platform env) (backend env) ->
  Forall is_text (conversation_history self) ->
  (exists tools_info,
     ConnectionManager.format_tools_for_llm (platform env)
       (connection_manager self) = Ret tools_info) ->
  exists s w', respond env self user_query w = (Ret (PStr s), w').
Proof.
  intros U shaped texts [tools_info F]. unfold respond.
  destruct (recent_context_returns (platform env) self (max_entries := 10)
              eq_refl texts) as [context C].
  unfold bindM at 1, liftM at 1. rewrite C.
  unfold bindM at 1, liftM at 1. rewrite F.
  destruct (@classify_well_shaped (platform env) (console env) (backend env)
              (config self) (logger (platform env) self) user_query
              context tools_info w U shaped) as [d [w1 [D [R Cl]]]].
  unfold bindM at 1. rewrite D.
  unfold bindM at 1, liftM at 1, py_get at 1. cbv beta iota.
  destruct (py_eq_str _ (py "NO_TOOL")).
  { unfold liftM, py_get.
    destruct (PyDict.get d (py "response")) as [[| | | |s| |]|];
      try contradiction; eexists; eexists; reflexivity. }
  destruct (py_eq_str _ (py "CLARIFICATION")).
  { unfold bindM, liftM, py_get. cbv beta iota.
    destruct (PyDict.get d (py "clarification")) as [[| | | | | |cl]|];
      try contradiction; cbv beta iota;
      [destruct (PyDict.get cl (py "question")) as [[| | | |q| |]|];
       try contradiction|];
      destruct (PyDict.get d (py "response")) as [[| | | |s| |]|];
      try contradiction; eexists; eexists; reflexivity. }
  destruct (@plan_run (platform env) (console env) (backend env) (config self)
              (logger (platform env) self) user_query context tools_info []
              w1 U) as [w2 [G _]].
  unfold bindM at 1. rewrite G.
  pose proof (@planned_dicts (platform env) (backend env) (length (llm_calls w1))
                (plan_request (config self) user_query context tools_info [])
                shaped) as Dicts.
  destruct (planned _ _) as [|task rest]; [eexists; eexists; reflexivity|].
  destruct (@execute_loop_dicts env self (length (task :: rest)) (task :: rest)
              U Dicts 0%nat [] w2)
    as [results [w3 [X _]]].
  unfold bindM at 1, _execute_tasks. rewrite X.
  destruct (@interpret_run (platform env) (console env) (backend env)
              (config self) (logger (platform env) self)
              user_query ([] ++ results) context [] w3 U) as [w4 [I _]].
  unfold bindM at 1. rewrite I. eexists; eexists; reflexivity.
Qed.

Lemma turn_text (env : Env) (user_query : pystr) (self : Agent) (w : World) :
  Logger.unfailing (console env) (logger (platform env) self) ->
  replies_well_shaped (platform env) (backend env) ->
  Forall is_text (conversation_history self) ->
  (exists tools_info,
     ConnectionManager.format_tools_for_llm (platform env)
       (connection_manager self) = Ret tools_info) ->
  exists s self' w',
    process_request env user_query self w = (Ret (PStr s), self', w') /\
    Forall is_text (conversation_history self') /\
    connection_manager self' = connection_manager self /\
    config self' = config self.
Proof.
  intros U shaped texts F. unfold process_request.
  assert (T : Forall is_text
                (conversation_history
                   (append_turn self (py "user") (PStr user_query)))).
  { simpl. apply Forall_app. split; [exact texts|].
    constructor; [eexists; reflexivity|constructor]. }
  destruct (@respond_text env (append_turn self (py "user") (PStr user_query))
              user_query w U shaped T F) as [s [w' R]].
  rewrite R. eexists; eexists; eexists. split; [reflexivity|].
  split; [|split; reflexivity].
  simpl. apply Forall_app. split; [exact T|].
  constructor; [eexists; reflexivity|constructor].
Qed.

(** X15: a conversation cannot fail when logging cannot fail, the
    backend replies with well-shaped documents (in every object,
    [response] and the [question] of [clarification] are strings when
    present and [clarification] is an object when present; in every
    list, every element is an object), the history holds texts and the
    registry can be rendered: every turn returns a string, whatever the
    tool servers answer or raise and also when the backend raises. *)
Theorem conversation_returns_strings (env : Env) (queries : list pystr) :
  forall (self : Agent) (w : World),
    Logger.unfailing (console env) (logger (platform env) self) ->
    replies_well_shaped (platform env) (backend env) ->
    Forall is_text (conversation_history self) ->
    (exists tools_info,
       ConnectionManager.format_tools_for_llm (platform env)
         (connection_manager self) = Ret tools_info) ->
    exists responses self' w',
      converse env queries self w = (Ret responses, self', w') /\
      length responses = length queries /\
      Forall is_string responses.
Proof.
  induction queries as [|q rest IH]; intros self w U shaped texts F; simpl.
  - exists [], self, w. repeat split. constructor.
  - destruct (@turn_text env q self w U shaped texts F)
      as [s [self1 [w1 [Run [T1 [CM Cf]]]]]].
    rewrite Run. rewrite <- CM in F.
    assert (U1 : Logger.unfailing (console env) (logger (platform env) self1))
      by (unfold logger in *; now rewrite Cf).
    destruct (IH self1 w1 U1 shaped T1 F) as [responses [self2 [w2 [Rest [L S]]]]].
    rewrite Rest. exists (PStr s :: responses), self2, w2.
    split; [reflexivity|]. split; [simpl; now rewrite L|].
    constructor; [now exists s|exact S].
Qed.

Lemma scripted_well_shaped :
  replies_well_shaped Samples.posix
    (Samples.scripted Samples.tool_text Samples.two_adds_text).
Proof.
  intros n request content v C [J|[inner [F _]]]; [|discriminate].
  simpl in C, J.
  destruct (req_prompt request); inversion C; subst content;
    vm_compute in J; inversion J; subst v; repeat split.
Qed.

Lemma conversation_returns_strings_witness :
  exists responses self' w',
    converse
      (Samples.env Samples.posix Samples.failing_server
         (Samples.scripted Samples.tool_text Samples.two_adds_text))
      [py "add twice"; py "and again"]
      (Samples.agent Samples.quiet Samples.failing_server) World_empty
    = (Ret responses, self', w') /\
    length responses = 2%nat /\
    Forall is_string responses.
Proof.
  apply (@conversation_returns_strings
           (Samples.env Samples.posix Samples.failing_server
              (Samples.scripted Samples.tool_text Samples.two_adds_text))
           [py "add twice"; py "and again"]
           (Samples.agent Samples.quiet Samples.failing_server) World_empty).
  - apply quiet_agent_unfailing.
  - exact scripted_well_shaped.
  - constructor.
  - eexists. vm_compute. reflexivity.
Defined.

Lemma context_lines_poisoned (p : Platform) (recent : list Turn) (entry : Turn) :
  In entry recent ->
  unmeasurable (content entry) = true ->
  exists e, context_lines p recent = Raise e /\ exn_type e = TypeError.
Proof.
  induction recent as [|first recent IH]; simpl; [tauto|]. intros I U.
  unfold context_line.
  destruct (clip (content first)) as [clipped|e] eqn:C.
  - simpl. destruct I as [->|I].
    + destruct (content entry); discriminate.
    + destruct (IH I U) as [e [-> T]]. simpl. now exists e.
  - simpl. exists e. split; [reflexivity|].
    unfold clip in C.
    destruct (content first) as [| | | |s|l|d]; inversion C; try reflexivity.
    + destruct (_ <? _)%Z; inversion C. reflexivity.
    + destruct (_ <? _)%Z; inversion C. reflexivity.
Qed.

Lemma slice_keeps_recent {A} (l : list A) (x y : A) :
  In x (slice_from (l ++ [x; y]) (- (10))).
Proof.
  unfold slice_from.
  replace (- (10) <? 0)%Z with true by reflexivity.
  rewrite skipn_app. apply in_or_app. right.
  rewrite length_app. simpl length.
  replace (Z.to_nat (Z.max 0 (- (10) + Z.of_nat (length l + 2))) - length l)%nat
    with 0%nat by lia.
  simpl. now left.
Qed.

Lemma poisoned_turn (env : Env) (user_query : pystr) (self : Agent) (w : World)
    (entry : Turn) :
  In entry
    (slice_from
       (conversation_history self
          ++ [{| role := py "user"; content := PStr user_query |}])
       (- (10))) ->
  unmeasurable (content entry) = true ->
  exists e,
    process_request env user_query self w
    = (Raise e, append_turn self (py "user") (PStr user_query), w) /\
    exn_type e = TypeError.
Proof.
  intros I U. unfold process_request, respond, _get_recent_context.
  simpl conversation_history.
  destruct (context_lines_poisoned (platform env) _ _ I U) as [e [L T]].
  unfold bindM at 1, liftM at 1. rewrite L. simpl. now exists e.
Qed.

(** X16: a history entry whose content is [None], a boolean or a number
    makes the turn fail while it is among the ten most recent entries:
    [process_request] raises [TypeError] from [_get_recent_context],
    having appended the user's text and before anything is sent to the
    backend or to a tool server. *)
Theorem unmeasurable_entry_fails_the_turn
    (env : Env) (user_query : pystr) (self : Agent) (w : World) (entry : Turn) :
  In entry
    (slice_from
       (conversation_history self
          ++ [{| role := py "user"; content := PStr user_query |}])
       (- (10))) ->
  unmeasurable (content entry) = true ->
  exists e,
    process_request env user_query self w
    = (Raise e, append_turn self (py "user") (PStr user_query), w) /\
    exn_type e = TypeError.
Proof. exact (@poisoned_turn env user_query self w entry). Qed.

Lemma unmeasurable_entry_fails_the_turn_witness :
  exists e,
    process_request
      (Samples.env Samples.posix Samples.failing_server Scenes.direct)
      (py "again?")
      {| config := Config_default;
         connection_manager := Samples.manager Samples.failing_server;
         conversation_history := [{| role := py "assistant"; content := PInt 4 |}] |}
      World_empty
    = (Raise e,
       append_turn
         {| config := Config_default;
            connection_manager := Samples.manager Samples.failing_server;
            conversation_history :=
              [{| role := py "assistant"; content := PInt 4 |}] |}
         (py "user") (PStr (py "again?")),
       World_empty) /\
    exn_type e = TypeError.
Proof.
  apply (@unmeasurable_entry_fails_the_turn
           (Samples.env Samples.posix Samples.failing_server Scenes.direct)
           (py "again?") _ World_empty
           {| role := py "assistant"; content := PInt 4 |}).
  - simpl. now left.
  - reflexivity.
Defined.

(** X17: the response of a turn is returned as it is, so a turn may
    return [None], a boolean or a number (a NO_TOOL verdict whose
    [response] is one); the next call of [process_request] on that agent
    then raises [TypeError], whatever it is asked and whatever the
    backend would answer. *)
Theorem non_text_response_fails_the_next_turn
    (env env' : Env) (user_query next_query : pystr) (self self' : Agent)
    (w w' w2 : World) (response : pyval) :
  process_request env user_query self w = (Ret response, self', w') ->
  unmeasurable response = true ->
  exists e,
    process_request env' next_query self' w2
    = (Raise e, append_turn self' (py "user") (PStr next_query), w2) /\
    exn_type e = TypeError.
Proof.
  intros Run U. apply process_request_history in Run.
  destruct Run as [_ [_ H]].
  apply poisoned_turn with
    (entry := {| role := py "assistant"; content := response |}); [|exact U].
  rewrite H, <- app_assoc. simpl app.
  change (conversation_history self
            ++ [{| role := py "user"; content := PStr user_query |};
                {| role := py "assistant"; content := response |};
                {| role := py "user"; content := PStr next_query |}])
    with (conversation_history self
            ++ [{| role := py "user"; content := PStr user_query |}]
            ++ [{| role := py "assistant"; content := response |};
                {| role := py "user"; content := PStr next_query |}]).
  rewrite app_assoc. apply slice_keeps_recent.
Qed.

Lemma non_text_response_fails_the_next_turn_witness :
  let env := Samples.env Samples.posix Samples.failing_server Scenes.numeric in
  let self := Samples.agent Config_default Samples.failing_server in
  fst (fst (process_request env (py "What is 2+2?") self World_empty))
  = Ret (PInt 4) /\
  exists e,
    fst (fst (process_request env (py "again?")
                (snd (fst (process_request env (py "What is 2+2?") self
                             World_empty)))
                World_empty))
    = Raise e /\
    exn_type e = TypeError.
Proof.
  intros env self. split; [reflexivity|].
  destruct (@non_text_response_fails_the_next_turn env env (py "What is 2+2?")
              (py "again?") self _ World_empty _ World_empty (PInt 4)
              eq_refl eq_refl) as [e [Run T]].
  exists e. split; [|exact T].
  exact (f_equal (fun run => fst (fst run)) Run).
Defined.

End Conversation.

(** ** Reading a configuration document ([ConfigManager]) *)
Section Documents.
Import ConfigManager ConfigShapes Shapes.

(** X18: an existing file whose YAML document is empty or otherwise
    falsy ([None], [False], 0, an empty string, list or dict) gives the
    default configuration. *)
Theorem falsy_document_gives_defaults
    (fs : FileSystem) (config_path text : pystr) (yaml_data : pyval) :
  path_exists fs config_path = true ->
  open_read fs config_path = Ret text ->
  yaml_safe_load fs text = Ret yaml_data ->
  py_truthy yaml_data = false ->
  load fs config_path = Ret Config_default.
Proof.
  intros E O Y F. unfold load, read_config.
  rewrite E, O. simpl. rewrite Y. simpl. rewrite F. reflexivity.
Qed.

Lemma falsy_document_gives_defaults_witness :
  load (one_file PNone) (py "config.yaml") = Ret Config_default.
Proof.
  apply (@falsy_document_gives_defaults (one_file PNone) (py "config.yaml")
           (py "text") PNone); reflexivity.
Defined.

Lemma block_dict {T} (d : list (pystr * pyval)) (key : pystr)
    (build : pyval -> outcome T) (default : T) :
  block (PDict d) key build default
  = match PyDict.get d key with
    | Some sub => build sub
    | None => Ret default
    end.
Proof.
  unfold block, py_contains_str, py_getitem_str, PyDict.mem.
  destruct (PyDict.get d key); reflexivity.
Qed.

Lemma block_total {T} (d : list (pystr * pyval)) (key : pystr)
    (build : pyval -> outcome T) (default : T) :
  (forall s, exists c, build (PDict s) = Ret c) ->
  section_ok d key ->
  exists section,
    block (PDict d) key build default = Ret section /\
    (PyDict.get d key = None -> section = default).
Proof.
  intros total ok. rewrite block_dict. unfold section_ok in ok.
  destruct (PyDict.get d key) as [[| | | | | |s]|]; try contradiction.
  - destruct (total s) as [c ->]. exists c. split; [reflexivity|discriminate].
  - exists default. split; reflexivity.
Qed.

Lemma execution_block_total (d : list (pystr * pyval)) :
  section_ok d (py "execution") ->
  match PyDict.get d (py "execution") with
  | Some (PDict e) => section_ok e (py "retry_strategy")
  | _ => True
  end ->
  exists section,
    block (PDict d) (py "execution") execution_from ExecutionConfig_default
    = Ret section /\
    (PyDict.get d (py "execution") = None -> section = ExecutionConfig_default).
Proof.
  intros ok retry. rewrite block_dict. unfold section_ok in ok.
  destruct (PyDict.get d (py "execution")) as [[| | | | | |e]|];
    try contradiction.
  - unfold section_ok in retry. unfold execution_from, py_get.
    destruct (PyDict.get e (py "retry_strategy")) as [[| | | | | |r]|];
      try contradiction; simpl; eexists; (split; [reflexivity|discriminate]).
  - eexists. split; reflexivity.
Qed.

(** X19: a document that is a dict in which every section that is
    present is a dict (and [execution.retry_strategy] too) is read
    without an error, keys that are not sections being ignored; every
    section that is absent keeps its defaults. *)
Theorem well_formed_document_is_read (d : list (pystr * pyval)) :
  sections_well_formed d ->
  exists config,
    _create_config_from_dict (PDict d) = Ret config /\
    (PyDict.get d (py "display") = None ->
     display config = DisplayConfig_default) /\
    (PyDict.get d (py "execution") = None ->
     execution config = ExecutionConfig_default) /\
    (PyDict.get d (py "llm") = None -> llm config = LLMConfig_default) /\
    (PyDict.get d (py "conversation") = None ->
     conversation config = ConversationConfig_default) /\
    (PyDict.get d (py "error_handling") = None ->
     error_handling config = ErrorHandlingConfig_default) /\
    (PyDict.get d (py "development") = None ->
     development config = DevelopmentConfig_default) /\
    (PyDict.get d (py "result_display") = None ->
     result_display config = ResultDisplayConfig_default) /\
    (PyDict.get d (py "interrupt_handling") = None ->
     interrupt_handling config = InterruptHandlingConfig_default).
Proof.
  intros [ok retry]. unfold section_keys in ok.
  repeat match goal with
         | H : Forall _ (_ :: _) |- _ => inversion H; clear H; subst
         end.
  unfold _create_config_from_dict.
  destruct (@block_total _ d (py "display") display_from DisplayConfig_default)
    as [f1 [E1 D1]];
    [intros s; eexists; reflexivity|assumption|].
  destruct (execution_block_total d) as [f2 [E2 D2]]; [assumption|assumption|].
  destruct (@block_total _ d (py "llm") llm_from LLMConfig_default)
    as [f3 [E3 D3]];
    [intros s; eexists; reflexivity|assumption|].
  destruct (@block_total _ d (py "conversation") conversation_from
              ConversationConfig_default) as [f4 [E4 D4]];
    [intros s; eexists; reflexivity|assumption|].
  destruct (@block_total _ d (py "error_handling") error_handling_from
              ErrorHandlingConfig_default) as [f5 [E5 D5]];
    [intros s; eexists; reflexivity|assumption|].
  destruct (@block_total _ d (py "development") development_from
              DevelopmentConfig_default) as [f6 [E6 D6]];
    [intros s; eexists; reflexivity|assumption|].
  destruct (@block_total _ d (py "result_display") result_display_from
              ResultDisplayConfig_default) as [f7 [E7 D7]];
    [intros s; eexists; reflexivity|assumption|].
  destruct (@block_total _ d (py "interrupt_handling") interrupt_handling_from
              InterruptHandlingConfig_default) as [f8 [E8 D8]];
    [intros s; eexists; reflexivity|assumption|].
  change (display Config_default) with DisplayConfig_default.
  change (execution Config_default) with ExecutionConfig_default.
  change (llm Config_default) with LLMConfig_default.
  change (conversation Config_default) with ConversationConfig_default.
  change (error_handling Config_default) with ErrorHandlingConfig_default.
  change (development Config_default) with DevelopmentConfig_default.
  change (result_display Config_default) with ResultDisplayConfig_default.
  change (interrupt_handling Config_default)
    with InterruptHandlingConfig_default.
  rewrite E1, E2, E3, E4, E5, E6, E7, E8. simpl.
  eexists. split; [reflexivity|]. simpl. repeat split; assumption.
Qed.

Lemma well_formed_document_is_read_witness :
  exists config,
    _create_config_from_dict
      (PDict [(py "conversation", PDict [(py "context_limit", PInt 5)]);
              (py "extra", PInt 1)])
    = Ret config /\
    llm config = LLMConfig_default.
Proof.
  destruct (@well_formed_document_is_read
              [(py "conversation", PDict [(py "context_limit", PInt 5)]);
               (py "extra", PInt 1)])
    as [config [Read [_ [_ [L _]]]]].
  - split; [repeat constructor|exact I].
  - exists config. split; [exact Read|]. now apply L.
Defined.

Lemma block_raises {T} (d : list (pystr * pyval)) (key : pystr) (v : pyval)
    (build : pyval -> outcome T) (default : T) :
  (forall x, is_dict x = false -> exists e, build x = Raise e) ->
  PyDict.get d key = Some v ->
  is_dict v = false ->
  exists e, block (PDict d) key build default = Raise e.
Proof.
  intros fails G N. rewrite block_dict, G. now apply fails.
Qed.

Ltac builder_fails :=
  let x := fresh "x" in
  let N := fresh "N" in
  intros x N; destruct x; try discriminate; eexists; reflexivity.

Ltac run_blocks R :=
  repeat match goal with
         | |- exists e, bind ?m _ = Raise e =>
             first [ rewrite R; eexists; reflexivity
                   | destruct m; cbn [bind]; [|eexists; reflexivity] ]
         end.

Lemma bad_section_fails (d : list (pystr * pyval)) (key : pystr) (v : pyval) :
  In key section_keys ->
  PyDict.get d key = Some v ->
  is_dict v = false ->
  exists e, _create_config_from_dict (PDict d) = Raise e.
Proof.
  intros K G N. unfold _create_config_from_dict, section_keys in *.
  cbv zeta.
  destruct K as [<-|[<-|[<-|[<-|[<-|[<-|[<-|[<-|[]]]]]]]]].
  - destruct (@block_raises _ d (py "display") v display_from DisplayConfig_default)
      as [e R]; [builder_fails|exact G|exact N|].
    change (display Config_default) with DisplayConfig_default.
    run_blocks R.
  - destruct (@block_raises _ d (py "execution") v execution_from ExecutionConfig_default)
      as [e R]; [builder_fails|exact G|exact N|].
    change (execution Config_default) with ExecutionConfig_default.
    run_blocks R.
  - destruct (@block_raises _ d (py "llm") v llm_from LLMConfig_default)
      as [e R]; [builder_fails|exact G|exact N|].
    change (llm Config_default) with LLMConfig_default.
    run_blocks R.
  - destruct (@block_raises _ d (py "conversation") v conversation_from ConversationConfig_default)
      as [e R]; [builder_fails|exact G|exact N|].
    change (conversation Config_default) with ConversationConfig_default.
    run_blocks R.
  - destruct (@block_raises _ d (py "error_handling") v error_handling_from ErrorHandlingConfig_default)
      as [e R]; [builder_fails|exact G|exact N|].
    change (error_handling Config_default) with ErrorHandlingConfig_default.
    run_blocks R.
  - destruct (@block_raises _ d (py "development") v development_from DevelopmentConfig_default)
      as [e R]; [builder_fails|exact G|exact N|].
    change (development Config_default) with DevelopmentConfig_default.
    run_blocks R.
  - destruct (@block_raises _ d (py "result_display") v result_display_from ResultDisplayConfig_default)
      as [e R]; [builder_fails|exact G|exact N|].
    change (result_display Config_default) with ResultDisplayConfig_default.
    run_blocks R.
  - destruct (@block_raises _ d (py "interrupt_handling") v interrupt_handling_from
                InterruptHandlingConfig_default)
      as [e R]; [builder_fails|exact G|exact N|].
    change (interrupt_handling Config_default)
      with InterruptHandlingConfig_default.
    run_blocks R.
Qed.

(** X20: a file whose document is a dict with a section that is not a
    dict (such as [llm: gpt-4o]) is refused: [load] raises
    [ValueError]. *)
Theorem bad_section_is_refused
    (fs : FileSystem) (config_path text : pystr)
    (d : list (pystr * pyval)) (key : pystr) (v : pyval) :
  path_exists fs config_path = true ->
  open_read fs config_path = Ret text ->
  yaml_safe_load fs text = Ret (PDict d) ->
  In key section_keys ->
  PyDict.get d key = Some v ->
  is_dict v = false ->
  exists e, load fs config_path = Raise e /\ exn_type e = ValueError.
Proof.
  intros E O Y K G N. unfold load, read_config.
  rewrite E, O. cbn [negb bind]. rewrite Y. cbn [bind].
  assert (T : py_truthy (PDict d) = true)
    by (destruct d; [discriminate|reflexivity]).
  rewrite T.
  destruct (@bad_section_fails d key v K G N) as [e ->].
  eexists. split; reflexivity.
Qed.

Lemma bad_section_is_refused_witness :
  exists e,
    load (one_file (PDict [(py "llm", PStr (py "gpt-4o"))])) (py "config.yaml")
    = Raise e /\
    exn_type e = ValueError.
Proof.
  apply (@bad_section_is_refused
           (one_file (PDict [(py "llm", PStr (py "gpt-4o"))]))
           (py "config.yaml") (py "text")
           [(py "llm", PStr (py "gpt-4o"))] (py "llm") (PStr (py "gpt-4o")));
    try reflexivity.
  simpl. tauto.
Defined.

End Documents.

(** ** Logging ([utils.Logger]) *)
Section Logging.
Import Logger.

Lemma priority_bounds (name : pystr) : (10 <= priority name <= 40)%Z.
Proof.
  unfold priority, LEVEL_PRIORITY. cbn [PyDict.get].
  repeat match goal with
         | |- context [if ?b then _ else _] => destruct b
         end; lia.
Qed.

(** X21: [ulog] prints exactly when [always_print] is set, or the logger
    is verbose and the level before the colon passes [should_log]; the
    line it prints ends with the message. *)
Theorem ulog_prints_when_allowed
    (full_upper : Z -> pystr) (self : Logger) (message level : pystr)
    (always_print show_level : bool) :
  let allowed :=
    always_print
    || (verbose self && should_log full_upper self (fst (split_colon level))) in
  (allowed = true ->
   exists head,
     ulog full_upper self message level always_print show_level
     = Some (head ++ message)) /\
  (allowed = false ->
   ulog full_upper self message level always_print show_level = None).
Proof.
  unfold ulog. destruct (split_colon level) as [log_level prefix_key].
  cbn [fst]. cbv zeta.
  destruct always_print, (verbose self),
    (should_log full_upper self log_level); cbn [negb andb orb];
    split; intros H; try discriminate H; try reflexivity;
    destruct prefix_key as [[|c key]|]; destruct show_level;
    cbv beta iota; try (exists []; reflexivity);
    repeat rewrite app_assoc; eexists; reflexivity.
Qed.

Lemma ulog_prints_when_allowed_witness :
  exists head,
    ulog (fun c => [c]) (new (fun c => [c]) false (py "INFO"))
      (py "bye") (py "info:startup") true false
    = Some (head ++ py "bye").
Proof.
  apply (proj1 (ulog_prints_when_allowed (fun c => [c])
                  (new (fun c => [c]) false (py "INFO"))
                  (py "bye") (py "info:startup") true false)).
  reflexivity.
Defined.

(** X22: level names are compared in upper case and an unknown name
    counts as INFO.  So a message whose level is ERROR passes every
    logger, and a logger built with INFO or with an unknown level name
    suppresses exactly the messages whose level is DEBUG. *)
Theorem level_thresholds
    (full_upper : Z -> pystr) (is_verbose : bool) (log_level level : pystr) :
  (upper full_upper level = py "ERROR" ->
   should_log full_upper (new full_upper is_verbose log_level) level = true) /\
  (upper full_upper log_level = py "INFO" \/
   PyDict.get LEVEL_PRIORITY (upper full_upper log_level) = None ->
   should_log full_upper (new full_upper is_verbose log_level) level
   = negb (pystr_eqb (py "DEBUG") (upper full_upper level))).
Proof.
  unfold should_log, new. cbn [min_priority]. split.
  - intros ->. change (priority (py "ERROR")) with 40%Z.
    apply Z.leb_le. apply priority_bounds.
  - intros Known.
    assert (M : priority (upper full_upper log_level) = 20%Z).
    { destruct Known as [->|N]; [reflexivity|].
      unfold priority. now rewrite N. }
    rewrite M. unfold priority, LEVEL_PRIORITY. cbn [PyDict.get].
    destruct (pystr_eqb (py "DEBUG") _); [reflexivity|].
    repeat match goal with
           | |- context [if ?b then _ else _] => destruct b
           end; reflexivity.
Qed.

Lemma level_thresholds_witness :
  should_log (fun c => [c]) (new (fun c => [c]) true (py "verbose"))
    (py "Debug")
  = false.
Proof.
  apply (proj2 (level_thresholds (fun c => [c]) true (py "verbose")
                  (py "Debug"))).
  right. reflexivity.
Defined.

End Logging.

(** ** The query filter ([database_server.validate_sql_safety]) *)
Section Queries.
Import DatabaseServer.

Lemma is_prefix_spec (k s : pystr) :
  is_prefix k s = true <-> exists b, s = k ++ b.
Proof.
  revert s. induction k as [|x k IH]; intros s; simpl.
  - split; [intros _; now exists s|reflexivity].
  - destruct s as [|y s].
    + split; [discriminate|intros [b E]; discriminate].
    + rewrite andb_true_iff, Z.eqb_eq, IH. split.
      * intros [-> [b ->]]. now exists b.
      * intros [b E]. inversion E. split; [reflexivity|now exists b].
Qed.

Lemma is_substring_spec (k s : pystr) :
  is_substring k s = true <-> exists a b, s = a ++ k ++ b.
Proof.
  induction s as [|y s IH]; simpl.
  - rewrite orb_false_r, is_prefix_spec. split.
    + intros [b E]. now exists [], b.
    + intros [a [b E]]. destruct a; [now exists b|discriminate].
  - rewrite orb_true_iff, is_prefix_spec, IH. split.
    + intros [[b E]|[a [b E]]].
      * now exists [], b.
      * exists (y :: a), b. simpl. now rewrite E.
    + intros [a [b E]]. destruct a as [|x a].
      * left. now exists b.
      * right. inversion E. now exists a, b.
Qed.

Lemma upper_app (full_upper : Z -> pystr) (a b : pystr) :
  upper full_upper (a ++ b) = upper full_upper a ++ upper full_upper b.
Proof. unfold upper. apply flat_map_app. Qed.

Lemma lstrip_keeps (c : Z) (k a b : pystr) :
  is_space c = false ->
  exists a', lstrip (a ++ (c :: k) ++ b) = a' ++ (c :: k) ++ b.
Proof.
  intros solid. induction a as [|x a IH]; simpl.
  - rewrite solid. now exists [].
  - destruct (is_space x); [exact IH|]. now exists (x :: a).
Qed.

Lemma strip_keeps (k s : pystr) :
  solid k = true -> is_substring k s = true -> is_substring k (strip s) = true.
Proof.
  unfold solid. intros S H. apply is_substring_spec in H.
  destruct H as [a [b ->]].
  destruct k as [|c k]; [discriminate|].
  destruct (rev (c :: k)) as [|c' k'] eqn:R; [discriminate|].
  apply andb_prop in S. destruct S as [S1 S2].
  apply negb_true_iff in S1. apply negb_true_iff in S2.
  unfold strip.
  destruct (@lstrip_keeps c k a b S1) as [a1 ->].
  rewrite !rev_app_distr, R, <- app_assoc.
  destruct (@lstrip_keeps c' k' (rev b) (rev a1) S2) as [b1 ->].
  rewrite !rev_app_distr, rev_involutive, <- R, rev_involutive, <- app_assoc.
  apply is_substring_spec. now exists a1, (rev b1).
Qed.

Lemma keywords_solid : forallb solid dangerous_keywords = true.
Proof. reflexivity. Qed.

(** X23: a query is refused as soon as it holds, anywhere, a text whose
    upper case contains one of the twelve keywords, also inside a name:
    no query that mentions the columns [created_at] or [updated_at] of
    the sample tables is accepted. *)
Theorem keyword_anywhere_is_refused
    (full_upper : Z -> pystr) (sql needle keyword : pystr) :
  In keyword dangerous_keywords ->
  is_substring needle sql = true ->
  is_substring keyword (upper full_upper needle) = true ->
  validate_sql_safety full_upper sql = false.
Proof.
  intros K N U. unfold validate_sql_safety. cbv zeta.
  destruct (negb (is_prefix (py "SELECT") _)); [reflexivity|].
  replace (existsb _ dangerous_keywords) with true; [reflexivity|].
  symmetry. apply existsb_exists. exists keyword. split; [exact K|].
  apply strip_keeps.
  - pose proof keywords_solid as S. rewrite forallb_forall in S. now apply S.
  - apply is_substring_spec in N. destruct N as [a [b ->]].
    apply is_substring_spec in U. destruct U as [a' [b' E]].
    rewrite !upper_app, E. apply is_substring_spec.
    exists (upper full_upper a ++ a'), (b' ++ upper full_upper b).
    now rewrite <- !app_assoc.
Qed.

Lemma keyword_anywhere_is_refused_witness :
  validate_sql_safety (fun c => [c]) (py "select name, updated_at from products")
  = false.
Proof.
  apply (@keyword_anywhere_is_refused (fun c => [c])
           (py "select name, updated_at from products") (py "updated_at")
           (py "UPDATE")).
  - simpl. tauto.
  - reflexivity.
  - reflexivity.
Defined.

Lemma lstrip_suffix (s : pystr) : exists ws, s = ws ++ lstrip s.
Proof.
  induction s as [|c s [ws IH]]; simpl.
  - now exists [].
  - destruct (is_space c); [|now exists []].
    exists (c :: ws). simpl. now rewrite <- IH.
Qed.

Lemma search_statement_keyword (s : pystr) :
  search_statement s = true ->
  existsb (fun keyword => is_substring keyword s) dangerous_keywords = true.
Proof.
  intros H. apply existsb_exists.
  induction s as [|c s IH]; cbn [search_statement] in H; [discriminate|].
  apply orb_prop in H. destruct H as [H|H].
  - apply andb_prop in H. destruct H as [_ H].
    apply existsb_exists in H. destruct H as [k [K P]].
    exists k. split.
    + unfold statement_keywords in K. unfold dangerous_keywords.
      simpl in K |- *. tauto.
    + apply is_prefix_spec in P. destruct P as [b P].
      destruct (lstrip_suffix s) as [ws W].
      apply is_substring_spec. exists (c :: ws), b.
      simpl. now rewrite <- P, <- W.
  - destruct (IH H) as [k [K S]]. exists k. split; [exact K|].
    simpl. rewrite S. apply orb_true_r.
Qed.

(** X24: the first of the four patterns never decides: a query is
    accepted exactly when, in upper case and stripped, it starts with
    SELECT, holds none of the twelve keywords, no [--], no [/*] followed
    on its line by [*/], and no UNION followed on its line by SELECT. *)
Theorem accepted_queries (full_upper : Z -> pystr) (sql : pystr) :
  let sql_upper := strip (upper full_upper sql) in
  validate_sql_safety full_upper sql
  = is_prefix (py "SELECT") sql_upper
    && negb (existsb (fun keyword => is_substring keyword sql_upper)
               dangerous_keywords)
    && negb (is_substring (py "--") sql_upper)
    && negb (search_span (py "/*") (py "*/") sql_upper)
    && negb (search_span (py "UNION") (py "SELECT") sql_upper).
Proof.
  intros sql_upper. unfold validate_sql_safety. fold sql_upper.
  destruct (is_prefix (py "SELECT") sql_upper); [|reflexivity].
  cbn [negb andb].
  destruct (existsb _ dangerous_keywords) eqn:K; [reflexivity|].
  destruct (search_statement sql_upper) eqn:S.
  - apply search_statement_keyword in S. congruence.
  - cbn [negb andb orb].
    destruct (is_substring (py "--") sql_upper); [reflexivity|].
    destruct (search_span (py "/*") (py "*/") sql_upper); [reflexivity|].
    destruct (search_span (py "UNION") (py "SELECT") sql_upper); reflexivity.
Qed.

End Queries.

(** ** When a log line cannot be printed *)
Section Unprintable.
Import Utils ConfigManager LLMInterface MCPAgent Requests.

(** The lines of an outspoken logger. *)
Lemma info_line (full_upper : Z -> pystr) (logger : Logger.Logger)
    (message : pystr) :
  Logger.outspoken logger ->
  Logger.ulog full_upper logger message (py "info") false false = Some message.
Proof.
  intros [V P]. unfold Logger.ulog.
  replace (Logger.split_colon (py "info")) with (py "info", @None pystr)
    by (vm_compute; reflexivity).
  unfold Logger.should_log. rewrite P, V.
  replace (Logger.priority (upper full_upper (py "info"))) with 20%Z
    by (vm_compute; reflexivity).
  reflexivity.
Qed.

Lemma classification_line (full_upper : Z -> pystr) (logger : Logger.Logger)
    (message : pystr) :
  Logger.outspoken logger ->
  Logger.ulog full_upper logger message (py "info:classification") false true
  = Some (py "[INFO] [分類] " ++ message).
Proof.
  intros [V P]. unfold Logger.ulog.
  replace (Logger.split_colon (py "info:classification"))
    with (py "info", Some (py "classification")) by (vm_compute; reflexivity).
  unfold Logger.should_log. rewrite P, V.
  replace (Logger.priority (upper full_upper (py "info"))) with 20%Z
    by (vm_compute; reflexivity).
  vm_compute. reflexivity.
Qed.

Lemma error_line (full_upper : Z -> pystr) (logger : Logger.Logger)
    (message : pystr) :
  Logger.outspoken logger ->
  Logger.ulog full_upper logger message (py "error:error") false false
  = Some (py "[エラー] " ++ message).
Proof.
  intros [V P]. unfold Logger.ulog.
  replace (Logger.split_colon (py "error:error"))
    with (py "error", Some (py "error")) by (vm_compute; reflexivity).
  unfold Logger.should_log. rewrite P, V.
  replace (Logger.priority (upper full_upper (py "error"))) with 40%Z
    by (vm_compute; reflexivity).
  vm_compute. reflexivity.
Qed.

Lemma connection_line (full_upper : Z -> pystr) (logger : Logger.Logger)
    (message : pystr) :
  Logger.outspoken logger ->
  Logger.ulog full_upper logger message (py "info:connection") false false
  = Some (py "[接続管理] " ++ message).
Proof.
  intros [V P]. unfold Logger.ulog.
  replace (Logger.split_colon (py "info:connection"))
    with (py "info", Some (py "connection")) by (vm_compute; reflexivity).
  unfold Logger.should_log. rewrite P, V.
  replace (Logger.priority (upper full_upper (py "info"))) with 20%Z
    by (vm_compute; reflexivity).
  vm_compute. reflexivity.
Qed.

(** The logger of an agent, and of a manager, whose [verbose] holds. *)
Lemma agent_outspoken (p : Platform) (self : Agent) :
  py_truthy (verbose (development (config self))) = true ->
  Logger.outspoken (logger p self).
Proof. intros V. unfold logger. rewrite V. split; vm_compute; reflexivity. Qed.

Lemma manager_outspoken (p : Platform) (self : ConnectionManager.Manager) :
  py_truthy (ConnectionManager.verbose self) = true ->
  Logger.outspoken (ConnectionManager.logger p self).
Proof.
  intros V. unfold ConnectionManager.logger. rewrite V.
  split; vm_compute; reflexivity.
Qed.

(** X25: the first two log lines of a task stand before the [try].
    When the agent is verbose and the console cannot print the line
    that announces the first task (its description holds a character
    the stream cannot encode, say), [_execute_tasks] raises the
    exception of [print]: no call is sent, for this task or a later
    one, and nothing is recorded. *)
Theorem unprintable_step_ends_the_run
    (env : Env) (self : Agent) (d : list (pystr * pyval)) (rest : list pyval)
    (w : World) (tool description : pyval) (e : exn) :
  py_truthy (verbose (development (config self))) = true ->
  py_get (PDict d) (py "tool") (PStr []) = Ret tool ->
  py_get (PDict d) (py "description") tool = Ret description ->
  print (console env) (length (printed w))
    (step_line (platform env) 0 (S (length rest)) description) = Raise e ->
  _execute_tasks env self (PDict d :: rest) w = (Raise e, w).
Proof.
  intros V T De P. unfold _execute_tasks. cbn [execute_loop length].
  unfold bindM at 1, liftM at 1. rewrite T.
  unfold bindM at 1, liftM at 1, py_get at 1.
  unfold bindM at 1, liftM at 1. rewrite De.
  unfold bindM at 1, log at 1, Logger.emit.
  rewrite info_line by (apply agent_outspoken; exact V).
  unfold Logger.print_line. rewrite P. reflexivity.
Qed.

Lemma unprintable_step_ends_the_run_witness :
  exists e,
    _execute_tasks
      (Samples.env Samples.posix Samples.emoji_server
         (Samples.scripted Samples.tool_text Samples.two_adds_text))
      (Samples.agent Config_default Samples.emoji_server)
      [Scenes.garbled_task; Samples.add_task] World_empty
    = (Raise e, World_empty) /\
    exn_type e = UnicodeEncodeError.
Proof.
  eexists. split.
  - apply (@unprintable_step_ends_the_run
             (Samples.env Samples.posix Samples.emoji_server
                (Samples.scripted Samples.tool_text Samples.two_adds_text))
             (Samples.agent Config_default Samples.emoji_server)
             [(py "tool", PStr Samples.add);
              (py "description", PStr Scenes.lone_surrogate)]
             [Samples.add_task] World_empty (PStr Samples.add)
             (PStr Scenes.lone_surrogate)).
    + reflexivity.
    + reflexivity.
    + reflexivity.
    + vm_compute. reflexivity.
  - reflexivity.
Defined.

(** X26: the verdict is logged inside the [try].  When the logger is
    verbose, the reply is a well-formed NO_TOOL verdict, the console
    cannot print the line that shows it and can print the line of the
    failure, [determine_execution_type] returns the default TOOL
    verdict: the answer the backend gave is lost. *)
Theorem unprintable_verdict_becomes_tool
    (p : Platform) (c : Console) (be : Backend) (config : Config)
    (logger : Logger.Logger) (user_query recent_context tools_info : pystr)
    (w : World) (content : option pystr) (d : list (pystr * pyval)) (e : exn) :
  Logger.outspoken logger ->
  create be (length (llm_calls w))
    (classify_request config user_query recent_context tools_info)
  = Ret content ->
  json_loads be (reply_text p content) = Ret (PDict d) ->
  PyDict.get d (py "type") = Some (PStr (py "NO_TOOL")) ->
  print c (length (printed w))
    (py "[INFO] [分類] "
       ++ verdict_line p (PStr (py "NO_TOOL"))
            match PyDict.get d (py "reason") with
            | Some reason => reason
            | None => PStr []
            end) = Raise e ->
  print c (length (printed w)) (py "[エラー] " ++ py "実行方式判定失敗: " ++ exn_str e)
  = Ret tt ->
  fst (determine_execution_type p c be config logger user_query recent_context
         tools_info w)
  = Ret default_verdict.
Proof.
  intros O C J T P1 P2.
  unfold determine_execution_type, try_except. unfold bindM at 1.
  rewrite call_llm_run.
  fold (classify_request config user_query recent_context tools_info).
  rewrite C. unfold bindM at 1, liftM at 1. rewrite J.
  unfold bindM at 1, liftM at 1, py_get at 1. rewrite T.
  replace (py_eq_str (PStr (py "NO_TOOL")) (py "NO_TOOL")) with true
    by reflexivity.
  cbn [orb negb]. unfold bindM at 1, retM at 1.
  unfold bindM at 1, liftM at 1, py_get at 1. rewrite T.
  unfold bindM at 1, liftM at 1, py_get at 1.
  unfold bindM at 1, Logger.emit at 1.
  rewrite classification_line by exact O.
  unfold Logger.print_line at 1. cbn [printed record_request].
  rewrite P1.
  unfold bindM at 1, Logger.emit.
  rewrite error_line by exact O.
  unfold Logger.print_line. cbn [printed record_request].
  rewrite P2. reflexivity.
Qed.

Lemma chatty_outspoken : Logger.outspoken Samples.chatty.
Proof. split; vm_compute; reflexivity. Qed.

Lemma unprintable_verdict_becomes_tool_witness :
  json_loads Scenes.escaping Scenes.escaped_text = Ret Scenes.escaped_value /\
  fst (determine_execution_type Samples.posix Samples.terminal Scenes.escaping
         Config_default Samples.chatty (py "What is 2+2?") [] [] World_empty)
  = Ret default_verdict.
Proof.
  split; [vm_compute; reflexivity|].
  apply (@unprintable_verdict_becomes_tool Samples.posix Samples.terminal
           Scenes.escaping Config_default Samples.chatty (py "What is 2+2?")
           [] [] World_empty (Some Scenes.escaped_text)
           [(py "type", PStr (py "NO_TOOL"));
            (py "reason", PStr Scenes.lone_surrogate);
            (py "response", PStr (py "4"))]
           (mk_exn UnicodeEncodeError
              (py "'utf-8' codec can't encode character: surrogates not allowed"))
           chatty_outspoken).
  - reflexivity.
  - vm_compute. reflexivity.
  - reflexivity.
  - vm_compute. reflexivity.
  - vm_compute. reflexivity.
Defined.

(** X27: the name of a server is logged inside the [try] that connects
    it.  When the manager is verbose, the console cannot print the line
    that names the server and can print the line of the failure, the
    iteration ends without an exception and leaves the manager as it
    was: the server is passed over whether or not it could be
    connected, and the loop goes on. *)
Theorem unprintable_server_is_passed_over
    (p : Platform) (c : Console) (tr : ConnectionManager.Transport)
    (server_name : pystr) (server_info : ConnectionManager.ServerInfo)
    (self : ConnectionManager.Manager) (w : World) (e : exn) :
  py_truthy (ConnectionManager.verbose self) = true ->
  print c (length (printed w))
    (py "[接続管理] " ++ py "  " ++ server_name ++ py "に接続中...") = Raise e ->
  print c (length (printed w)) (py "[エラー] " ++ py " 失敗: " ++ exn_str e)
  = Ret tt ->
  exists w',
    ConnectionManager.connect_server p c tr (server_name, server_info) (self, w)
    = (Ret tt, (self, w')) /\
    llm_calls w' = llm_calls w /\ tool_calls w' = tool_calls w.
Proof.
  intros V P1 P2.
  pose proof (@manager_outspoken p self V) as O.
  unfold ConnectionManager.connect_server, try_except. unfold bindM at 1.
  unfold ConnectionManager.log at 1, bindM at 1, ConnectionManager.this at 1,
    ConnectionManager.in_world at 1, Logger.emit at 1.
  cbn [fst snd].
  rewrite connection_line by exact O.
  unfold Logger.print_line at 1. rewrite P1.
  unfold ConnectionManager.log, bindM, ConnectionManager.this,
    ConnectionManager.in_world, Logger.emit.
  cbn [fst snd].
  rewrite error_line by exact O.
  unfold Logger.print_line. rewrite P2.
  eexists. split; [reflexivity|]. split; reflexivity.
Qed.

Lemma unprintable_server_is_passed_over_witness :
  Discovery.connects Samples.failing_server (Scenes.odd, Scenes.odd_info) = true /\
  exists w',
    ConnectionManager.connect_server Samples.posix Samples.terminal
      Samples.failing_server (Scenes.odd, Scenes.odd_info)
      (ConnectionManager.new [(Scenes.odd, Scenes.odd_info)] (PBool true),
       World_empty)
    = (Ret tt,
       (ConnectionManager.new [(Scenes.odd, Scenes.odd_info)] (PBool true), w')).
Proof.
  split; [reflexivity|].
  destruct (@unprintable_server_is_passed_over Samples.posix Samples.terminal
              Samples.failing_server Scenes.odd Scenes.odd_info
              (ConnectionManager.new [(Scenes.odd, Scenes.odd_info)] (PBool true))
              World_empty
              (mk_exn UnicodeEncodeError
                 (py "'utf-8' codec can't encode character: surrogates not allowed"))
              eq_refl)
    as [w' [Run _]].
  - vm_compute. reflexivity.
  - vm_compute. reflexivity.
  - exists w'. exact Run.
Defined.

End Unprintable.

(** ** A quiet agent *)
Section Silence.
Import Utils ConfigManager LLMInterface MCPAgent.

Lemma keeps_printed_ret {A} (a : A) : keeps_printed (retM a).
Proof. intros w. reflexivity. Qed.

Lemma keeps_printed_lift {A} (o : outcome A) : keeps_printed (liftM o).
Proof. intros w. reflexivity. Qed.

Lemma keeps_printed_bind {A B} (m : M A) (k : A -> M B) :
  keeps_printed m -> (forall a, keeps_printed (k a)) ->
  keeps_printed (bindM m k).
Proof.
  intros Hm Hk w. unfold bindM. specialize (Hm w).
  destruct (m w) as [[a|e] w1]; simpl in *; [|exact Hm].
  rewrite (Hk a w1). exact Hm.
Qed.

Lemma keeps_printed_try {A} (body : M A) (handler : exn -> M A) :
  keeps_printed body -> (forall e, keeps_printed (handler e)) ->
  keeps_printed (try_except body handler).
Proof.
  intros Hb Hh w. unfold try_except. specialize (Hb w).
  destruct (body w) as [[a|e] w1]; simpl in *; [exact Hb|].
  rewrite (Hh e w1). exact Hb.
Qed.

Lemma quiet_emit_keeps_printed p c logger message level show_level :
  Logger.verbose logger = false ->
  keeps_printed (Logger.emit p c logger message level false show_level).
Proof.
  intros Q w. unfold Logger.emit.
  now rewrite quiet_prints_nothing by exact Q.
Qed.

Lemma call_llm_keeps_printed p be config role prompt temperature format :
  keeps_printed (_call_llm p be config role prompt temperature format).
Proof.
  intros w. unfold _call_llm. destruct (create be _ _); reflexivity.
Qed.

Lemma call_tool_keeps_printed p tr cm tool_name arguments :
  keeps_printed (ConnectionManager.call_tool p tr cm tool_name arguments).
Proof.
  intros w. unfold ConnectionManager.call_tool.
  destruct tool_name as [| | | |tool| |]; try reflexivity.
  destruct (PyDict.get _ tool) as [info|]; [|reflexivity].
  destruct (PyDict.get _ (ConnectionManager.server info)); [|reflexivity].
  destruct (ConnectionManager.call tr _ _ _ _); reflexivity.
Qed.

Ltac hush Q :=
  repeat (intros;
          match goal with
          | |- keeps_printed (retM _) => apply keeps_printed_ret
          | |- keeps_printed (liftM _) => apply keeps_printed_lift
          | |- keeps_printed (bindM _ _) => apply keeps_printed_bind
          | |- keeps_printed (try_except _ _) => apply keeps_printed_try
          | |- keeps_printed (Logger.emit _ _ _ _ _ false _) =>
              apply quiet_emit_keeps_printed; exact Q
          | |- keeps_printed (_call_llm _ _ _ _ _ _ _) =>
              apply call_llm_keeps_printed
          | |- keeps_printed (ConnectionManager.call_tool _ _ _ _ _) =>
              apply call_tool_keeps_printed
          | |- _ (if ?b then _ else _) => destruct b
          | |- _ (match ?x with Some _ => _ | None => _ end) => destruct x
          | |- _ (match ?x with (_, _) => _ end) => destruct x
          | |- _ (match ?x with [] => _ | _ :: _ => _ end) => destruct x
          | |- _ => progress cbv zeta
          end).

Lemma quiet_loop_keeps_printed env self total task_list :
  Logger.verbose (logger (platform env) self) = false ->
  forall i results,
    keeps_printed (execute_loop env self total i task_list results).
Proof.
  intros Q. induction task_list as [|task rest IH]; intros i results;
    cbn [execute_loop].
  - apply keeps_printed_ret.
  - unfold attempt, log. hush Q; intros; apply IH.
Qed.

Lemma quiet_respond_keeps_printed env self user_query :
  Logger.verbose (logger (platform env) self) = false ->
  keeps_printed (respond env self user_query).
Proof.
  intros Q. unfold respond, determine_execution_type, generate_task_list,
    interpret_results, _execute_tasks.
  hush Q; apply quiet_loop_keeps_printed; exact Q.
Qed.

(** X28: with [development.verbose] off the request pipeline writes
    nothing to the console: whatever the turn does and however it ends,
    the console is as it was. *)
Theorem quiet_agent_prints_nothing
    (env : Env) (user_query : pystr) (self : Agent) (w : World) :
  py_truthy (verbose (development (config self))) = false ->
  printed (snd (process_request env user_query self w)) = printed w.
Proof.
  intros V. unfold process_request.
  set (asked := append_turn self (py "user") (PStr user_query)).
  assert (Q : Logger.verbose (logger (platform env) asked) = false)
    by exact V.
  pose proof (@quiet_respond_keeps_printed env asked user_query Q w) as K.
  destruct (respond env asked user_query w) as [[response|e] w']; exact K.
Qed.

Lemma quiet_agent_prints_nothing_witness :
  printed
    (snd (process_request
            (Samples.env Samples.posix Samples.failing_server
               (Samples.scripted Samples.tool_text Samples.two_adds_text))
            (py "add twice")
            (Samples.agent Samples.quiet Samples.failing_server) World_empty))
  = [].
Proof.
  apply (@quiet_agent_prints_nothing
           (Samples.env Samples.posix Samples.failing_server
              (Samples.scripted Samples.tool_text Samples.two_adds_text))
           (py "add twice")
           (Samples.agent Samples.quiet Samples.failing_server) World_empty).
  reflexivity.
Defined.

End Silence.
